(** * P16 insights dashboard: fetch layer and cache orchestrator

    A shallow embedding of [src/fetchers/github_fetcher.py] and
    [src/data_manager.py], followed by the properties of the specification
    that were checked against it.

    Conventions of the embedding.
    - A normalised [pd.Timestamp] (midnight, no time zone) is the number of
      days since 1970-01-01, an integer; an instant is a number of seconds
      since the epoch.
    - A [pd.DataFrame] of the program has a "date" column and one value
      column: it is a list of column names and a list of (date, value) rows.
    - Python exceptions are the [Raise] results of the [Result] type.
    - The remote API is a script: the list of responses the program receives,
      in the order of its requests. A script shorter than the run ends a
      pagination loop the way a failed request does. *)

From Stdlib Require Import ZArith Lia Permutation QArith Qcanon.
From stdpp Require Import base decidable option list numbers strings gmap sorting.

Local Open Scope string_scope.
Local Open Scope list_scope.
Local Open Scope Z_scope.

(** ** Exceptions *)

Inductive Exn : Type :=
  | AttributeError
  | KeyError
  | ValueError
  | TypeError
  | OSError
  | FetchError
  | UnboundLocalError.

Inductive Result (A : Type) : Type :=
  | Ok (a : A)
  | Raise (e : Exn).
Arguments Ok {A} a.
Arguments Raise {A} e.

Definition bind {A B : Type} (r : Result A) (k : A -> Result B) : Result B :=
  match r with
  | Ok a => k a
  | Raise e => Raise e
  end.

Definition result_map {A B : Type} (f : A -> B) (r : Result A) : Result B :=
  match r with
  | Ok a => Ok (f a)
  | Raise e => Raise e
  end.

Notation "'try!' x ':=' r 'in' k" := (bind r (fun x => k))
  (at level 10, x name, r at level 100, k at level 200).

(** ** Calendar

    [days_from_civil y m d] is the day number of the proleptic Gregorian
    date y-m-d; [weekday] follows Python: Monday is 0 and Sunday is 6. *)

Abbreviation Date := Z.

Definition days_from_civil (y m d : Z) : Date :=
  let y' := if m <=? 2 then y - 1 else y in
  let era := y' / 400 in
  let yoe := y' - era * 400 in
  let mp := (m + 9) mod 12 in
  let doy := (153 * mp + 2) / 5 + d - 1 in
  let doe := yoe * 365 + yoe / 4 - yoe / 100 + doy in
  era * 146097 + doe - 719468.

Definition weekday (d : Date) : Z := (d + 3) mod 7.

Definition seconds_per_day : Z := 86400.

(** [Timestamp.normalize()]: the day an instant (in seconds) falls on. *)
Definition normalize (seconds : Z) : Date := seconds / seconds_per_day.

(** A parser of the timestamps GitHub sends, "YYYY-MM-DDTHH:MM:SSZ", used to
    run the fetchers on concrete responses. *)

Definition digit_value (c : Ascii.ascii) : option Z :=
  let n := Z.of_N (Ascii.N_of_ascii c) in
  if (48 <=? n) && (n <=? 57) then Some (n - 48) else None.

Fixpoint digits_value (acc : Z) (s : string) : option Z :=
  match s with
  | EmptyString => Some acc
  | String c s' =>
      match digit_value c with
      | Some v => digits_value (10 * acc + v) s'
      | None => None
      end
  end.

Definition number_at (s : string) (start len : nat) : option Z :=
  let part := String.substring start len s in
  if Nat.eqb (String.length part) len then digits_value 0 part else None.

Definition parse_iso8601 (s : string) : option Z :=
  if negb (Nat.eqb (String.length s) 20) then None else
  if negb (String.eqb (String.substring 4 1 s) "-" && String.eqb (String.substring 7 1 s) "-"
           && String.eqb (String.substring 10 1 s) "T" && String.eqb (String.substring 13 1 s) ":"
           && String.eqb (String.substring 16 1 s) ":" && String.eqb (String.substring 19 1 s) "Z")
  then None else
  match number_at s 0 4, number_at s 5 2, number_at s 8 2,
        number_at s 11 2, number_at s 14 2, number_at s 17 2 with
  | Some y, Some m, Some d, Some hh, Some mm, Some ss =>
      Some (days_from_civil y m d * seconds_per_day + hh * 3600 + mm * 60 + ss)
  | _, _, _, _, _, _ => None
  end.

(** ** Data frames *)

Record DataFrame : Type := mkDF {
  columns : list string;
  rows : list (Date * Z)
}.

(** [pd.DataFrame(columns=cols)] and [pd.DataFrame()]. *)
Definition empty_frame (cols : list string) : DataFrame := mkDF cols [].
Definition generic_empty : DataFrame := mkDF [] [].

(** [df.empty]: no row, or no column. *)
Definition empty (df : DataFrame) : bool :=
  match rows df, columns df with
  | [], _ => true
  | _, [] => true
  | _, _ => false
  end.

(** [groupby("date")[col].sum()]: one row per date, in ascending date order,
    the values of equal dates added up. *)
Fixpoint add_row (d : Date) (v : Z) (acc : list (Date * Z)) : list (Date * Z) :=
  match acc with
  | [] => [(d, v)]
  | (d', v') :: tl =>
      if d <? d' then (d, v) :: acc
      else if d =? d' then (d', v' + v) :: tl
      else (d', v') :: add_row d v tl
  end.

Definition groupby_sum (l : list (Date * Z)) : list (Date * Z) :=
  fold_left (fun acc r => add_row (fst r) (snd r) acc) l [].

(** [sort_values("date")], as a stable insertion sort. *)
Fixpoint insert_by_date (r : Date * Z) (l : list (Date * Z)) : list (Date * Z) :=
  match l with
  | [] => [r]
  | r' :: tl => if fst r' <=? fst r then r' :: insert_by_date r tl else r :: l
  end.

Definition sort_values (l : list (Date * Z)) : list (Date * Z) :=
  fold_left (fun acc r => insert_by_date r acc) l [].

(** [drop_duplicates(subset=["date"])]: pandas keeps the first row of each
    date (keep="first" is the default). *)
Fixpoint drop_duplicates_from (seen : list Date) (l : list (Date * Z)) : list (Date * Z) :=
  match l with
  | [] => []
  | (d, v) :: tl =>
      if existsb (Z.eqb d) seen then drop_duplicates_from seen tl
      else (d, v) :: drop_duplicates_from (d :: seen) tl
  end.

Definition drop_duplicates (l : list (Date * Z)) : list (Date * Z) :=
  drop_duplicates_from [] l.

(** [cumsum()] of the value column. *)
Fixpoint cumsum_from (total : Z) (l : list (Date * Z)) : list (Date * Z) :=
  match l with
  | [] => []
  | (d, v) :: tl => (d, total + v) :: cumsum_from (total + v) tl
  end.

Definition cumsum (l : list (Date * Z)) : list (Date * Z) := cumsum_from 0 l.

(** [pd.concat([a, b], ignore_index=True)]: the rows of [a] then those of
    [b]; the columns of [a], then the columns only [b] has. *)
Definition concat (a b : DataFrame) : DataFrame :=
  mkDF (columns a ++ filter (fun c => c ∉ columns a) (columns b)) (rows a ++ rows b).

(** The daily aggregation every counting fetcher ends with:
    [df.groupby("date")[col].sum().reset_index().sort_values("date")]. *)
Definition daily (col : string) (l : list (Date * Z)) : DataFrame :=
  mkDF ["date"; col] (sort_values (groupby_sum l)).

(** ** HTTP transport: [BaseFetcher]

    A response carries its status code, the "X-RateLimit-Reset" header when
    the server sent one, and its decoded body. *)

Record Response (B : Type) : Type := mkResponse {
  status_code : Z;
  rate_limit_reset : option string;
  json : B
}.
Arguments mkResponse {B} _ _ _.
Arguments status_code {B} _.
Arguments rate_limit_reset {B} _.
Arguments json {B} _.

(** Truth value of a Python string. *)
Definition truthy (s : string) : bool := negb (String.eqb s "").

(** Header text reaches the program decoded as ISO-8859-1, one character
    per byte. [str.isdigit()] holds of a text that is not empty and made of
    characters with a digit value: in that range the decimal digits and the
    superscripts two, three and one (bytes 178, 179 and 185). *)
Definition is_decimal (c : Ascii.ascii) : bool := bool_decide (is_Some (digit_value c)).

Definition is_superscript (c : Ascii.ascii) : bool :=
  let n := Ascii.N_of_ascii c in
  ((n =? 178) || (n =? 179) || (n =? 185))%N.

Fixpoint all_chars (p : Ascii.ascii -> bool) (s : string) : bool :=
  match s with
  | EmptyString => true
  | String c s' => p c && all_chars p s'
  end.

Definition isdigit (s : string) : bool :=
  truthy s && all_chars (fun c => is_decimal c || is_superscript c) s.

(** The setting of the interpreter [int] depends on: the most digits a text
    may have to be converted (4300 unless changed; 0 for no limit, as in the
    interpreters that have none). *)
Record Python : Type := mkPython {
  int_max_str_digits : Z
}.

Definition cpython : Python := mkPython 4300.

(** [int(s)] for a text [isdigit] accepts, the only texts the transport
    passes to it: a [ValueError] when a character is not a decimal digit, or
    when the text has more digits than the interpreter allows. *)
Definition int (py : Python) (s : string) : Result Z :=
  match digits_value 0 s with
  | Some v =>
      if negb (truthy s) then Raise ValueError
      else if (0 <? int_max_str_digits py)
              && (int_max_str_digits py <? Z.of_nat (String.length s))
      then Raise ValueError
      else Ok v
  | None => Raise ValueError
  end.

(** What the transport did during one call: the response it returned or
    the exception it raised, the seconds slept after each 403, and the number
    of GET requests issued. *)
Record Outcome (B : Type) : Type := mkOutcome {
  returned : Result (Response B);
  slept : list Z;
  requests_issued : nat
}.
Arguments mkOutcome {B} _ _ _.
Arguments returned {B} _.
Arguments slept {B} _.
Arguments requests_issued {B} _.

Module BaseFetcher.

Record t : Type := mk {
  per_page : Z;
  max_pages : Z;
  request_timeout_s : Z
}.

Definition defaults : t := mk 100 1000 30.

Definition max_retries : Z := 3.

(** The sleep after a 403 and the next value of [backoff_s]; the exception
    of [int(reset)] when it raises. *)
Definition wait_and_backoff {B} (py : Python) (resp : Response B) (now backoff_s : Z)
    : Result (Z * Z) :=
  let backoff := (Z.min backoff_s 5, Z.min (backoff_s * 2) 5) in
  match rate_limit_reset resp with
  | Some reset =>
      if truthy reset && isdigit reset
      then try! seconds := int py reset in
           Ok (Z.min (Z.max 0 (seconds - now) + 1) 10, backoff_s)
      else Ok backoff
  | None => Ok backoff
  end.

(** The body of [for attempt in range(max_retries)]. [server n] is the
    answer to the n-th GET of the call, [clock n] the value of
    [int(time.time())] read after it. [last] is the variable [resp], not
    bound before the first request. *)
Fixpoint request_loop {B} (py : Python) (server : Z -> Response B) (clock : Z -> Z)
    (attempts : list Z) (backoff_s : Z) (last : Result (Response B))
    (naps : list Z) (gets : nat) : Outcome B :=
  match attempts with
  | [] => mkOutcome last naps gets
  | attempt :: later =>
      let resp := server attempt in
      if status_code resp =? 403 then
        match wait_and_backoff py resp (clock attempt) backoff_s with
        | Raise e => mkOutcome (Raise e) naps (S gets)
        | Ok (wait_s, backoff') =>
            if attempt =? max_retries - 1
            then mkOutcome (Ok resp) (naps ++ [wait_s]) (S gets)
            else request_loop py server clock later backoff' (Ok resp)
                   (naps ++ [wait_s]) (S gets)
        end
      else mkOutcome (Ok resp) naps (S gets)
  end.

Definition _request {B} (py : Python) (server : Z -> Response B) (clock : Z -> Z)
    : Outcome B :=
  request_loop py server clock (seqZ 0 max_retries) 2 (Raise UnboundLocalError) [] 0.

End BaseFetcher.

(** The part of pandas the fetchers rely on: [pd.to_datetime(s, utc=True)],
    giving the instant in seconds, or nothing when it raises. *)
Record Pandas : Type := mkPandas {
  to_datetime : string -> option Z
}.

Definition iso_pandas : Pandas := mkPandas parse_iso8601.

(** [BaseFetcher._to_date]: the UTC day of a timestamp string, [None] on any
    failure (a missing string included). *)
Definition _to_date (pd : Pandas) (date_str : option string) : option Date :=
  match date_str with
  | Some s => normalize <$> to_datetime pd s
  | None => None
  end.

(** [x = item.get(key)] followed by [_to_date(x) if x else None]. *)
Definition date_if_present (pd : Pandas) (field : option string) : option Date :=
  match field with
  | Some s => if truthy s then _to_date pd (Some s) else None
  | None => None
  end.

(** Python's [a or b] on optional strings. *)
Definition py_or (a b : option string) : option string :=
  match a with
  | Some s => if truthy s then Some s else b
  | None => b
  end.

(** ** Decoded REST items

    One record for the objects of the listing endpoints; a field the object
    lacks (or whose value is null) is [None]. *)

Record Asset : Type := mkAsset {
  asset_created_at : option string;
  asset_updated_at : option string;
  download_count : option Z
}.

Record Item : Type := mkItem {
  starred_at : option string;
  created_at : option string;
  pull_request : bool;
  commit_author_date : option string;
  published_at : option string;
  assets : list Asset
}.

(** A week bucket of the commit-activity statistics. *)
Record Week : Type := mkWeek {
  week : option Z;
  days : option (list (option Z))
}.

(** ** GraphQL client *)

Record Node : Type := mkNode {
  starredAt : option string;
  createdAt : option string
}.

Record PageInfo : Type := mkPageInfo {
  hasNextPage : bool;
  endCursor : option string
}.

(** A connection object as the client receives it: each key is present or
    not. [no_connection] is the empty mapping. *)
Record Connection : Type := mkConnection {
  edges : option (list Node);
  nodes : option (list Node);
  pageInfo : option PageInfo
}.

Definition no_connection : Connection := mkConnection None None None.
Definition no_page_info : PageInfo := mkPageInfo false None.

Record Repository : Type := mkRepository {
  stargazers : option Connection;
  forks : option Connection;
  pullRequests : option Connection;
  issues : option Connection
}.

(** The "data" mapping: [None] when it has no "repository" key, [Some None]
    when the repository is null. *)
Definition Data : Type := option (option Repository).

(** A query text, reduced to what the fetchers depend on: the connection of
    the repository it asks for and the keys it selects in it. *)
Record Query : Type := mkQuery {
  connection_name : string;
  selection : list string
}.

Module GitHubGraphQL.

(** [query]: the "data" mapping of a 200 response, the empty mapping
    otherwise. *)
Definition query (resp : Response Data) : Data :=
  if negb (status_code resp =? 200) then None else json resp.

(** The request of one page from a script of responses. *)
Definition next (script : list (Response Data)) : Data * list (Response Data) :=
  match script with
  | [] => (None, [])
  | resp :: script' => (query resp, script')
  end.

(** [((data or {}).get("repository") or {}).get(field) or {}] *)
Definition connection (field : Repository -> option Connection) (data : Data) : Connection :=
  match data with
  | Some (Some r) => default no_connection (field r)
  | _ => no_connection
  end.

End GitHubGraphQL.

(** ** The fetchers

    Every fetcher reads a script of the responses [_request] (or the GraphQL
    client) hands it, one per page. *)

Abbreviation RestScript := (list (Response (list Item))).
Abbreviation GraphQLScript := (list (Response Data)).

(** A row of count 1 for each dated event. *)
Definition ones (dates : list Date) : list (Date * Z) := (fun d => (d, 1)) <$> dates.

Module StarsFetcher.

Definition star_dates (pd : Pandas) (stars : list Item) : list Date :=
  omap (fun star => date_if_present pd (starred_at star)) stars.

Fixpoint rest_pages (pd : Pandas) (self : BaseFetcher.t) (script : RestScript)
    (page : Z) (all_stars : list (Date * Z)) : list (Date * Z) :=
  if page <=? BaseFetcher.max_pages self then
    match script with
    | [] => all_stars
    | resp :: script' =>
        if negb (status_code resp =? 200) then all_stars
        else match json resp with
             | [] => all_stars
             | stars =>
                 rest_pages pd self script' (page + 1) (all_stars ++ ones (star_dates pd stars))
             end
    end
  else all_stars.

Definition fetch_rest (pd : Pandas) (self : BaseFetcher.t) (script : RestScript) : DataFrame :=
  match rest_pages pd self script 1 [] with
  | [] => empty_frame ["date"; "stars"]
  | all_stars => daily "stars" all_stars
  end.

Definition edge_dates (pd : Pandas) (edges : list Node) : list Date :=
  omap (fun edge => date_if_present pd (starredAt edge)) edges.

Definition query : Query := mkQuery "stargazers" ["pageInfo"; "edges"].

(** [while True]: the loop ends with the script at the latest. *)
Fixpoint graphql_pages (pd : Pandas) (script : GraphQLScript)
    (all_stars : list (Date * Z)) : list (Date * Z) :=
  match script with
  | [] => all_stars
  | resp :: script' =>
      match GitHubGraphQL.query resp with
      | None | Some None => all_stars
      | Some (Some repo_data) =>
          match stargazers repo_data with
          | None => all_stars
          | Some stargazers =>
              let all_stars' :=
                all_stars ++ ones (edge_dates pd (default [] (edges stargazers))) in
              let page_info := default no_page_info (pageInfo stargazers) in
              if negb (hasNextPage page_info) then all_stars'
              else match endCursor page_info with
                   | Some cursor =>
                       if truthy cursor then graphql_pages pd script' all_stars'
                       else all_stars'
                   | None => all_stars'
                   end
          end
      end
  end.

Definition fetch_graphql (pd : Pandas) (script : GraphQLScript) : DataFrame :=
  match graphql_pages pd script [] with
  | [] => empty_frame ["date"; "stars"]
  | all_stars => daily "stars" all_stars
  end.

(** [use_graphql] is [os.getenv("P16_USE_GRAPHQL") == "1"]. *)
Definition fetch (pd : Pandas) (self : BaseFetcher.t) (use_graphql : bool)
    (rest : RestScript) (graphql : GraphQLScript) : DataFrame :=
  if use_graphql then fetch_graphql pd graphql else fetch_rest pd self rest.

End StarsFetcher.

(** The cursor loop the forks, pull-request and issue GraphQL fetches share:
    [for _ in range(budget)], reading the list under [items] of the
    connection under [field]; [cap] is the early exit on the number of dates
    ([None] when the loop has none). *)
Fixpoint graphql_dates (pd : Pandas) (field : Repository -> option Connection)
    (items : Connection -> option (list Node)) (cap : option Z)
    (budget : nat) (script : GraphQLScript) (dates : list Date) : list Date :=
  match budget with
  | O => dates
  | S budget' =>
      let '(data, script') := GitHubGraphQL.next script in
      let conn := GitHubGraphQL.connection field data in
      let dates' := dates ++ omap (fun n => _to_date pd (createdAt n)) (default [] (items conn)) in
      let page := default no_page_info (pageInfo conn) in
      if negb (hasNextPage page) then dates'
      else match cap with
           | Some bound =>
               if bound <? Z.of_nat (length dates') then dates'
               else graphql_dates pd field items cap budget' script' dates'
           | None => graphql_dates pd field items cap budget' script' dates'
           end
  end.

Module ForksFetcher.

Definition fork_dates (pd : Pandas) (forks : list Item) : list Date :=
  omap (fun fork => date_if_present pd (created_at fork)) forks.

Fixpoint rest_pages (pd : Pandas) (self : BaseFetcher.t) (script : RestScript)
    (page : Z) (all_forks : list (Date * Z)) : list (Date * Z) :=
  if page <=? BaseFetcher.max_pages self then
    match script with
    | [] => all_forks
    | resp :: script' =>
        if negb (status_code resp =? 200) then all_forks
        else match json resp with
             | [] => all_forks
             | forks =>
                 rest_pages pd self script' (page + 1) (all_forks ++ ones (fork_dates pd forks))
             end
    end
  else all_forks.

Definition fetch_rest (pd : Pandas) (self : BaseFetcher.t) (script : RestScript) : DataFrame :=
  match rest_pages pd self script 1 [] with
  | [] => empty_frame ["date"; "forks"]
  | all_forks => daily "forks" all_forks
  end.

Definition query : Query := mkQuery "forks" ["nodes"; "pageInfo"].

(** The events the REST loop and the GraphQL loop accumulate. *)
Definition rest_events (pd : Pandas) (self : BaseFetcher.t) (script : RestScript) : list Date :=
  (rest_pages pd self script 1 []).*1.

Definition graphql_events (pd : Pandas) (script : GraphQLScript) : list Date :=
  graphql_dates pd forks nodes None 200 script [].

(** [daily["forks"] = daily["delta"].cumsum()] *)
Definition fetch_graphql (pd : Pandas) (script : GraphQLScript) : DataFrame :=
  match graphql_events pd script with
  | [] => empty_frame ["date"; "forks"]
  | dates => mkDF ["date"; "forks"] (cumsum (sort_values (groupby_sum (ones dates))))
  end.

Definition fetch (pd : Pandas) (self : BaseFetcher.t) (use_graphql : bool)
    (rest : RestScript) (graphql : GraphQLScript) : DataFrame :=
  if use_graphql then fetch_graphql pd graphql else fetch_rest pd self rest.

End ForksFetcher.

Module PRsFetcher.

Definition item_dates (pd : Pandas) (items : list Item) : list Date :=
  omap (fun it => date_if_present pd (created_at it)) items.

(** [for page in range(1, self.max_pages + 1)] *)
Fixpoint rest_pages (pd : Pandas) (self : BaseFetcher.t) (script : RestScript)
    (page : Z) (dates : list Date) : list Date :=
  if page <=? BaseFetcher.max_pages self then
    match script with
    | [] => dates
    | resp :: script' =>
        if negb (status_code resp =? 200) then dates
        else match json resp with
             | [] => dates
             | items =>
                 let dates' := dates ++ item_dates pd items in
                 if Z.of_nat (length items) <? BaseFetcher.per_page self then dates'
                 else rest_pages pd self script' (page + 1) dates'
             end
    end
  else dates.

Definition fetch (pd : Pandas) (self : BaseFetcher.t) (script : RestScript) : DataFrame :=
  match rest_pages pd self script 1 [] with
  | [] => empty_frame ["date"; "pr_count"]
  | dates => daily "pr_count" (ones dates)
  end.

Definition query : Query := mkQuery "pullRequests" ["nodes"; "pageInfo"].

Definition fetch_graphql (pd : Pandas) (script : GraphQLScript) : DataFrame :=
  match graphql_dates pd pullRequests nodes None 200 script [] with
  | [] => empty_frame ["date"; "pr_count"]
  | dates => daily "pr_count" (ones dates)
  end.

End PRsFetcher.

Module IssuesFetcher.

(** Items that carry a "pull_request" marker are skipped. *)
Definition item_dates (pd : Pandas) (items : list Item) : list Date :=
  omap (fun it => if pull_request it then None else date_if_present pd (created_at it)) items.

Definition max_pages : Z := 20.

Fixpoint rest_pages (pd : Pandas) (self : BaseFetcher.t) (script : RestScript)
    (page : Z) (dates : list Date) : list Date :=
  if page <=? max_pages then
    match script with
    | [] => dates
    | resp :: script' =>
        if negb (status_code resp =? 200) then dates
        else match json resp with
             | [] => dates
             | items =>
                 let dates' := dates ++ item_dates pd items in
                 if Z.of_nat (length items) <? BaseFetcher.per_page self then dates'
                 else if 1000 <? Z.of_nat (length dates') then dates'
                 else rest_pages pd self script' (page + 1) dates'
             end
    end
  else dates.

Definition fetch (pd : Pandas) (self : BaseFetcher.t) (script : RestScript) : DataFrame :=
  match rest_pages pd self script 1 [] with
  | [] => empty_frame ["date"; "issues"]
  | dates => daily "issues" (ones dates)
  end.

(** The query selects "nodes"; the loop reads the "edges" key. *)
Definition query : Query := mkQuery "issues" ["nodes"; "pageInfo"].

Definition fetch_graphql (pd : Pandas) (script : GraphQLScript) : DataFrame :=
  match graphql_dates pd issues edges (Some 500) 10 script [] with
  | [] => empty_frame ["date"; "issues"]
  | dates => daily "issues" (ones dates)
  end.

End IssuesFetcher.

Module ContributionsFetcher.

(** The days of one week bucket that have commits: day [i] of the bucket
    is [(base + pd.Timedelta(days=i)).normalize()]. *)
Definition week_rows (w : Week) : list (Date * Z) :=
  let base := default 0 (week w) in
  let daily_counts := default [] (days w) in
  omap (fun '(i, count) =>
          let date := normalize (base + i * seconds_per_day) in
          let count_value := default 0 count in
          if 0 <? count_value then Some (date, count_value) else None)
       (imap (fun i count => (Z.of_nat i, count)) daily_counts).

Definition no_commits : DataFrame := empty_frame ["date"; "commits"].

(** [for attempt in range(3)] over the answers of the statistics
    endpoint. *)
Fixpoint stats_attempts (script : list (Response (list Week))) (attempts : list Z) : DataFrame :=
  match attempts with
  | [] => no_commits
  | attempt :: later =>
      match script with
      | [] => no_commits
      | resp :: script' =>
          if status_code resp =? 202 then
            if attempt <? 2 then stats_attempts script' later else no_commits
          else if negb (status_code resp =? 200) then no_commits
          else match json resp with
               | [] => no_commits
               | data =>
                   match flat_map week_rows data with
                   | [] => no_commits
                   | rows => mkDF ["date"; "commits"] (sort_values rows)
                   end
               end
      end
  end.

Definition _fetch_from_stats_api (script : list (Response (list Week))) : DataFrame :=
  stats_attempts script (seqZ 0 3).

Definition commit_dates (pd : Pandas) (commits : list Item) : list Date :=
  omap (fun commit => date_if_present pd (commit_author_date commit)) commits.

(** [while page <= min(10, self.max_pages)] *)
Fixpoint commit_pages (pd : Pandas) (self : BaseFetcher.t) (script : RestScript)
    (page : Z) (all_commits : list (Date * Z)) : list (Date * Z) :=
  if page <=? Z.min 10 (BaseFetcher.max_pages self) then
    match script with
    | [] => all_commits
    | resp :: script' =>
        if negb (status_code resp =? 200) then all_commits
        else match json resp with
             | [] => all_commits
             | commits =>
                 let all_commits' := all_commits ++ ones (commit_dates pd commits) in
                 if Z.of_nat (length commits) <? BaseFetcher.per_page self then all_commits'
                 else commit_pages pd self script' (page + 1) all_commits'
             end
    end
  else all_commits.

Definition _fetch_from_commits_api (pd : Pandas) (self : BaseFetcher.t)
    (script : RestScript) : DataFrame :=
  match commit_pages pd self script 1 [] with
  | [] => no_commits
  | all_commits => daily "commits" all_commits
  end.

Definition fetch (pd : Pandas) (self : BaseFetcher.t)
    (stats : list (Response (list Week))) (commits : RestScript) : DataFrame :=
  let stats_data := _fetch_from_stats_api stats in
  if negb (empty stats_data) then stats_data
  else _fetch_from_commits_api pd self commits.

End ContributionsFetcher.

Module DownloadsFetcher.

(** The rows of the assets of one release: the download counter of an
    asset goes to the day the asset was created. *)
Definition asset_rows (pd : Pandas) (release_date : string) (assets : list Asset)
    : list (Date * Z) :=
  omap (fun asset =>
          let asset_date :=
            py_or (py_or (asset_created_at asset) (asset_updated_at asset)) (Some release_date) in
          match _to_date pd asset_date with
          | None => None
          | Some asset_ts =>
              let count := default 0 (download_count asset) in
              if 0 <? count then Some (asset_ts, count) else None
          end)
       assets.

Definition release_rows (pd : Pandas) (release : Item) : list (Date * Z) :=
  match py_or (published_at release) (created_at release) with
  | None => []
  | Some release_date =>
      if negb (truthy release_date) then []
      else match _to_date pd (Some release_date) with
           | None => []
           | Some _ => asset_rows pd release_date (assets release)
           end
  end.

Fixpoint release_pages (pd : Pandas) (self : BaseFetcher.t) (script : RestScript)
    (page : Z) (all_downloads : list (Date * Z)) : list (Date * Z) :=
  if page <=? BaseFetcher.max_pages self then
    match script with
    | [] => all_downloads
    | resp :: script' =>
        if negb (status_code resp =? 200) then all_downloads
        else match json resp with
             | [] => all_downloads
             | releases =>
                 let all_downloads' := all_downloads ++ flat_map (release_rows pd) releases in
                 if Z.of_nat (length releases) <? BaseFetcher.per_page self then all_downloads'
                 else release_pages pd self script' (page + 1) all_downloads'
             end
    end
  else all_downloads.

Definition fetch (pd : Pandas) (self : BaseFetcher.t) (script : RestScript) : DataFrame :=
  match release_pages pd self script 1 [] with
  | [] => empty_frame ["date"; "downloads"]
  | all_downloads => daily "downloads" all_downloads
  end.

End DownloadsFetcher.

(** ** The orchestrator: [DataManager]

    The disk is a finite map from paths to files; a file has a modification
    time (seconds, a rational) and the table it holds. An instance is the
    dictionary of the attributes assigned to it. *)

Record File : Type := mkFile {
  mtime : Qc;
  content : DataFrame
}.

Inductive Attr : Type :=
  | AStr (s : string)
  | AInt (n : Z)
  | AList (l : list string)
  | ADict (d : gmap string string)
  | AFetcher
  | ALoader.

Record DataFileInfo : Type := mkDataFileInfo {
  path : string;
  exists_ : bool;
  age_hours : option Qc;
  stale : bool
}.

(** What surrounds a call: the loader's [path_for], the result of calling
    the fetcher of a metric on the live API (a frame, or an exception), the
    value of [time.time()], and whether a write to a path succeeds. *)
Record World : Type := mkWorld {
  path_for : string -> string -> string -> string;
  fetch : string -> string -> string -> Result DataFrame;
  now : Qc;
  writable : string -> bool
}.

Definition getattr (self : gmap string Attr) (name : string) : Result Attr :=
  match self !! name with
  | Some v => Ok v
  | None => Raise AttributeError
  end.

Definition as_int (a : Attr) : Result Z :=
  match a with AInt n => Ok n | _ => Raise TypeError end.

Definition as_list (a : Attr) : Result (list string) :=
  match a with AList l => Ok l | _ => Raise TypeError end.

Definition as_dict (a : Attr) : Result (gmap string string) :=
  match a with ADict d => Ok d | _ => Raise AttributeError end.

(** [df.to_csv(path, index=False)]: the file is replaced as a whole. *)
Definition to_csv (w : World) (files : gmap string File) (path : string) (df : DataFrame)
    : Result (gmap string File) :=
  if writable w path then Ok (<[path := mkFile (now w) df]> files) else Raise OSError.

(** Modelled from the spec: [DataLoader.get_for] of [loaders/data_loader.py],
    which is not part of the sources. It reads back the persisted artifact of
    a (metric, owner, repo): the table last written to its path, with the
    metric's two-column schema. *)
Definition get_for (w : World) (files : gmap string File) (data_type owner repo : string)
    : DataFrame :=
  match files !! path_for w data_type owner repo with
  | Some f => content f
  | None => generic_empty
  end.

Module DataManager.

Definition __init__ (data_dir : string) (refresh_threshold_hours : Z) : gmap string Attr :=
  <["types" := AList ["stars"; "forks"; "prs"; "downloads"; "issues"; "contributions"]]>
    (<["loader" := ALoader]>
      (<["fetcher" := AFetcher]>
        (<["refresh_threshold_hours" := AInt refresh_threshold_hours]>
          (<["data_dir" := AStr data_dir]> ∅)))).

(** The dictionary of expected columns written out at each use. *)
Definition expected_cols_table : list (string * list string) :=
  [ ("stars", ["date"; "stars"]);
    ("forks", ["date"; "forks"]);
    ("prs", ["date"; "pr_count"]);
    ("downloads", ["date"; "downloads"]);
    ("issues", ["date"; "issues"]);
    ("contributions", ["date"; "commits"]) ].

Definition expected_cols (data_type : string) : Result (list string) :=
  match (list_to_map expected_cols_table : gmap string (list string)) !! data_type with
  | Some cols => Ok cols
  | None => Raise KeyError
  end.

Definition _is_data_stale (self : gmap string Attr) (w : World) (files : gmap string File)
    (path : string) : Result bool :=
  match files !! path with
  | None => Ok true
  | Some f =>
      let age_hours := ((now w - mtime f) / Qc_of_Z 3600)%Qc in
      try! threshold := bind (getattr self "refresh_threshold_hours") as_int in
      Ok (bool_decide (Qc_of_Z threshold < age_hours)%Qc)
  end.

(** The if/elif chain over the six fetchers. *)
Definition call_fetcher (w : World) (data_type owner repo : string) : Result DataFrame :=
  if String.eqb data_type "stars" then fetch w "stars" owner repo
  else if String.eqb data_type "forks" then fetch w "forks" owner repo
  else if String.eqb data_type "prs" then fetch w "prs" owner repo
  else if String.eqb data_type "downloads" then fetch w "downloads" owner repo
  else if String.eqb data_type "issues" then fetch w "issues" owner repo
  else if String.eqb data_type "contributions" then fetch w "contributions" owner repo
  else Raise ValueError.

Definition _fetch_and_save_data (w : World) (files : gmap string File)
    (data_type owner repo : string) : Result DataFrame * gmap string File :=
  let attempt : Result (DataFrame * gmap string File) :=
    try! df := call_fetcher w data_type owner repo in
    try! expected := expected_cols data_type in
    let available_cols := filter (fun c => c ∈ columns df) expected in
    if negb (length available_cols =? length expected)%nat
    then Ok (empty_frame expected, files)
    else
      let df := mkDF available_cols (rows df) in
      match to_csv w files (path_for w data_type owner repo) df with
      | Ok files' => Ok (df, files')
      | Raise _ => Ok (df, files)
      end in
  match attempt with
  | Ok (df, files') => (Ok df, files')
  | Raise _ => (result_map empty_frame (expected_cols data_type), files)
  end.

Definition _load_data (w : World) (files : gmap string File)
    (data_type owner repo : string) : DataFrame :=
  get_for w files data_type owner repo.

Definition get_data (self : gmap string Attr) (w : World) (files : gmap string File)
    (data_type owner repo : string) (force_refresh : bool)
    : Result DataFrame * gmap string File :=
  let path := path_for w data_type owner repo in
  match (if force_refresh then Ok true else _is_data_stale self w files path) with
  | Raise e => (Raise e, files)
  | Ok true => _fetch_and_save_data w files data_type owner repo
  | Ok false => (Ok (_load_data w files data_type owner repo), files)
  end.

(** A loop over metric types that fills a dictionary, the disk threaded
    through; an exception ends it. *)
Fixpoint for_each_type (step : gmap string File -> string -> Result DataFrame * gmap string File)
    (types : list string) (files : gmap string File) (result : gmap string DataFrame)
    : Result (gmap string DataFrame) * gmap string File :=
  match types with
  | [] => (Ok result, files)
  | t :: types' =>
      match step files t with
      | (Ok df, files') => for_each_type step types' files' (<[t := df]> result)
      | (Raise e, files') => (Raise e, files')
      end
  end.

Definition get_all_cached_data (self : gmap string Attr) (w : World) (files : gmap string File)
    (owner repo : string) (force_refresh : bool)
    : Result (gmap string DataFrame) * gmap string File :=
  match bind (getattr self "types") as_list with
  | Raise e => (Raise e, files)
  | Ok types_to_process =>
      for_each_type (fun files t => get_data self w files t owner repo force_refresh)
                    types_to_process files ∅
  end.

(** The unimplemented extension point. *)
Definition _fetch_missing_data (data_type owner repo : string) (cached_df : DataFrame)
    (start_date end_date : Date) : DataFrame :=
  generic_empty.

(** [pd.concat([cached, fresh], ignore_index=True)] followed by
    [.drop_duplicates(subset=["date"]).sort_values("date")]. *)
Definition merge (cached fresh : DataFrame) : DataFrame :=
  let merged := concat cached fresh in
  mkDF (columns merged) (sort_values (drop_duplicates (rows merged))).

Definition date_min (dates : list Date) : option Date :=
  match dates with
  | [] => None
  | d :: tl => Some (foldr Z.min d tl)
  end.

Definition date_max (dates : list Date) : option Date :=
  match dates with
  | [] => None
  | d :: tl => Some (foldr Z.max d tl)
  end.

(** The coverage test of the range-aware retrieval; [cached["date"]]
    raises when the frame has no such column. *)
Definition range_covered (self : gmap string Attr) (w : World) (files : gmap string File)
    (path : string) (cached : DataFrame) (req_start req_end : Date) : Result bool :=
  if bool_decide ("date" ∈ columns cached) then
    let cached_dates := (rows cached).*1 in
    match date_min cached_dates, date_max cached_dates with
    | Some lo, Some hi =>
        if (lo <=? req_start) && (req_end <=? hi)
        then result_map negb (_is_data_stale self w files path)
        else Ok false
    | _, _ => Ok false
    end
  else Raise KeyError.

Inductive Decision : Type :=
  | Served (merged : DataFrame) (files : gmap string File)
  | NeedFetch (need_fetch : bool).

(** The body of the loop over metric types of
    [get_all_cached_data_for_range]. *)
Definition range_step (self : gmap string Attr) (w : World) (owner repo : string)
    (start_date end_date : Date) (force_refresh : bool)
    (files : gmap string File) (t : string) : Result DataFrame * gmap string File :=
  let path := path_for w t owner repo in
  match (match files !! path with
         | Some _ => Ok (_load_data w files t owner repo)
         | None => result_map empty_frame (expected_cols t)
         end) with
  | Raise e => (Raise e, files)
  | Ok cached =>
      let need_fetch := force_refresh || empty cached in
      let decision :=
        if negb need_fetch && negb (empty cached) then
          match range_covered self w files path cached start_date end_date with
          | Ok true => NeedFetch need_fetch
          | Ok false =>
              if negb (empty cached) then
                let missing_data := _fetch_missing_data t owner repo cached start_date end_date in
                if negb (empty missing_data) then
                  let merged := merge cached missing_data in
                  match to_csv w files path merged with
                  | Ok files' => Served merged files'
                  | Raise _ => NeedFetch true
                  end
                else NeedFetch true
              else NeedFetch true
          | Raise _ => NeedFetch true
          end
        else NeedFetch need_fetch in
      match decision with
      | Served merged files' => (Ok merged, files')
      | NeedFetch true =>
          match _fetch_and_save_data w files t owner repo with
          | (Ok fresh, files1) =>
              let merged := if empty cached then fresh else merge cached fresh in
              match to_csv w files1 path merged with
              | Ok files2 => (Ok merged, files2)
              | Raise _ => (Ok merged, files1)
              end
          | (Raise _, files1) =>
              if negb (empty cached) then (Ok cached, files1)
              else (result_map empty_frame (expected_cols t), files1)
          end
      | NeedFetch false => (Ok cached, files)
      end
  end.

Definition get_all_cached_data_for_range (self : gmap string Attr) (w : World)
    (files : gmap string File) (owner repo : string) (start_date end_date : Date)
    (force_refresh : bool) : Result (gmap string DataFrame) * gmap string File :=
  match bind (getattr self "types") as_list with
  | Raise e => (Raise e, files)
  | Ok types_to_process =>
      for_each_type (range_step self w owner repo start_date end_date force_refresh)
                    types_to_process files ∅
  end.

Definition file_info (self : gmap string Attr) (w : World) (files : gmap string File)
    (path : string) : Result DataFileInfo :=
  match files !! path with
  | Some f =>
      let age_hours := ((now w - mtime f) / Qc_of_Z 3600)%Qc in
      try! threshold := bind (getattr self "refresh_threshold_hours") as_int in
      Ok (mkDataFileInfo path true (Some age_hours)
            (bool_decide (Qc_of_Z threshold < age_hours)%Qc))
  | None => Ok (mkDataFileInfo path false None true)
  end.

Fixpoint status_of (self : gmap string Attr) (w : World) (files : gmap string File)
    (items : list (string * string)) (status : gmap string DataFileInfo)
    : Result (gmap string DataFileInfo) :=
  match items with
  | [] => Ok status
  | (t, path) :: items' =>
      try! info := file_info self w files path in
      status_of self w files items' (<[t := info]> status)
  end.

Definition get_data_status (self : gmap string Attr) (w : World) (files : gmap string File)
    : Result (gmap string DataFileInfo) :=
  try! type_to_file := bind (getattr self "type_to_file") as_dict in
  status_of self w files (map_to_list type_to_file) ∅.

(** [clear_cache] returns nothing; its result is the disk it leaves. *)
Definition clear_cache (self : gmap string Attr) (files : gmap string File)
    (data_type : option string) : Result (gmap string File) :=
  match data_type with
  | None =>
      try! type_to_file := bind (getattr self "type_to_file") as_dict in
      Ok (foldr (fun path files => delete path files) files (map_to_list type_to_file).*2)
  | Some data_type =>
      try! type_to_file := bind (getattr self "type_to_file") as_dict in
      match type_to_file !! data_type with
      | Some path => if truthy path then Ok (delete path files) else Ok files
      | None => Ok files
      end
  end.

(** [data_types] defaults to downloads and contributions. *)
Fixpoint force_fetch_each (types : list string) (w : World) (owner repo : string)
    (data_types : list string) (files : gmap string File) (result : gmap string DataFrame)
    : Result (gmap string DataFrame) * gmap string File :=
  match data_types with
  | [] => (Ok result, files)
  | data_type :: later =>
      if bool_decide (data_type ∈ types) then
        match _fetch_and_save_data w files data_type owner repo with
        | (Ok df, files') =>
            force_fetch_each types w owner repo later files' (<[data_type := df]> result)
        | (Raise _, files') =>
            match expected_cols data_type with
            | Ok cols =>
                force_fetch_each types w owner repo later files'
                  (<[data_type := empty_frame cols]> result)
            | Raise e => (Raise e, files')
            end
        end
      else force_fetch_each types w owner repo later files result
  end.

Definition force_fetch_real_data (self : gmap string Attr) (w : World)
    (files : gmap string File) (owner repo : string) (data_types : option (list string))
    : Result (gmap string DataFrame) * gmap string File :=
  let data_types := default ["downloads"; "contributions"] data_types in
  match bind (getattr self "types") as_list with
  | Raise e => (Raise e, files)
  | Ok types => force_fetch_each types w owner repo data_types files ∅
  end.

End DataManager.

(** ** The GraphQL endpoint

    What the endpoint holds for one page of a connection, and its answer to
    a query: a failure, a null repository, or the page with the selected
    keys only, under the connection the query names. *)

Record ServerPage : Type := mkServerPage {
  page_nodes : list Node;
  page_info : PageInfo
}.

Inductive ServerAnswer : Type :=
  | Failed (status : Z)
  | NoRepository
  | Page (p : ServerPage).

Definition select (q : Query) (p : ServerPage) : Connection :=
  mkConnection
    (if bool_decide ("edges" ∈ selection q) then Some (page_nodes p) else None)
    (if bool_decide ("nodes" ∈ selection q) then Some (page_nodes p) else None)
    (if bool_decide ("pageInfo" ∈ selection q) then Some (page_info p) else None).

Definition under (q : Query) (c : Connection) : Repository :=
  let at_ name := if String.eqb (connection_name q) name then Some c else None in
  mkRepository (at_ "stargazers") (at_ "forks") (at_ "pullRequests") (at_ "issues").

Definition respond (q : Query) (a : ServerAnswer) : Response Data :=
  match a with
  | Failed status => mkResponse status None None
  | NoRepository => mkResponse 200 None (Some None)
  | Page p => mkResponse 200 None (Some (Some (under q (select q p))))
  end.

(** ** All fetch paths

    The scripts one repository answers with, and the fetch paths by name, to
    state what holds of every fetcher. *)

Record Api : Type := mkApi {
  rest : RestScript;
  graphql : GraphQLScript;
  commit_activity : list (Response (list Week))
}.

Inductive FetchPath : Type :=
  | StarsRest | StarsGraphQL
  | ForksRest | ForksGraphQL
  | PRsRest | PRsGraphQL
  | IssuesRest | IssuesGraphQL
  | CommitStats | CommitListing | Contributions
  | Downloads.

Definition value_column (p : FetchPath) : string :=
  match p with
  | StarsRest | StarsGraphQL => "stars"
  | ForksRest | ForksGraphQL => "forks"
  | PRsRest | PRsGraphQL => "pr_count"
  | IssuesRest | IssuesGraphQL => "issues"
  | CommitStats | CommitListing | Contributions => "commits"
  | Downloads => "downloads"
  end.

Definition run (p : FetchPath) (pd : Pandas) (self : BaseFetcher.t) (api : Api) : DataFrame :=
  match p with
  | StarsRest => StarsFetcher.fetch_rest pd self (rest api)
  | StarsGraphQL => StarsFetcher.fetch_graphql pd (graphql api)
  | ForksRest => ForksFetcher.fetch_rest pd self (rest api)
  | ForksGraphQL => ForksFetcher.fetch_graphql pd (graphql api)
  | PRsRest => PRsFetcher.fetch pd self (rest api)
  | PRsGraphQL => PRsFetcher.fetch_graphql pd (graphql api)
  | IssuesRest => IssuesFetcher.fetch pd self (rest api)
  | IssuesGraphQL => IssuesFetcher.fetch_graphql pd (graphql api)
  | CommitStats => ContributionsFetcher._fetch_from_stats_api (commit_activity api)
  | CommitListing => ContributionsFetcher._fetch_from_commits_api pd self (rest api)
  | Contributions => ContributionsFetcher.fetch pd self (commit_activity api) (rest api)
  | Downloads => DownloadsFetcher.fetch pd self (rest api)
  end.

(** The nodes a GraphQL response carries, under any key of any connection. *)
Definition connection_nodes (c : option Connection) : list Node :=
  match c with
  | Some c => default [] (edges c) ++ default [] (nodes c)
  | None => []
  end.

Definition response_nodes (resp : Response Data) : list Node :=
  match json resp with
  | Some (Some r) =>
      connection_nodes (stargazers r) ++ connection_nodes (forks r)
      ++ connection_nodes (pullRequests r) ++ connection_nodes (issues r)
  | _ => []
  end.

(** No response of the scripts carries an item. *)
Definition zero_items (api : Api) : Prop :=
  Forall (fun resp => json resp = []) (rest api)
  /\ Forall (fun resp => response_nodes resp = []) (graphql api)
  /\ Forall (fun resp => json resp = []) (commit_activity api).

(** The shape of a series: dates pairwise distinct, rows in ascending order
    of date. *)
Definition dates (df : DataFrame) : list Date := (rows df).*1.

Definition distinct_and_sorted (df : DataFrame) : Prop :=
  NoDup (dates df) /\ Sorted Z.le (dates df).

(** The events a list of dates holds on a day, and up to a day. *)
Definition events_on (d : Date) (events : list Date) : Z :=
  Z.of_nat (length (filter (fun e => e = d) events)).

Definition events_until (d : Date) (events : list Date) : Z :=
  Z.of_nat (length (filter (fun e => e <= d) events)).

(** The sum of the values a list of rows holds for a day, and up to a day. *)
Definition total_on (d : Date) (l : list (Date * Z)) : Z :=
  foldr (fun r s => if bool_decide (r.1 = d) then r.2 + s else s) 0 l.

Definition total_until (d : Date) (l : list (Date * Z)) : Z :=
  foldr (fun r s => if bool_decide (r.1 <= d) then r.2 + s else s) 0 l.

(** ** Concrete responses for the examples *)

Definition fork_created (s : string) : Item := mkItem None (Some s) false None None [].
Definition node_created (s : string) : Node := mkNode None (Some s).
Definition last_page (ns : list Node) : ServerAnswer :=
  Page (mkServerPage ns (mkPageInfo false None)).

(** Three forks on two days, newest first over REST and oldest first over
    GraphQL, as the two requests ask. *)
Definition example_forks_rest : RestScript :=
  [ mkResponse 200 None
      [ fork_created "2024-01-02T09:00:00Z";
        fork_created "2024-01-01T15:00:00Z";
        fork_created "2024-01-01T10:00:00Z" ] ].

Definition example_forks_graphql : GraphQLScript :=
  respond ForksFetcher.query <$>
    [ last_page [ node_created "2024-01-01T10:00:00Z";
                  node_created "2024-01-01T15:00:00Z";
                  node_created "2024-01-02T09:00:00Z" ] ].

(** ** Fork events and the two endpoints that list them

    A fork event is known by the instant it was created at, in seconds. Day
    [d] runs from second [86400 * d] up to second [86400 * (d + 1)], not
    included. *)
Definition forks_created_on (d : Date) (instants : list Z) : Z :=
  Z.of_nat (length (filter (fun i => 86400 * d <= i < 86400 * (d + 1)) instants)).

Definition forks_created_until (d : Date) (instants : list Z) : Z :=
  Z.of_nat (length (filter (fun i => i < 86400 * (d + 1)) instants)).

(** [stamps] are the creation timestamps of the events, as the API writes
    them, and [instants] what pandas reads in them, event by event. *)
Definition created_at_instants (pd : Pandas) (stamps : list string) (instants : list Z)
    : Prop :=
  Forall2 (fun s i => s <> "" /\ to_datetime pd s = Some i) stamps instants.

(** The REST listing of the forks: the events page by page, each page a 200
    answer, and an empty page after the last. *)
Definition serve_forks_rest (pages : list (list string)) : RestScript :=
  ((fun page : list string => mkResponse 200 None (fork_created <$> page)) <$> pages)
  ++ [mkResponse 200 None []].

(** The GraphQL connection of the forks: every page but the last announces a
    next page. *)
Definition has_more (later : list (list string)) : bool :=
  match later with [] => false | _ :: _ => true end.

Fixpoint forks_connection (pages : list (list string)) : list ServerAnswer :=
  match pages with
  | [] => []
  | page :: later =>
      Page (mkServerPage (node_created <$> page) (mkPageInfo (has_more later) (Some "cursor")))
      :: forks_connection later
  end.

Definition serve_forks_graphql (pages : list (list string)) : GraphQLScript :=
  respond ForksFetcher.query <$> forks_connection pages.

(** Three forks on two days, and the pages each endpoint lists them in:
    newest first over REST, oldest first over GraphQL. *)
Definition example_fork_stamps : list string :=
  ["2024-01-01T10:00:00Z"; "2024-01-01T15:00:00Z"; "2024-01-02T09:00:00Z"].

Definition example_fork_instants : list Z := [1704103200; 1704121200; 1704186000].

Definition example_rest_paging : list (list string) :=
  [["2024-01-02T09:00:00Z"; "2024-01-01T15:00:00Z"]; ["2024-01-01T10:00:00Z"]].

Definition example_graphql_paging : list (list string) :=
  [["2024-01-01T10:00:00Z"]; ["2024-01-01T15:00:00Z"; "2024-01-02T09:00:00Z"]].

(** A response carries a usable reset time: the header is there and is a
    string of digits. *)
Definition reset_provided {B} (resp : Response B) : bool :=
  match rate_limit_reset resp with
  | Some reset => truthy reset && isdigit reset
  | None => false
  end.

(** A server that is rate limited twice, with a reset time 5 seconds ahead,
    and then answers. *)
Definition example_rate_limited (n : Z) : Response (list Item) :=
  if n <? 2 then mkResponse 403 (Some "1700000005") []
  else mkResponse 200 None [fork_created "2024-01-02T09:00:00Z"].

(** One week bucket starting on Sunday 2024-01-07 with commits on its Monday
    and Thursday. *)
Definition example_commit_activity : list (Response (list Week)) :=
  [ mkResponse 200 None
      [ mkWeek (Some (days_from_civil 2024 1 7 * seconds_per_day))
               (Some [Some 0; Some 2; Some 0; Some 0; Some 1; Some 0; Some 0]) ] ].

(** A clock, a world in which every fetcher has the same outcome, and a disk
    that holds the stars artifact alone, written at a given time. *)
Definition example_clock : Qc := Qc_of_Z 1700086400.

Definition example_world (fetched : Result DataFrame) : World :=
  mkWorld (fun data_type owner repo => data_type) (fun _ _ _ => fetched)
          example_clock (fun _ => true).

Definition example_disk (written : Z) (df : DataFrame) : gmap string File :=
  {[ "stars" := mkFile (Qc_of_Z written) df ]}.

(** A repository without activity: every endpoint answers with an empty
    page. *)
Definition example_quiet_api : Api :=
  mkApi [mkResponse 200 None []]
        [respond StarsFetcher.query (last_page [])]
        [mkResponse 200 None []].

(** The statistics endpoint answering with the same week twice. *)
Definition example_repeated_week : Api :=
  mkApi [] []
    [ mkResponse 200 None
        [ mkWeek (Some (days_from_civil 2024 1 7 * seconds_per_day))
                 (Some [Some 0; Some 2; Some 0; Some 0; Some 0; Some 0; Some 0]);
          mkWeek (Some (days_from_civil 2024 1 7 * seconds_per_day))
                 (Some [Some 0; Some 3; Some 0; Some 0; Some 0; Some 0; Some 0]) ] ].

Definition example_stars_api : Api :=
  mkApi [ mkResponse 200 None
            [ mkItem (Some "2024-01-01T10:00:00Z") None false None None [];
              mkItem (Some "2024-01-01T15:00:00Z") None false None None [];
              mkItem (Some "2024-01-02T09:00:00Z") None false None None [] ] ]
        [] example_commit_activity.

(** Week buckets as the statistics endpoint documents them: at most seven
    daily counts each, and each bucket starting at least seven days after
    the one before. *)
Definition week_start (w : Week) : Date := normalize (default 0 (week w)).

Definition regular_weeks (data : list Week) : Prop :=
  Forall (fun w => (length (default [] (days w)) <= 7)%nat) data
  /\ StronglySorted (fun w1 w2 => week_start w1 + 7 <= week_start w2) data.

(** The metric types of the orchestrator and the two-column schema of
    each. *)
Definition metric_types : list string :=
  ["stars"; "forks"; "prs"; "downloads"; "issues"; "contributions"].

Definition schema_of (t : string) : list string :=
  match DataManager.expected_cols t with
  | Ok cols => cols
  | Raise _ => []
  end.

(** The entry of a metric in the dictionary a retrieval returns. *)
Definition result_for (r : Result (gmap string DataFrame)) (t : string) : option DataFrame :=
  match r with
  | Ok result => result !! t
  | Raise _ => None
  end.

(** The merge scenario of the specification: a cache holding (d1, 5) and
    (d2, 3), and a fetch that brings (d2, 7) and (d3, 1). *)
Definition example_cached : DataFrame :=
  mkDF ["date"; "stars"] [(days_from_civil 2024 1 1, 5); (days_from_civil 2024 1 2, 3)].

Definition example_fresh : DataFrame :=
  mkDF ["date"; "stars"] [(days_from_civil 2024 1 2, 7); (days_from_civil 2024 1 3, 1)].

(** The cached frame of the range-aware retrieval, and its decision to
    fetch, written as one test. *)
Definition cached_frame (w : World) (owner repo : string) (files : gmap string File)
    (t : string) : DataFrame :=
  match files !! path_for w t owner repo with
  | Some f => content f
  | None => empty_frame (schema_of t)
  end.

Definition must_fetch (self : gmap string Attr) (w : World) (owner repo : string)
    (files : gmap string File) (t : string) (cached : DataFrame)
    (start_date end_date : Date) (force : bool) : bool :=
  force || empty cached
  || negb (match DataManager.range_covered self w files (path_for w t owner repo)
                   cached start_date end_date with
           | Ok covered => covered
           | Raise _ => false
           end).

(** ** The dashboard helpers: [app.py]

    The dates of a frame are parsed already, so the coercion of the date
    column and the removal of unparseable rows leave a frame as it is. *)

Module App.

(** [df[y_col]] for the value column of a frame: a key error when the frame
    has no such column, a type error for the sum of the date column. *)
Definition values_of (df : DataFrame) (y_col : string) : Result (list Z) :=
  match columns df with
  | [_; c] =>
      if String.eqb y_col c then Ok (rows df).*2
      else if bool_decide (y_col ∈ columns df) then Raise TypeError
      else Raise KeyError
  | _ => Raise KeyError
  end.

Definition sum (values : list Z) : Z := foldr Z.add 0 values.

Definition get_period_activity (df : DataFrame) (y_col : string) : Result Z :=
  if empty df then Ok 0 else result_map sum (values_of df y_col).

Definition get_current_total (df : DataFrame) (y_col : string) : Result Z :=
  if empty df then Ok 0 else result_map sum (values_of df y_col).

Definition summarize_total (df : DataFrame) (y_col : string) (metric_type : option string)
    : Result Z :=
  if empty df then Ok 0
  else if bool_decide (metric_type ∈ [Some "stars"; Some "forks"])
       then result_map sum (values_of df y_col)
       else result_map sum (values_of df y_col).

(** [filter_by_date] with the default [date_col]. *)
Definition filter_by_date (df : DataFrame) (start_d end_d : Date) : Result DataFrame :=
  if empty df then Ok df
  else if bool_decide ("date" ∈ columns df)
       then Ok (mkDF (columns df)
                     (filter (fun r => start_d <= r.1 /\ r.1 <= end_d) (rows df)))
       else Raise KeyError.

End App.

(** The number of pages a REST fetch path asks for at most. *)
Definition page_limit (p : FetchPath) (self : BaseFetcher.t) : Z :=
  match p with
  | IssuesRest => IssuesFetcher.max_pages
  | CommitListing | Contributions => Z.min 10 (BaseFetcher.max_pages self)
  | _ => BaseFetcher.max_pages self
  end.

(** The page information the cursor loops read in a response. *)
Definition next_page (field : Repository -> option Connection) (resp : Response Data) : bool :=
  hasNextPage
    (default no_page_info
       (pageInfo (GitHubGraphQL.connection field (GitHubGraphQL.query resp)))).

(** A server that keeps answering 403, without and with a reset time. *)
Definition example_always_limited (n : Z) : Response (list Item) :=
  mkResponse 403 None [].

(** The reset header of a response can be read as a number: when [isdigit]
    accepts it, it is made of decimal digits, no more of them than the
    interpreter converts. *)
Definition readable_reset {B} (py : Python) (resp : Response B) : Prop :=
  forall reset, rate_limit_reset resp = Some reset -> isdigit reset = true ->
    all_chars is_decimal reset = true
    /\ (int_max_str_digits py <= 0
        \/ Z.of_nat (String.length reset) <= int_max_str_digits py).

(** The 403 answers a call receives: the answers to its three requests, up
    to the first that is not a 403. *)
Fixpoint leading_403 {B} (server : Z -> Response B) (attempts : list Z) : nat :=
  match attempts with
  | [] => 0
  | n :: later =>
      if status_code (server n) =? 403 then S (leading_403 server later) else 0%nat
  end.

Definition refusals {B} (server : Z -> Response B) : nat := leading_403 server [0; 1; 2].

(** A server that is rate limited twice and then answers, as
    [example_rate_limited], whose reset header is the superscript two
    (byte 178), and one whose reset header has 4301 digits. *)
Definition superscript_two : string := String (Ascii.ascii_of_N 178) EmptyString.

Definition example_unreadable_reset (n : Z) : Response (list Item) :=
  if n <? 2 then mkResponse 403 (Some superscript_two) []
  else mkResponse 200 None [fork_created "2024-01-02T09:00:00Z"].

Definition long_digits : string :=
  String.string_of_list_ascii (replicate 4301 (Ascii.ascii_of_N 49)).

Definition example_long_reset (n : Z) : Response (list Item) :=
  if n <? 2 then mkResponse 403 (Some long_digits) []
  else mkResponse 200 None [fork_created "2024-01-02T09:00:00Z"].

Definition example_server_error (n : Z) : Response (list Item) :=
  mkResponse 500 None [].

(** The fetch paths that end with the aggregation by day, and the rows such
    a path has gathered when its page loop ends (the GraphQL forks path
    gathers rows too, and returns their running sums). *)
Definition aggregates_by_day (p : FetchPath) : bool :=
  match p with
  | ForksGraphQL | CommitStats | Contributions => false
  | _ => true
  end.

Definition gathered (p : FetchPath) (pd : Pandas) (self : BaseFetcher.t) (api : Api)
    : list (Date * Z) :=
  match p with
  | StarsRest => StarsFetcher.rest_pages pd self (rest api) 1 []
  | StarsGraphQL => StarsFetcher.graphql_pages pd (graphql api) []
  | ForksRest => ForksFetcher.rest_pages pd self (rest api) 1 []
  | ForksGraphQL => ones (ForksFetcher.graphql_events pd (graphql api))
  | PRsRest => ones (PRsFetcher.rest_pages pd self (rest api) 1 [])
  | PRsGraphQL => ones (graphql_dates pd pullRequests nodes None 200 (graphql api) [])
  | IssuesRest => ones (IssuesFetcher.rest_pages pd self (rest api) 1 [])
  | IssuesGraphQL => ones (graphql_dates pd issues edges (Some 500) 10 (graphql api) [])
  | CommitListing => ContributionsFetcher.commit_pages pd self (rest api) 1 []
  | Downloads => DownloadsFetcher.release_pages pd self (rest api) 1 []
  | CommitStats | Contributions => []
  end.

(** A small repository: two pull requests on one day, one on the next. *)
Definition example_pulls_api : Api :=
  mkApi [ mkResponse 200 None
            [ fork_created "2024-01-01T10:00:00Z";
              fork_created "2024-01-01T15:00:00Z";
              fork_created "2024-01-02T09:00:00Z" ] ]
        [] [].

(** The fetch paths that stop at a page shorter than [per_page]. *)
Definition stops_at_short_page (p : FetchPath) : bool :=
  match p with
  | PRsRest | IssuesRest | CommitListing | Downloads => true
  | _ => false
  end.

(** The scripts of a repository with another REST script. *)
Definition with_rest (api : Api) (script : RestScript) : Api :=
  mkApi script (graphql api) (commit_activity api).

(** Every row holds a positive value. *)
Definition positive_rows (l : list (Date * Z)) : Prop := Forall (fun r => 0 < r.2) l.

(** Pages of the issues listing on which every item is a pull request. *)
Definition example_only_pulls : RestScript :=
  [ mkResponse 200 None
      [ mkItem None (Some "2024-01-01T10:00:00Z") true None None [];
        mkItem None (Some "2024-01-02T09:00:00Z") true None None [] ] ].

(** The statistics endpoint still computing: an answer with status 202. *)
Definition still_computing : Response (list Week) := mkResponse 202 None [].

(** The dashboard's figure for a metric in a period: the frame filtered to
    the period, then summed. *)
Definition activity_in_period (df : DataFrame) (y_col : string) (start_d end_d : Date)
    : Result Z :=
  try! filtered := App.filter_by_date df start_d end_d in
  App.get_period_activity filtered y_col.

(** A release without any date, whose asset has a date and downloads; and
    a dated release with one asset created two days later. *)
Definition example_undated_release : Item :=
  mkItem None None false None None
    [mkAsset (Some "2024-01-03T08:00:00Z") None (Some 40)].

Definition example_dated_release : Item :=
  mkItem None (Some "2024-01-01T12:00:00Z") false None (Some "2024-01-01T12:00:00Z")
    [mkAsset (Some "2024-01-03T08:00:00Z") None (Some 40)].

(** * Proofs *)


(** * Properties of the data-frame operations *)

Section Frames.

Implicit Types (d x : Date) (v : Z) (r : Date * Z) (l acc : list (Date * Z)).

Lemma add_row_dates d v acc x :
  x ∈ (add_row d v acc).*1 <-> x = d \/ x ∈ acc.*1.
Proof.
  induction acc as [|[d' v'] tl IH]; simpl.
  - rewrite list_elem_of_singleton, elem_of_nil. tauto.
  - destruct (Z.ltb_spec d d'); [|destruct (Z.eqb_spec d d')]; simpl;
      rewrite ?elem_of_cons, ?IH; simpl; intuition congruence.
Qed.

Lemma add_row_sorted d v acc :
  StronglySorted Z.lt acc.*1 -> StronglySorted Z.lt (add_row d v acc).*1.
Proof.
  induction acc as [|[d' v'] tl IH]; simpl; intros Hs.
  - repeat constructor.
  - apply StronglySorted_inv in Hs as [Htl Hall].
    destruct (Z.ltb_spec d d'); [|destruct (Z.eqb_spec d d')]; simpl.
    + constructor; [constructor; assumption|].
      constructor; [assumption|].
      eapply Forall_impl; [exact Hall|]. intros; simpl in *; lia.
    + constructor; assumption.
    + constructor; [auto|].
      apply Forall_forall. intros y Hy. apply add_row_dates in Hy.
      destruct Hy as [->|Hy]; [lia|].
      rewrite Forall_forall in Hall. apply Hall, Hy.
Qed.

Lemma groupby_sum_from_sorted l acc :
  StronglySorted Z.lt acc.*1 ->
  StronglySorted Z.lt
    (fold_left (fun acc r => add_row (fst r) (snd r) acc) l acc).*1.
Proof.
  revert acc. induction l as [|r l IH]; simpl; intros acc Hs; [assumption|].
  apply IH, add_row_sorted, Hs.
Qed.

Lemma groupby_sum_sorted l : StronglySorted Z.lt (groupby_sum l).*1.
Proof. apply groupby_sum_from_sorted. constructor. Qed.

Lemma groupby_sum_from_dates l acc x :
  x ∈ (fold_left (fun acc r => add_row (fst r) (snd r) acc) l acc).*1
  <-> x ∈ l.*1 \/ x ∈ acc.*1.
Proof.
  revert acc. induction l as [|[d v] l IH]; simpl; intros acc.
  - rewrite elem_of_nil. tauto.
  - rewrite IH, add_row_dates, elem_of_cons. tauto.
Qed.

Lemma groupby_sum_dates l x : x ∈ (groupby_sum l).*1 <-> x ∈ l.*1.
Proof.
  unfold groupby_sum. rewrite groupby_sum_from_dates, elem_of_nil. simpl. tauto.
Qed.

Lemma total_on_add_row d v acc x :
  total_on x (add_row d v acc) = total_on x acc + (if bool_decide (d = x) then v else 0).
Proof.
  induction acc as [|[d' v'] tl IH]; simpl.
  - repeat case_bool_decide; lia.
  - destruct (Z.ltb_spec d d'); [|destruct (Z.eqb_spec d d')]; simpl;
      rewrite ?IH; repeat case_bool_decide; simpl in *; lia.
Qed.

Lemma total_until_add_row d v acc x :
  total_until x (add_row d v acc)
  = total_until x acc + (if bool_decide (d <= x) then v else 0).
Proof.
  induction acc as [|[d' v'] tl IH]; simpl.
  - repeat case_bool_decide; lia.
  - destruct (Z.ltb_spec d d'); [|destruct (Z.eqb_spec d d')]; simpl;
      rewrite ?IH; repeat case_bool_decide; simpl in *; lia.
Qed.

Lemma total_on_groupby_from l acc x :
  total_on x (fold_left (fun acc r => add_row (fst r) (snd r) acc) l acc)
  = total_on x acc + total_on x l.
Proof.
  revert acc. induction l as [|[d v] l IH]; simpl; intros acc; [lia|].
  rewrite IH, total_on_add_row. repeat case_bool_decide; lia.
Qed.

Lemma total_on_groupby l x : total_on x (groupby_sum l) = total_on x l.
Proof. unfold groupby_sum. rewrite total_on_groupby_from. simpl. lia. Qed.

Lemma total_until_groupby_from l acc x :
  total_until x (fold_left (fun acc r => add_row (fst r) (snd r) acc) l acc)
  = total_until x acc + total_until x l.
Proof.
  revert acc. induction l as [|[d v] l IH]; simpl; intros acc; [lia|].
  rewrite IH, total_until_add_row. repeat case_bool_decide; lia.
Qed.

Lemma total_until_groupby l x : total_until x (groupby_sum l) = total_until x l.
Proof. unfold groupby_sum. rewrite total_until_groupby_from. simpl. lia. Qed.

(** Sorting by date. *)

Lemma insert_by_date_perm r l : insert_by_date r l ≡ₚ r :: l.
Proof.
  induction l as [|r' tl IH]; simpl; [reflexivity|].
  destruct (fst r' <=? fst r); [|reflexivity].
  rewrite IH. apply Permutation_swap.
Qed.

Lemma insert_by_date_sorted r l :
  StronglySorted Z.le l.*1 -> StronglySorted Z.le (insert_by_date r l).*1.
Proof.
  induction l as [|r' tl IH]; simpl; intros Hs; [repeat constructor|].
  apply StronglySorted_inv in Hs as [Htl Hall].
  destruct (Z.leb_spec (fst r') (fst r)); simpl.
  - constructor; [auto|].
    rewrite (fmap_Permutation fst _ _ (insert_by_date_perm r tl)). simpl.
    constructor; assumption.
  - constructor; [constructor; assumption|].
    constructor; [lia|].
    eapply Forall_impl; [exact Hall|]. intros; simpl in *; lia.
Qed.

Lemma sort_values_from_perm l acc :
  fold_left (fun acc r => insert_by_date r acc) l acc ≡ₚ acc ++ l.
Proof.
  revert acc. induction l as [|r l IH]; simpl; intros acc.
  - by rewrite app_nil_r.
  - rewrite IH, insert_by_date_perm. simpl. apply Permutation_middle.
Qed.

Lemma sort_values_perm l : sort_values l ≡ₚ l.
Proof. apply (sort_values_from_perm l []). Qed.

Lemma sort_values_from_sorted l acc :
  StronglySorted Z.le acc.*1 ->
  StronglySorted Z.le (fold_left (fun acc r => insert_by_date r acc) l acc).*1.
Proof.
  revert acc. induction l as [|r l IH]; simpl; intros acc Hs; [assumption|].
  apply IH, insert_by_date_sorted, Hs.
Qed.

Lemma sort_values_sorted l : StronglySorted Z.le (sort_values l).*1.
Proof. apply sort_values_from_sorted. constructor. Qed.

Lemma insert_by_date_last r l :
  Forall (fun r' => fst r' <= fst r) l -> insert_by_date r l = l ++ [r].
Proof.
  intros Hall. induction l as [|r' tl IH]; simpl; [reflexivity|].
  apply Forall_cons in Hall as [Hr' Hall].
  destruct (Z.leb_spec (fst r') (fst r)); [by rewrite IH | lia].
Qed.

Lemma sort_values_from_id l acc :
  StronglySorted Z.le (acc ++ l).*1 ->
  fold_left (fun acc r => insert_by_date r acc) l acc = acc ++ l.
Proof.
  revert acc. induction l as [|r l IH]; simpl; intros acc Hs.
  - by rewrite app_nil_r.
  - rewrite insert_by_date_last.
    + rewrite IH; rewrite <- app_assoc; [reflexivity | exact Hs].
    + rewrite fmap_app in Hs. simpl in Hs.
      apply Forall_forall. intros r' Hr'.
      eapply StronglySorted_app_1_elem_of; [exact Hs | | left].
      by apply list_elem_of_fmap_2.
Qed.

Lemma sort_values_id l : StronglySorted Z.le l.*1 -> sort_values l = l.
Proof. intros Hs. apply (sort_values_from_id l []), Hs. Qed.

Lemma strictly_sorted_le (ds : list Date) :
  StronglySorted Z.lt ds -> StronglySorted Z.le ds.
Proof.
  induction 1 as [|d ds _ IH Hall]; constructor; [assumption|].
  eapply Forall_impl; [exact Hall|]. intros; simpl in *; lia.
Qed.

Lemma strictly_sorted_NoDup (ds : list Date) : StronglySorted Z.lt ds -> NoDup ds.
Proof.
  induction 1 as [|d ds _ IH Hall]; constructor; [|assumption].
  intros Hin. rewrite Forall_forall in Hall. specialize (Hall _ Hin). lia.
Qed.

Lemma sorted_NoDup_strictly (ds : list Date) :
  StronglySorted Z.le ds -> NoDup ds -> StronglySorted Z.lt ds.
Proof.
  induction 1 as [|d ds _ IH Hall]; intros Hnd; [constructor|].
  apply NoDup_cons in Hnd as [Hd Hnd]. constructor; [auto|].
  apply Forall_forall. intros y Hy. rewrite Forall_forall in Hall.
  specialize (Hall _ Hy). assert (y <> d) by (intros ->; contradiction). lia.
Qed.

Lemma sort_values_groupby l : sort_values (groupby_sum l) = groupby_sum l.
Proof. apply sort_values_id, strictly_sorted_le, groupby_sum_sorted. Qed.

(** Dropping duplicate dates. *)

Lemma existsb_eqb d (seen : list Date) : existsb (Z.eqb d) seen = true <-> d ∈ seen.
Proof.
  rewrite existsb_exists. split.
  - intros (y & Hy & Heq). apply Z.eqb_eq in Heq as ->. by apply list_elem_of_In.
  - intros Hin. exists d. split; [by apply list_elem_of_In | apply Z.eqb_refl].
Qed.

Lemma drop_duplicates_from_dates seen l x :
  x ∈ (drop_duplicates_from seen l).*1 <-> x ∈ l.*1 /\ x ∉ seen.
Proof.
  revert seen. induction l as [|[d v] tl IH]; simpl; intros seen.
  - rewrite elem_of_nil. tauto.
  - destruct (existsb (Z.eqb d) seen) eqn:Hex.
    + apply existsb_eqb in Hex. rewrite IH, elem_of_cons.
      split; [tauto|]. intros [[->|Hin] Hns]; [contradiction | tauto].
    + assert (d ∉ seen) by (rewrite <- existsb_eqb, Hex; discriminate).
      simpl. rewrite !elem_of_cons, IH, elem_of_cons.
      destruct (decide (x = d)) as [->|]; tauto.
Qed.

Lemma drop_duplicates_from_NoDup seen l : NoDup (drop_duplicates_from seen l).*1.
Proof.
  revert seen. induction l as [|[d v] tl IH]; simpl; intros seen; [constructor|].
  destruct (existsb (Z.eqb d) seen); [apply IH|].
  simpl. apply NoDup_cons. split; [|apply IH].
  rewrite drop_duplicates_from_dates, elem_of_cons. tauto.
Qed.

Lemma drop_duplicates_from_id seen l :
  NoDup l.*1 -> (forall x, x ∈ l.*1 -> x ∉ seen) -> drop_duplicates_from seen l = l.
Proof.
  revert seen. induction l as [|[d v] tl IH]; simpl; intros seen Hnd Hseen; [reflexivity|].
  apply NoDup_cons in Hnd as [Hd Hnd].
  destruct (existsb (Z.eqb d) seen) eqn:Hex.
  - apply existsb_eqb in Hex. exfalso. apply (Hseen d); [left | assumption].
  - f_equal. apply IH; [assumption|].
    intros x Hx. rewrite elem_of_cons. intros [->|Hin]; [contradiction|].
    apply (Hseen x); [by right | assumption].
Qed.

Lemma drop_duplicates_id l : NoDup l.*1 -> drop_duplicates l = l.
Proof. intros Hnd. apply drop_duplicates_from_id; [assumption|]. intros x _. apply not_elem_of_nil. Qed.

(** The first row of a date is the one that stays. *)
Lemma drop_duplicates_from_app seen l1 l2 :
  NoDup l1.*1 -> (forall x, x ∈ l1.*1 -> x ∉ seen) ->
  drop_duplicates_from seen (l1 ++ l2)
  = l1 ++ drop_duplicates_from (rev l1.*1 ++ seen) l2.
Proof.
  revert seen. induction l1 as [|[d v] tl IH]; simpl; intros seen Hnd Hseen; [reflexivity|].
  apply NoDup_cons in Hnd as [Hd Hnd].
  destruct (existsb (Z.eqb d) seen) eqn:Hex.
  - apply existsb_eqb in Hex. exfalso. apply (Hseen d); [left | assumption].
  - f_equal. rewrite IH; [by rewrite <- app_assoc | assumption |].
    intros x Hx. rewrite elem_of_cons. intros [->|Hin]; [contradiction|].
    apply (Hseen x); [by right | assumption].
Qed.

(** Rows of a frame with strictly ascending dates, and running sums. *)

Lemma total_on_absent d l : d ∉ l.*1 -> total_on d l = 0.
Proof.
  induction l as [|[d' v'] tl IH]; simpl; intros Hd; [reflexivity|].
  rewrite not_elem_of_cons in Hd. destruct Hd as [Hne Hd].
  case_bool_decide; simpl in *; [congruence | auto].
Qed.

Lemma total_until_above d l : Forall (fun y => d < y) l.*1 -> total_until d l = 0.
Proof.
  induction l as [|[d' v'] tl IH]; simpl; intros Hall; [reflexivity|].
  apply Forall_cons in Hall as [Hlt Hall].
  case_bool_decide; simpl in *; [lia | auto].
Qed.

Lemma sorted_rows_total l :
  StronglySorted Z.lt l.*1 ->
  forall d v, (d, v) ∈ l <-> d ∈ l.*1 /\ v = total_on d l.
Proof.
  induction l as [|[d' v'] tl IH]; simpl; intros Hs d v.
  - rewrite !elem_of_nil. tauto.
  - apply StronglySorted_inv in Hs as [Htl Hall].
    assert (d' ∉ tl.*1) as Hfresh.
    { intros Hin. rewrite Forall_forall in Hall. specialize (Hall _ Hin). lia. }
    rewrite !elem_of_cons, (IH Htl). case_bool_decide as Heq; simpl in Heq.
    + subst d'. rewrite (total_on_absent d tl Hfresh). split.
      * intros [Hpair|[Hin _]]; [|contradiction]. inversion Hpair; subst. split; [by left | lia].
      * intros [_ ->]. left. f_equal. lia.
    + split.
      * intros [Hpair|[Hin ->]]; [inversion Hpair; congruence | tauto].
      * intros [[->|Hin] ->]; [congruence | tauto].
Qed.

Lemma cumsum_from_dates total l : (cumsum_from total l).*1 = l.*1.
Proof.
  revert total. induction l as [|[d v] tl IH]; simpl; intros total; [reflexivity|].
  by rewrite IH.
Qed.

Lemma cumsum_from_rows l :
  StronglySorted Z.lt l.*1 ->
  forall total d v,
    (d, v) ∈ cumsum_from total l <-> d ∈ l.*1 /\ v = total + total_until d l.
Proof.
  induction l as [|[d' v'] tl IH]; simpl; intros Hs total d v.
  - rewrite !elem_of_nil. tauto.
  - apply StronglySorted_inv in Hs as [Htl Hall].
    rewrite !elem_of_cons, (IH Htl). case_bool_decide as Hle; simpl in Hle.
    + split.
      * intros [Hpair|[Hin ->]]; [|split; [by right | lia]].
        inversion Hpair; subst. split; [by left|].
        rewrite (total_until_above d' tl Hall). lia.
      * intros [[->|Hin] ->]; [|right; split; [assumption | lia]].
        left. rewrite (total_until_above d' tl Hall). f_equal. lia.
    + assert (d ∉ tl.*1) as Hfresh.
      { intros Hin. rewrite Forall_forall in Hall. specialize (Hall _ Hin). lia. }
      split.
      * intros [Hpair|[Hin _]]; [inversion Hpair; lia | contradiction].
      * intros [[->|Hin] _]; [lia | contradiction].
Qed.

Lemma ones_dates (ds : list Date) : (ones ds).*1 = ds.
Proof.
  unfold ones. rewrite <- list_fmap_compose. induction ds; simpl; [reflexivity|].
  by f_equal.
Qed.

Lemma total_on_ones d (ds : list Date) : total_on d (ones ds) = events_on d ds.
Proof.
  unfold events_on. induction ds as [|e ds IH]; simpl; [reflexivity|].
  rewrite filter_cons. case_bool_decide as He; simpl in He.
  - rewrite decide_True by exact He.
    rewrite length_cons, Nat2Z.inj_succ, Z.add_1_l. f_equal. exact IH.
  - rewrite decide_False by exact He. exact IH.
Qed.

Lemma total_until_ones d (ds : list Date) : total_until d (ones ds) = events_until d ds.
Proof.
  unfold events_until. induction ds as [|e ds IH]; simpl; [reflexivity|].
  rewrite filter_cons. case_bool_decide as He; simpl in He.
  - rewrite decide_True by exact He.
    rewrite length_cons, Nat2Z.inj_succ, Z.add_1_l. f_equal. exact IH.
  - rewrite decide_False by exact He. exact IH.
Qed.

Lemma events_on_perm d (ds ds' : list Date) : ds ≡ₚ ds' -> events_on d ds = events_on d ds'.
Proof. intros Hp. unfold events_on. by rewrite Hp. Qed.

Lemma events_on_positive d (ds : list Date) : d ∈ ds -> 0 < events_on d ds.
Proof.
  intros Hin. unfold events_on.
  assert (d ∈ filter (fun e => e = d) ds) as Hf by (apply list_elem_of_filter; auto).
  destruct (filter (fun e => e = d) ds); [by apply elem_of_nil in Hf | simpl; lia].
Qed.

(** Two days with events: the running sum on the later day counts the
    events of both. *)
Lemma events_until_two d1 d2 (ds : list Date) :
  d1 < d2 -> events_on d1 ds + events_on d2 ds <= events_until d2 ds.
Proof.
  intros Hlt. unfold events_on, events_until.
  induction ds as [|e ds IH]; simpl; [lia|].
  rewrite !filter_cons.
  destruct (decide (e = d1)), (decide (e = d2)), (decide (e <= d2)); simpl; lia.
Qed.

Lemma events_until_perm d (ds ds' : list Date) :
  ds ≡ₚ ds' -> events_until d ds = events_until d ds'.
Proof. intros Hp. unfold events_until. by rewrite Hp. Qed.

Lemma ones_app (ds ds' : list Date) : ones (ds ++ ds') = ones ds ++ ones ds'.
Proof. apply fmap_app. Qed.

(** The rows of a daily aggregation: one per day with events, holding the
    sum of that day. *)
Lemma daily_rows col l d v :
  (d, v) ∈ rows (daily col l) <-> d ∈ l.*1 /\ v = total_on d l.
Proof.
  simpl. rewrite sort_values_groupby.
  rewrite (sorted_rows_total _ (groupby_sum_sorted l)).
  by rewrite groupby_sum_dates, total_on_groupby.
Qed.

Lemma daily_strictly_sorted col l : StronglySorted Z.lt (dates (daily col l)).
Proof. unfold dates. simpl. rewrite sort_values_groupby. apply groupby_sum_sorted. Qed.

End Frames.

(** * Forks: daily counts over REST, running sums over GraphQL *)

Section Forks.

Variable pd : Pandas.
Variable self : BaseFetcher.t.

Lemma forks_rest_pages_ones script page all_forks :
  all_forks = ones all_forks.*1 ->
  ForksFetcher.rest_pages pd self script page all_forks
  = ones (ForksFetcher.rest_pages pd self script page all_forks).*1.
Proof.
  revert page all_forks.
  induction script as [|resp script IH]; intros page all_forks Hones; simpl.
  - by destruct (page <=? BaseFetcher.max_pages self).
  - destruct (page <=? BaseFetcher.max_pages self); [|assumption].
    destruct (negb (status_code resp =? 200)); [assumption|].
    destruct (json resp) as [|fork forks]; [assumption|].
    apply IH. rewrite fmap_app, ones_dates, ones_app. by rewrite <- Hones.
Qed.

Lemma forks_fetch_rest_rows script :
  rows (ForksFetcher.fetch_rest pd self script)
  = groupby_sum (ones (ForksFetcher.rest_events pd self script)).
Proof.
  unfold ForksFetcher.fetch_rest, ForksFetcher.rest_events.
  rewrite <- (forks_rest_pages_ones script 1 []) by reflexivity.
  destruct (ForksFetcher.rest_pages pd self script 1 []) as [|r l]; [reflexivity|].
  simpl rows. apply sort_values_groupby.
Qed.

Lemma forks_fetch_graphql_rows script :
  rows (ForksFetcher.fetch_graphql pd script)
  = cumsum (groupby_sum (ones (ForksFetcher.graphql_events pd script))).
Proof.
  unfold ForksFetcher.fetch_graphql.
  destruct (ForksFetcher.graphql_events pd script) as [|e l]; [reflexivity|].
  simpl rows. by rewrite sort_values_groupby.
Qed.

End Forks.

(** The rows of the two forks fetches, by the days the loops gathered. *)
Lemma forks_rest_rows_spec (pd : Pandas) (self : BaseFetcher.t) (script : RestScript) d v :
  (d, v) ∈ rows (ForksFetcher.fetch_rest pd self script)
  <-> d ∈ ForksFetcher.rest_events pd self script
      /\ v = events_on d (ForksFetcher.rest_events pd self script).
Proof.
  rewrite forks_fetch_rest_rows.
  rewrite (sorted_rows_total _ (groupby_sum_sorted _)).
  by rewrite groupby_sum_dates, total_on_groupby, ones_dates, total_on_ones.
Qed.

Lemma forks_graphql_rows_spec (pd : Pandas) (script : GraphQLScript) d v :
  (d, v) ∈ rows (ForksFetcher.fetch_graphql pd script)
  <-> d ∈ ForksFetcher.graphql_events pd script
      /\ v = events_until d (ForksFetcher.graphql_events pd script).
Proof.
  rewrite forks_fetch_graphql_rows. unfold cumsum.
  rewrite (cumsum_from_rows _ (groupby_sum_sorted _)).
  by rewrite groupby_sum_dates, total_until_groupby, ones_dates, total_until_ones.
Qed.

Section ForkEvents.

Variable pd : Pandas.
Variable self : BaseFetcher.t.

Implicit Types (pages : list (list string)) (stamps : list string) (instants : list Z).

(** What the REST loop gathers from the listing of the events. *)
Lemma fork_dates_created (page : list string) :
  ForksFetcher.fork_dates pd (fork_created <$> page)
  = omap (fun s => date_if_present pd (Some s)) page.
Proof.
  unfold ForksFetcher.fork_dates.
  induction page as [|s page IH]; [reflexivity|].
  rewrite fmap_cons. unfold omap in *. simpl in *. by rewrite IH.
Qed.

Lemma serve_forks_rest_gathers pages : forall page all_forks,
  Forall (fun p => p <> []) pages ->
  page + Z.of_nat (length pages) - 1 <= BaseFetcher.max_pages self ->
  ForksFetcher.rest_pages pd self (serve_forks_rest pages) page all_forks
  = all_forks ++ ones (omap (fun s => date_if_present pd (Some s)) (List.concat pages)).
Proof.
  unfold serve_forks_rest.
  induction pages as [|p pages IH]; intros page all_forks Hfull Hlimit.
  - simpl. destruct (page <=? BaseFetcher.max_pages self); by rewrite app_nil_r.
  - apply Forall_cons in Hfull as [Hp Hfull].
    rewrite length_cons, Nat2Z.inj_succ in Hlimit.
    rewrite fmap_cons. simpl app. cbn [ForksFetcher.rest_pages].
    destruct (Z.leb_spec page (BaseFetcher.max_pages self)) as [_|Hgt]; [|lia].
    simpl status_code. simpl negb. cbv iota. simpl json.
    destruct p as [|s p]; [done|].
    rewrite fmap_cons. rewrite IH by (exact Hfull || lia).
    rewrite <- fmap_cons, fork_dates_created.
    simpl List.concat. by rewrite omap_app, ones_app, app_assoc.
Qed.

(** What the GraphQL loop gathers from the connection of the events. *)
Lemma forks_page_connection (p : ServerPage) :
  GitHubGraphQL.connection forks
    (GitHubGraphQL.query (respond ForksFetcher.query (Page p)))
  = mkConnection None (Some (page_nodes p)) (Some (page_info p)).
Proof. reflexivity. Qed.

Lemma node_dates_created (page : list string) :
  omap (fun n => _to_date pd (createdAt n)) (node_created <$> page)
  = omap (fun s => _to_date pd (Some s)) page.
Proof.
  induction page as [|s page IH]; [reflexivity|].
  rewrite fmap_cons. unfold omap in *. simpl in *. by rewrite IH.
Qed.

Lemma serve_forks_graphql_gathers pages : forall (budget : nat) dates,
  (length pages <= budget)%nat ->
  graphql_dates pd forks nodes None budget (serve_forks_graphql pages) dates
  = dates ++ omap (fun s => _to_date pd (Some s)) (List.concat pages).
Proof.
  unfold serve_forks_graphql.
  induction pages as [|p pages IH]; intros budget dates Hbudget.
  - destruct budget; simpl; by rewrite app_nil_r.
  - destruct budget as [|budget]; [simpl in Hbudget; lia|].
    simpl in Hbudget.
    cbn [forks_connection]. rewrite fmap_cons.
    cbn [graphql_dates GitHubGraphQL.next]. cbv zeta.
    rewrite forks_page_connection.
    cbn [nodes pageInfo page_nodes page_info default from_option hasNextPage].
    unfold id. rewrite node_dates_created.
    destruct pages as [|p' pages].
    + simpl. by rewrite app_nil_r.
    + cbn [has_more negb hasNextPage].
      assert (length (p' :: pages) <= budget)%nat as Hb by (simpl in *; lia).
      rewrite (IH budget _ Hb).
      change (List.concat (p :: p' :: pages)) with (p ++ List.concat (p' :: pages)).
      by rewrite omap_app, app_assoc.
Qed.

(** The days of the events, read off their instants. *)
Lemma created_days_rest stamps instants :
  created_at_instants pd stamps instants ->
  omap (fun s => date_if_present pd (Some s)) stamps = normalize <$> instants.
Proof.
  induction 1 as [|s i stamps instants [Hs Hi] _ IH]; [reflexivity|].
  assert (truthy s = true) as Htruthy
    by (unfold truthy; destruct (String.eqb_spec s ""); [contradiction | reflexivity]).
  rewrite fmap_cons. unfold omap in *. simpl in *.
  rewrite Htruthy, Hi. simpl. by rewrite IH.
Qed.

Lemma created_days_graphql stamps instants :
  created_at_instants pd stamps instants ->
  omap (fun s => _to_date pd (Some s)) stamps = normalize <$> instants.
Proof.
  induction 1 as [|s i stamps instants [Hs Hi] _ IH]; [reflexivity|].
  rewrite fmap_cons. unfold omap in *. simpl in *.
  rewrite Hi. simpl. by rewrite IH.
Qed.

Lemma normalize_on_day (d i : Z) :
  normalize i = d <-> 86400 * d <= i < 86400 * (d + 1).
Proof. unfold normalize, seconds_per_day. split; intros H; Z.div_mod_to_equations; lia. Qed.

Lemma normalize_until_day (d i : Z) :
  normalize i <= d <-> i < 86400 * (d + 1).
Proof. unfold normalize, seconds_per_day. split; intros H; Z.div_mod_to_equations; lia. Qed.

Lemma events_on_instants d instants :
  events_on d (normalize <$> instants) = forks_created_on d instants.
Proof.
  unfold events_on, forks_created_on. f_equal.
  induction instants as [|i instants IH]; [reflexivity|].
  rewrite fmap_cons, !filter_cons.
  destruct (decide (normalize i = d)) as [Hd|Hd];
    destruct (decide (86400 * d <= i < 86400 * (d + 1))) as [Hi|Hi];
    simpl; rewrite ?IH; try reflexivity;
    exfalso; apply normalize_on_day in Hd || apply normalize_on_day in Hi; tauto.
Qed.

Lemma events_until_instants d instants :
  events_until d (normalize <$> instants) = forks_created_until d instants.
Proof.
  unfold events_until, forks_created_until. f_equal.
  induction instants as [|i instants IH]; [reflexivity|].
  rewrite fmap_cons, !filter_cons.
  destruct (decide (normalize i <= d)) as [Hd|Hd];
    destruct (decide (i < 86400 * (d + 1))) as [Hi|Hi];
    simpl; rewrite ?IH; try reflexivity;
    exfalso; apply normalize_until_day in Hd || apply normalize_until_day in Hi; tauto.
Qed.

Lemma events_on_present d (ds : list Date) : d ∈ ds <-> 0 < events_on d ds.
Proof.
  split; [apply events_on_positive|].
  unfold events_on. intros Hpos.
  destruct (filter (fun e => e = d) ds) as [|e l] eqn:Hf; [simpl in Hpos; lia|].
  assert (e ∈ filter (fun e => e = d) ds) as He by (rewrite Hf; left).
  apply list_elem_of_filter in He as [-> He]. exact He.
Qed.

(** Both loops gather the days of all the events, in some order. *)
Lemma forks_rest_gathers_all stamps instants pages :
  created_at_instants pd stamps instants ->
  List.concat pages ≡ₚ stamps ->
  Forall (fun p => p <> []) pages ->
  Z.of_nat (length pages) <= BaseFetcher.max_pages self ->
  ForksFetcher.rest_events pd self (serve_forks_rest pages) ≡ₚ normalize <$> instants.
Proof.
  intros Htimes Hperm Hfull Hlimit. unfold ForksFetcher.rest_events.
  rewrite serve_forks_rest_gathers by (exact Hfull || lia).
  rewrite app_nil_l, ones_dates, Hperm. by rewrite (created_days_rest _ _ Htimes).
Qed.

Lemma forks_graphql_gathers_all stamps instants pages :
  created_at_instants pd stamps instants ->
  List.concat pages ≡ₚ stamps ->
  (length pages <= 200)%nat ->
  ForksFetcher.graphql_events pd (serve_forks_graphql pages) ≡ₚ normalize <$> instants.
Proof.
  intros Htimes Hperm Hlimit. unfold ForksFetcher.graphql_events.
  rewrite serve_forks_graphql_gathers by exact Hlimit.
  rewrite app_nil_l, Hperm. by rewrite (created_days_graphql _ _ Htimes).
Qed.

End ForkEvents.



(** * The transport *)

Section Transport.

Context {B : Type}.
Variable py : Python.
Implicit Types (resp : Response B).

Lemma wait_and_backoff_bounds resp now backoff_s wait_s backoff' :
  2 <= backoff_s <= 5 ->
  BaseFetcher.wait_and_backoff py resp now backoff_s = Ok (wait_s, backoff') ->
  0 <= wait_s
  /\ (if reset_provided resp then wait_s <= 10 else wait_s <= 5)
  /\ 2 <= backoff' <= 5.
Proof.
  intros Hb. unfold BaseFetcher.wait_and_backoff, reset_provided.
  destruct (rate_limit_reset resp) as [reset|]; [|intros [= <- <-]; lia].
  destruct (truthy reset && isdigit reset); [|intros [= <- <-]; lia].
  destruct (int py reset) as [seconds|e]; [|discriminate].
  simpl. intros [= <- <-]. lia.
Qed.

Lemma digits_value_decimal (s : string) : forall acc,
  all_chars is_decimal s = true -> is_Some (digits_value acc s).
Proof.
  induction s as [|c s IH]; intros acc Hall; simpl in *; [by eexists|].
  apply andb_prop in Hall as [Hc Hs].
  apply bool_decide_eq_true in Hc as [v Hv]. rewrite Hv. by apply IH.
Qed.

Lemma wait_and_backoff_readable resp now backoff_s :
  readable_reset py resp ->
  exists w, BaseFetcher.wait_and_backoff py resp now backoff_s = Ok w.
Proof.
  intros Hread. unfold BaseFetcher.wait_and_backoff.
  destruct (rate_limit_reset resp) as [reset|] eqn:Hreset; [|by eexists].
  destruct (truthy reset && isdigit reset) eqn:Hdigit; [|by eexists].
  apply andb_prop in Hdigit as [Htruthy Hdigit].
  destruct (Hread reset Hreset Hdigit) as [Hdec Hlen].
  unfold int. destruct (digits_value_decimal reset 0 Hdec) as [v ->].
  rewrite Htruthy. simpl negb. cbv iota.
  destruct ((0 <? int_max_str_digits py)
            && (int_max_str_digits py <? Z.of_nat (String.length reset))) eqn:Hlimit.
  - apply andb_prop in Hlimit as [H1 H2]. lia.
  - by eexists.
Qed.

(** The three attempts written out. *)
Lemma request_unfold (server : Z -> Response B) (clock : Z -> Z) :
  BaseFetcher._request py server clock
  = let r0 := server 0 in
    let r1 := server 1 in
    let r2 := server 2 in
    if status_code r0 =? 403 then
      match BaseFetcher.wait_and_backoff py r0 (clock 0) 2 with
      | Raise e => mkOutcome (Raise e) [] 1
      | Ok w0 =>
          if status_code r1 =? 403 then
            match BaseFetcher.wait_and_backoff py r1 (clock 1) w0.2 with
            | Raise e => mkOutcome (Raise e) [w0.1] 2
            | Ok w1 =>
                if status_code r2 =? 403 then
                  match BaseFetcher.wait_and_backoff py r2 (clock 2) w1.2 with
                  | Raise e => mkOutcome (Raise e) [w0.1; w1.1] 3
                  | Ok w2 => mkOutcome (Ok r2) [w0.1; w1.1; w2.1] 3
                  end
                else mkOutcome (Ok r2) [w0.1; w1.1] 3
            end
          else mkOutcome (Ok r1) [w0.1] 2
      end
    else mkOutcome (Ok r0) [] 1.
Proof.
  unfold BaseFetcher._request.
  change (seqZ 0 BaseFetcher.max_retries) with [0; 1; 2].
  cbn [BaseFetcher.request_loop]. cbv zeta.
  destruct (status_code (server 0) =? 403); [|reflexivity].
  destruct (BaseFetcher.wait_and_backoff py (server 0) (clock 0) 2) as [[w0 b0]|e0];
    [|reflexivity].
  change (0 =? BaseFetcher.max_retries - 1) with false. cbv iota.
  destruct (status_code (server 1) =? 403); [|reflexivity].
  simpl snd.
  destruct (BaseFetcher.wait_and_backoff py (server 1) (clock 1) b0) as [[w1 b1]|e1];
    [|reflexivity].
  change (1 =? BaseFetcher.max_retries - 1) with false. cbv iota.
  destruct (status_code (server 2) =? 403); [|reflexivity].
  simpl snd.
  destruct (BaseFetcher.wait_and_backoff py (server 2) (clock 2) b1) as [[w2 b2]|e2];
    reflexivity.
Qed.

(** Whether the call returns or raises: at most three requests, no more
    sleeps than requests, and each sleep after a 403, within its bound. *)
Lemma request_sleeps (server : Z -> Response B) (clock : Z -> Z) :
  let out := BaseFetcher._request py server clock in
  (requests_issued out <= 3)%nat
  /\ (length (slept out) <= 3)%nat
  /\ (forall (i : nat) (s : Z), slept out !! i = Some s ->
        status_code (server (Z.of_nat i)) = 403
        /\ 0 <= s
        /\ (if reset_provided (server (Z.of_nat i)) then s <= 10 else s <= 5)).
Proof.
  intros out. subst out. rewrite request_unfold. cbv zeta.
  destruct (Z.eqb_spec (status_code (server 0)) 403) as [E0|E0];
    [|by (split; [simpl; lia|]; split; [simpl; lia|]; intros [|i] s Hs)].
  destruct (BaseFetcher.wait_and_backoff py (server 0) (clock 0) 2) as [[w0 b0]|e0] eqn:W0;
    [|by (split; [simpl; lia|]; split; [simpl; lia|]; intros [|i] s Hs)].
  apply wait_and_backoff_bounds in W0 as (H0a & H0b & H0c); [|lia]. cbn [fst snd].
  destruct (Z.eqb_spec (status_code (server 1)) 403) as [E1|E1].
  2: { split; [simpl; lia|]. split; [simpl; lia|].
       intros [|[|i]] s Hs; simpl in Hs; try discriminate.
       injection Hs as <-. simpl. auto. }
  destruct (BaseFetcher.wait_and_backoff py (server 1) (clock 1) b0) as [[w1 b1]|e1] eqn:W1.
  2: { split; [simpl; lia|]. split; [simpl; lia|].
       intros [|[|i]] s Hs; simpl in Hs; try discriminate.
       injection Hs as <-. simpl. auto. }
  apply wait_and_backoff_bounds in W1 as (H1a & H1b & H1c); [|lia]. cbn [fst snd].
  destruct (Z.eqb_spec (status_code (server 2)) 403) as [E2|E2].
  2: { split; [simpl; lia|]. split; [simpl; lia|].
       intros [|[|[|i]]] s Hs; simpl in Hs; try discriminate;
         injection Hs as <-; simpl; auto. }
  destruct (BaseFetcher.wait_and_backoff py (server 2) (clock 2) b1) as [[w2 b2]|e2] eqn:W2.
  2: { split; [simpl; lia|]. split; [simpl; lia|].
       intros [|[|[|i]]] s Hs; simpl in Hs; try discriminate;
         injection Hs as <-; simpl; auto. }
  apply wait_and_backoff_bounds in W2 as (H2a & H2b & H2c); [|lia]. cbn [fst snd].
  split; [simpl; lia|]. split; [simpl; lia|].
  intros [|[|[|[|i]]]] s Hs; simpl in Hs; try discriminate;
    injection Hs as <-; simpl; auto.
Qed.

(** With readable reset headers on the 403 answers the call returns one of
    the three answers. *)
Lemma request_returns (server : Z -> Response B) (clock : Z -> Z) :
  (forall n, status_code (server n) = 403 -> readable_reset py (server n)) ->
  let out := BaseFetcher._request py server clock in
  returned out = Ok (server (Z.of_nat (Nat.min 2 (refusals server))))
  /\ requests_issued out = Nat.min 3 (S (refusals server))
  /\ length (slept out) = refusals server.
Proof.
  intros Hread out. subst out. rewrite request_unfold. cbv zeta.
  unfold refusals. cbn [leading_403].
  destruct (Z.eqb_spec (status_code (server 0)) 403) as [E0|E0]; [|done].
  destruct (wait_and_backoff_readable (server 0) (clock 0) 2 (Hread 0 E0)) as [[w0 b0] ->].
  cbn [fst snd].
  destruct (Z.eqb_spec (status_code (server 1)) 403) as [E1|E1]; [|done].
  destruct (wait_and_backoff_readable (server 1) (clock 1) b0 (Hread 1 E1)) as [[w1 b1] ->].
  cbn [fst snd].
  destruct (Z.eqb_spec (status_code (server 2)) 403) as [E2|E2]; [|done].
  by destruct (wait_and_backoff_readable (server 2) (clock 2) b1 (Hread 2 E2)) as [[w2 b2] ->].
Qed.

End Transport.

(** C6. The retry does not hold for every response: a 403 answer whose reset
    header is the superscript two passes the [isdigit] test and [int] then
    raises. The call raises a ValueError after one request and no sleep,
    under every setting of the interpreter, and the 200 answer that follows
    two such 403 answers is not returned; so does a reset header of 4301
    digits under the default limit of 4300. *)
Theorem C6_request_raises_on_reset_header (py : Python) (clock : Z -> Z) :
  status_code (example_unreadable_reset 0) = 403
  /\ status_code (example_unreadable_reset 1) = 403
  /\ status_code (example_unreadable_reset 2) = 200
  /\ reset_provided (example_unreadable_reset 0) = true
  /\ BaseFetcher._request py example_unreadable_reset clock
     = mkOutcome (Raise ValueError) [] 1
  /\ reset_provided (example_long_reset 0) = true
  /\ BaseFetcher._request cpython example_long_reset clock
     = mkOutcome (Raise ValueError) [] 1.
Proof.
  assert (int cpython long_digits = Raise ValueError) as Hlong by (vm_compute; reflexivity).
  assert (truthy long_digits && isdigit long_digits = true) as Hdigits
    by (vm_compute; reflexivity).
  do 4 (split; [reflexivity|]).
  split; [by rewrite request_unfold|].
  split; [vm_compute; reflexivity|].
  rewrite request_unfold. cbv zeta.
  change (status_code (example_long_reset 0) =? 403) with true. cbv iota.
  unfold BaseFetcher.wait_and_backoff.
  change (rate_limit_reset (example_long_reset 0)) with (Some long_digits).
  cbv iota beta. rewrite Hdigits, Hlong. reflexivity.
Qed.

(** * Commit contributions from the weekly statistics *)

Section CommitActivity.

Lemma normalize_offset base i :
  normalize (base + i * seconds_per_day) = normalize base + i.
Proof. unfold normalize, seconds_per_day. apply Z.div_add. lia. Qed.

Lemma week_rows_spec (w : Week) (d c : Z) :
  (d, c) ∈ ContributionsFetcher.week_rows w <->
  exists (i : nat) (count : option Z),
    default [] (days w) !! i = Some count
    /\ d = normalize (default 0 (week w) + Z.of_nat i * seconds_per_day)
    /\ c = default 0 count /\ 0 < c.
Proof.
  unfold ContributionsFetcher.week_rows. cbv zeta.
  rewrite list_elem_of_omap. split.
  - intros ([i' count] & Hin & Hrow).
    apply elem_of_lookup_imap in Hin as (i & count' & Heq & Hlook).
    inversion Heq; subst. exists i, count'.
    destruct (Z.ltb_spec 0 (default 0 count')); [|discriminate].
    inversion Hrow; subst. auto.
  - intros (i & count & Hlook & -> & -> & Hpos).
    exists (Z.of_nat i, count). split.
    + apply elem_of_lookup_imap. eauto.
    + destruct (Z.ltb_spec 0 (default 0 count)); [reflexivity | lia].
Qed.

Lemma stats_ok_rows header data later :
  ContributionsFetcher._fetch_from_stats_api (mkResponse 200 header data :: later)
  = mkDF ["date"; "commits"] (sort_values (flat_map ContributionsFetcher.week_rows data)).
Proof.
  unfold ContributionsFetcher._fetch_from_stats_api.
  change (seqZ 0 3) with [0; 1; 2]. simpl.
  destruct data as [|w ws]; [reflexivity|].
  change (flat_map ContributionsFetcher.week_rows (w :: ws))
    with (ContributionsFetcher.week_rows w ++ flat_map ContributionsFetcher.week_rows ws).
  destruct (ContributionsFetcher.week_rows w
            ++ flat_map ContributionsFetcher.week_rows ws); reflexivity.
Qed.

End CommitActivity.

(** C8. A week bucket of the commit-activity statistics gives one row per
    day offset whose count is positive, dated by adding the offset, in days,
    to the start of the week; a 200 answer gives these rows, for all its
    weeks, in date order. The week starting Sunday 2024-01-07 with counts
    0,2,0,0,1,0,0 gives the rows (2024-01-08, 2) and (2024-01-11, 1). *)
Theorem C8_commit_week_expansion :
  (forall (w : Week) (d c : Z),
      (d, c) ∈ ContributionsFetcher.week_rows w <->
      exists (i : nat) (count : option Z),
        default [] (days w) !! i = Some count
        /\ d = normalize (default 0 (week w) + Z.of_nat i * seconds_per_day)
        /\ c = default 0 count /\ 0 < c)
  /\ (forall header data later,
        ContributionsFetcher._fetch_from_stats_api (mkResponse 200 header data :: later)
        = mkDF ["date"; "commits"]
               (sort_values (flat_map ContributionsFetcher.week_rows data)))
  /\ weekday (days_from_civil 2024 1 7) = 6
  /\ ContributionsFetcher._fetch_from_stats_api example_commit_activity
     = mkDF ["date"; "commits"]
            [(days_from_civil 2024 1 8, 2); (days_from_civil 2024 1 11, 1)].
Proof.
  split; [exact week_rows_spec|].
  split; [exact stats_ok_rows|].
  split; reflexivity.
Qed.

(** * Issues over GraphQL *)

Lemma issues_graphql_no_dates (pd : Pandas) (budget : nat) (answers : list ServerAnswer)
    (dates : list Date) :
  graphql_dates pd issues edges (Some 500) budget
    (respond IssuesFetcher.query <$> answers) dates = dates.
Proof.
  revert answers dates. induction budget as [|budget IH]; intros answers dates; [reflexivity|].
  destruct answers as [|a answers]; simpl.
  - apply app_nil_r.
  - destruct a as [status| |p]; simpl.
    + unfold GitHubGraphQL.query. simpl.
      destruct (negb (status =? 200)); simpl; apply app_nil_r.
    + apply app_nil_r.
    + rewrite app_nil_r.
      destruct (hasNextPage (page_info p)); simpl; [|reflexivity].
      destruct (500 <? Z.of_nat (length dates)); [reflexivity | apply IH].
Qed.

(** C9. Whatever the endpoint answers to the issues query, the GraphQL issues
    fetch returns the empty (date, issues) series: the query selects the
    "nodes" of the connection and the loop reads its "edges". *)
Theorem C9_issues_graphql_always_empty (pd : Pandas) (answers : list ServerAnswer) :
  IssuesFetcher.fetch_graphql pd (respond IssuesFetcher.query <$> answers)
  = empty_frame ["date"; "issues"].
Proof.
  unfold IssuesFetcher.fetch_graphql. by rewrite issues_graphql_no_dates.
Qed.

(** The same answers, read by the forks fetch under the key its query
    selects, do produce rows. *)
Example forks_graphql_reads_nodes :
  rows (ForksFetcher.fetch_graphql iso_pandas example_forks_graphql)
  = [(days_from_civil 2024 1 1, 2); (days_from_civil 2024 1 2, 3)].
Proof. reflexivity. Qed.

(** * The orchestrator *)

Section Orchestrator.

Variable data_dir : string.
Variable hours : Z.

Local Abbreviation self := (DataManager.__init__ data_dir hours).

Lemma self_type_to_file : getattr self "type_to_file" = Raise AttributeError.
Proof. reflexivity. Qed.

Lemma self_threshold :
  bind (getattr self "refresh_threshold_hours") as_int = Ok hours.
Proof. reflexivity. Qed.

Lemma self_types :
  bind (getattr self "types") as_list
  = Ok ["stars"; "forks"; "prs"; "downloads"; "issues"; "contributions"].
Proof. reflexivity. Qed.

End Orchestrator.

(** C10. On an instance as the constructor leaves it, [get_data_status] and
    [clear_cache], with or without a metric, raise an attribute error: the
    constructor assigns no [type_to_file]. *)
Theorem C10_status_and_clear_cache_raise
    (data_dir : string) (hours : Z) (w : World) (files : gmap string File)
    (data_type : option string) :
  DataManager.get_data_status (DataManager.__init__ data_dir hours) w files
  = Raise AttributeError
  /\ DataManager.clear_cache (DataManager.__init__ data_dir hours) files data_type
     = Raise AttributeError.
Proof.
  split.
  - unfold DataManager.get_data_status. by rewrite self_type_to_file.
  - unfold DataManager.clear_cache. destruct data_type; by rewrite self_type_to_file.
Qed.

(** * Staleness *)

Section Staleness.

Local Open Scope Qc_scope.

Lemma seconds_per_hour_pos : 0 < Qc_of_Z 3600.
Proof. reflexivity. Qed.

Lemma seconds_per_hour_nonzero : Qc_of_Z 3600 <> 0.
Proof. intros H. pose proof seconds_per_hour_pos as Hpos. rewrite H in Hpos. by apply Qclt_not_eq in Hpos. Qed.

Lemma age_at_threshold (now_ threshold : Qc) :
  (now_ - (now_ - threshold * Qc_of_Z 3600)) / Qc_of_Z 3600 = threshold.
Proof. field. apply seconds_per_hour_nonzero. Qed.

Lemma age_past_threshold (now_ threshold eps : Qc) :
  (now_ - (now_ - threshold * Qc_of_Z 3600 - eps)) / Qc_of_Z 3600
  = threshold + eps / Qc_of_Z 3600.
Proof. field. apply seconds_per_hour_nonzero. Qed.

Lemma positive_hours (eps : Qc) : 0 < eps -> 0 < eps / Qc_of_Z 3600.
Proof.
  intros Hpos. unfold Qcdiv.
  rewrite <- (Qcmult_0_l (/ Qc_of_Z 3600)).
  apply Qcmult_lt_compat_r; [reflexivity | assumption].
Qed.

Lemma is_data_stale_unfold data_dir hours w files path :
  DataManager._is_data_stale (DataManager.__init__ data_dir hours) w files path
  = match files !! path with
    | None => Ok true
    | Some f =>
        Ok (bool_decide (Qc_of_Z hours < (now w - mtime f) / Qc_of_Z 3600))
    end.
Proof.
  unfold DataManager._is_data_stale.
  destruct (files !! path); [|reflexivity]. by rewrite self_threshold.
Qed.

End Staleness.

(** C4. An artifact is stale exactly when its file does not exist or its
    age in hours is strictly above the threshold: a file modified exactly
    [threshold] hours before now is not stale, and a file older by any
    positive amount is stale. *)
Theorem C4_staleness_boundary
    (data_dir : string) (hours : Z) (w : World) (files : gmap string File) (path : string) :
  let stale := DataManager._is_data_stale (DataManager.__init__ data_dir hours) w files path in
  let age_hours (f : File) := ((now w - mtime f) / Qc_of_Z 3600)%Qc in
  (stale = Ok true <->
     files !! path = None
     \/ exists f, files !! path = Some f /\ (Qc_of_Z hours < age_hours f)%Qc)
  /\ (stale = Ok true \/ stale = Ok false)
  /\ (forall f, files !! path = Some f ->
        mtime f = (now w - Qc_of_Z hours * Qc_of_Z 3600)%Qc ->
        stale = Ok false)
  /\ (forall f (eps : Qc), files !! path = Some f -> (0 < eps)%Qc ->
        mtime f = (now w - Qc_of_Z hours * Qc_of_Z 3600 - eps)%Qc ->
        stale = Ok true).
Proof.
  intros stale age_hours. subst stale. rewrite is_data_stale_unfold.
  split; [|split; [|split]].
  - destruct (files !! path) as [f|] eqn:Hf.
    + split.
      * intros Hst. right. exists f. split; [reflexivity|].
        injection Hst as Hst. by apply bool_decide_eq_true in Hst.
      * intros [Hnone|(f' & Hsome & Hlt)]; [discriminate|].
        injection Hsome as <-. f_equal. by apply bool_decide_eq_true.
    + split; [by left | reflexivity].
  - destruct (files !! path) as [f|]; [|by left].
    destruct (bool_decide _); [by left | by right].
  - intros f Hf Hm. rewrite Hf, Hm, age_at_threshold. f_equal.
    apply bool_decide_eq_false. intros Hlt. by apply Qclt_not_eq in Hlt.
  - intros f eps Hf Hpos Hm. rewrite Hf, Hm, age_past_threshold. f_equal.
    apply bool_decide_eq_true.
    rewrite <- (Qcplus_0_r (Qc_of_Z hours)) at 1.
    apply Qcplus_lt_mono_l, positive_hours, Hpos.
Qed.

Lemma C4_staleness_witness :
  let w := example_world (Raise FetchError) in
  let self := DataManager.__init__ "data" 24 in
  DataManager._is_data_stale self w (example_disk 1700000000 generic_empty) "stars" = Ok false
  /\ DataManager._is_data_stale self w (example_disk 1699999999 generic_empty) "stars" = Ok true.
Proof.
  intros w self. split.
  - refine (proj1 (proj2 (proj2 (C4_staleness_boundary "data" 24 w
                (example_disk 1700000000 generic_empty) "stars")))
              (mkFile (Qc_of_Z 1700000000) generic_empty) _ _).
    + reflexivity.
    + apply Qc_is_canon. reflexivity.
  - refine (proj2 (proj2 (proj2 (C4_staleness_boundary "data" 24 w
                (example_disk 1699999999 generic_empty) "stars")))
              (mkFile (Qc_of_Z 1699999999) generic_empty) (Qc_of_Z 1) _ _ _).
    + reflexivity.
    + reflexivity.
    + apply Qc_is_canon. reflexivity.
Defined.

(** * Every fetcher: the schema of the result *)

Section Schema.

Variable pd : Pandas.
Variable self : BaseFetcher.t.

Implicit Types (script : RestScript) (gql : GraphQLScript).

(** A page loop over responses without items gathers nothing. *)
Ltac idle_rest_loop script Hall :=
  destruct script as [|resp script]; simpl;
  [ by case_match
  | apply Forall_cons in Hall as [Hjson _]; rewrite Hjson;
    repeat case_match; reflexivity ].

Lemma stars_rest_idle script page acc :
  Forall (fun resp => json resp = []) script ->
  StarsFetcher.rest_pages pd self script page acc = acc.
Proof. intros Hall. idle_rest_loop script Hall. Qed.

Lemma forks_rest_idle script page acc :
  Forall (fun resp => json resp = []) script ->
  ForksFetcher.rest_pages pd self script page acc = acc.
Proof. intros Hall. idle_rest_loop script Hall. Qed.

Lemma prs_rest_idle script page acc :
  Forall (fun resp => json resp = []) script ->
  PRsFetcher.rest_pages pd self script page acc = acc.
Proof. intros Hall. idle_rest_loop script Hall. Qed.

Lemma issues_rest_idle script page acc :
  Forall (fun resp => json resp = []) script ->
  IssuesFetcher.rest_pages pd self script page acc = acc.
Proof. intros Hall. idle_rest_loop script Hall. Qed.

Lemma commits_rest_idle script page acc :
  Forall (fun resp => json resp = []) script ->
  ContributionsFetcher.commit_pages pd self script page acc = acc.
Proof. intros Hall. idle_rest_loop script Hall. Qed.

Lemma releases_rest_idle script page acc :
  Forall (fun resp => json resp = []) script ->
  DownloadsFetcher.release_pages pd self script page acc = acc.
Proof. intros Hall. idle_rest_loop script Hall. Qed.

Lemma stats_idle (script : list (Response (list Week))) attempts :
  Forall (fun resp => json resp = []) script ->
  ContributionsFetcher.stats_attempts script attempts = ContributionsFetcher.no_commits.
Proof.
  intros Hall. revert attempts.
  induction Hall as [|resp script Hjson _ IH]; intros [|attempt later]; simpl; try reflexivity.
  rewrite Hjson.
  destruct (status_code resp =? 202); [destruct (attempt <? 2); auto|].
  by destruct (negb _).
Qed.

(** The GraphQL loops. *)

Ltac split_nodes :=
  repeat match goal with
         | H : _ ++ _ = [] |- _ => apply app_eq_nil in H as [? ?]
         end.

Ltac no_nodes resp Hnone :=
  unfold GitHubGraphQL.query, GitHubGraphQL.connection, response_nodes, connection_nodes in *;
  destruct (negb _); [reflexivity|];
  destruct (json resp) as [[[[[? ? ?]|] [[? ? ?]|] [[? ? ?]|] [[? ? ?]|]]|]|];
  simpl in *; split_nodes; subst; try reflexivity;
  repeat match goal with
         | x : option (list Node) |- _ => destruct x; simpl in *; subst
         end; split_nodes; subst; reflexivity.

Lemma forks_nodes_none (resp : Response Data) :
  response_nodes resp = [] ->
  default [] (nodes (GitHubGraphQL.connection forks (GitHubGraphQL.query resp))) = [].
Proof. intros Hnone. no_nodes resp Hnone. Qed.

Lemma prs_nodes_none (resp : Response Data) :
  response_nodes resp = [] ->
  default [] (nodes (GitHubGraphQL.connection pullRequests (GitHubGraphQL.query resp))) = [].
Proof. intros Hnone. no_nodes resp Hnone. Qed.

Lemma issues_edges_none (resp : Response Data) :
  response_nodes resp = [] ->
  default [] (edges (GitHubGraphQL.connection issues (GitHubGraphQL.query resp))) = [].
Proof. intros Hnone. no_nodes resp Hnone. Qed.

Lemma graphql_dates_idle field items cap budget gql dates :
  default [] (items no_connection) = [] ->
  Forall (fun resp =>
            default [] (items (GitHubGraphQL.connection field (GitHubGraphQL.query resp))) = [])
         gql ->
  graphql_dates pd field items cap budget gql dates = dates.
Proof.
  intros Hnone.
  revert gql dates. induction budget as [|budget IH]; intros gql dates Hall; [reflexivity|].
  destruct gql as [|resp gql]; simpl.
  - rewrite Hnone. simpl. apply app_nil_r.
  - apply Forall_cons in Hall as [Hresp Hall]. rewrite Hresp. simpl. rewrite app_nil_r.
    destruct (negb _); [reflexivity|].
    destruct cap as [bound|]; [destruct (bound <? _); [reflexivity|]|]; by apply IH.
Qed.

Lemma stars_graphql_idle gql acc :
  Forall (fun resp => response_nodes resp = []) gql ->
  StarsFetcher.graphql_pages pd gql acc = acc.
Proof.
  intros Hall. revert acc.
  induction Hall as [|resp gql Hnone _ IH]; intros acc; simpl; [reflexivity|].
  unfold GitHubGraphQL.query, response_nodes, connection_nodes in *.
  destruct (negb _); [reflexivity|].
  destruct (json resp) as [[[[[e n pi]|] ? ? ?]|]|]; simpl in *; try reflexivity.
  apply app_eq_nil in Hnone as [Hnone _]. apply app_eq_nil in Hnone as [He _].
  rewrite He. simpl. rewrite app_nil_r.
  destruct (negb _); [reflexivity|].
  destruct (endCursor _) as [cursor|]; [|reflexivity].
  destruct (truthy cursor); [apply IH | reflexivity].
Qed.

Lemma stats_columns (script : list (Response (list Week))) attempts :
  columns (ContributionsFetcher.stats_attempts script attempts) = ["date"; "commits"].
Proof.
  revert attempts. induction script as [|resp script IH]; intros [|attempt later]; simpl;
    try reflexivity.
  repeat case_match; try reflexivity. apply IH.
Qed.

Ltac unfold_fetch :=
  cbn [run value_column];
  unfold StarsFetcher.fetch_rest, StarsFetcher.fetch_graphql,
         ForksFetcher.fetch_rest, ForksFetcher.fetch_graphql,
         ForksFetcher.graphql_events,
         PRsFetcher.fetch, PRsFetcher.fetch_graphql,
         IssuesFetcher.fetch, IssuesFetcher.fetch_graphql,
         ContributionsFetcher.fetch, ContributionsFetcher._fetch_from_commits_api,
         ContributionsFetcher._fetch_from_stats_api, DownloadsFetcher.fetch.

Lemma run_columns (p : FetchPath) (api : Api) :
  columns (run p pd self api) = ["date"; value_column p].
Proof.
  destruct p; unfold_fetch; try apply stats_columns;
    try (case_match; reflexivity).
  case_match; [apply stats_columns | case_match; reflexivity].
Qed.

Lemma run_zero_items (p : FetchPath) (api : Api) :
  zero_items api -> run p pd self api = empty_frame ["date"; value_column p].
Proof.
  intros (Hrest & Hgql & Hstats).
  destruct p; unfold_fetch;
    rewrite ?stars_rest_idle, ?forks_rest_idle, ?prs_rest_idle, ?issues_rest_idle,
            ?stats_idle, ?stars_graphql_idle, ?commits_rest_idle, ?releases_rest_idle
      by assumption;
    try reflexivity.
  - rewrite graphql_dates_idle; [reflexivity..|].
    eapply Forall_impl; [exact Hgql | exact forks_nodes_none].
  - rewrite graphql_dates_idle; [reflexivity..|].
    eapply Forall_impl; [exact Hgql | exact prs_nodes_none].
  - rewrite graphql_dates_idle; [reflexivity..|].
    eapply Forall_impl; [exact Hgql | exact issues_edges_none].
Qed.

End Schema.

(** C7. Whatever the API answers, the series a fetcher returns has the two
    columns of its metric, "date" and the metric's value column. When no
    response carries an item, and whenever the series is empty, the result is
    the empty frame with those two columns. *)
Theorem C7_empty_series_keeps_schema
    (p : FetchPath) (pd : Pandas) (self : BaseFetcher.t) (api : Api) :
  columns (run p pd self api) = ["date"; value_column p]
  /\ (zero_items api -> run p pd self api = empty_frame ["date"; value_column p])
  /\ (empty (run p pd self api) = true ->
      run p pd self api = empty_frame ["date"; value_column p]).
Proof.
  split; [apply run_columns|]. split; [apply run_zero_items|].
  pose proof (run_columns pd self p api) as Hcols.
  destruct (run p pd self api) as [cols rs]. simpl in Hcols. subst cols.
  unfold empty. simpl. destruct rs; [reflexivity | discriminate].
Qed.

Lemma C7_empty_series_witness :
  zero_items example_quiet_api
  /\ run Downloads iso_pandas BaseFetcher.defaults example_quiet_api
     = empty_frame ["date"; "downloads"]
  /\ run StarsGraphQL iso_pandas BaseFetcher.defaults example_quiet_api
     = empty_frame ["date"; "stars"].
Proof.
  assert (zero_items example_quiet_api) as Hzero.
  { unfold zero_items, example_quiet_api. simpl. repeat constructor. }
  split; [exact Hzero|]. split.
  - exact (proj1 (proj2 (C7_empty_series_keeps_schema
             Downloads iso_pandas BaseFetcher.defaults example_quiet_api)) Hzero).
  - exact (proj1 (proj2 (C7_empty_series_keeps_schema
             StarsGraphQL iso_pandas BaseFetcher.defaults example_quiet_api)) Hzero).
Defined.

(** The end-to-end scenario of the specification: stars at 10:00 and 15:00
    on 2024-01-01 and at 09:00 on 2024-01-02. *)
Example stars_end_to_end :
  StarsFetcher.fetch_rest iso_pandas BaseFetcher.defaults (rest example_stars_api)
  = mkDF ["date"; "stars"] [(days_from_civil 2024 1 1, 2); (days_from_civil 2024 1 2, 1)].
Proof. reflexivity. Qed.

(** * Every fetcher: the shape of the series *)

Section Shape.

Variable pd : Pandas.
Variable self : BaseFetcher.t.

Lemma strictly_sorted_shape (df : DataFrame) :
  StronglySorted Z.lt (dates df) -> distinct_and_sorted df.
Proof.
  intros Hs. split; [by apply strictly_sorted_NoDup|].
  by apply StronglySorted_Sorted, strictly_sorted_le.
Qed.

Lemma empty_frame_shape cols : StronglySorted Z.lt (dates (empty_frame cols)).
Proof. constructor. Qed.

Lemma cumsum_dates l : (cumsum l).*1 = l.*1.
Proof. apply cumsum_from_dates. Qed.

(** The days of one bucket, from offset [k] on. *)
Lemma bucket_rows_sorted (start : Z) (counts : list (option Z)) (k : nat) :
  let rows_ :=
    omap (fun '(i, count) =>
            let date := normalize (start + i * seconds_per_day) in
            let count_value := default 0 count in
            if 0 <? count_value then Some (date, count_value) else None)
         (imap (fun i count => (Z.of_nat (k + i), count)) counts) in
  StronglySorted Z.lt rows_.*1
  /\ Forall (fun d => normalize start + Z.of_nat k <= d
                      < normalize start + Z.of_nat k + Z.of_nat (length counts)) rows_.*1.
Proof.
  revert k. induction counts as [|count counts IH]; intros k; simpl.
  - split; constructor.
  - rewrite (imap_ext _ (fun i c => (Z.of_nat (S k + i), c)))
      by (intros; simpl; do 2 f_equal; lia).
    destruct (IH (S k)) as [Hs Hall]. clear IH.
    assert (Forall (fun d => normalize start + Z.of_nat k < d
                             < normalize start + Z.of_nat k
                               + Z.pos (Pos.of_succ_nat (length counts)))
              (omap (fun '(i, count) =>
                       if 0 <? default 0 count
                       then Some (normalize (start + i * seconds_per_day), default 0 count)
                       else None)
                    (imap (fun i c => (Z.of_nat (S k + i), c)) counts)).*1) as Hall'.
    { eapply Forall_impl; [exact Hall|]. intros d ?; simpl in *. lia. }
    rewrite Nat.add_0_r.
    destruct (0 <? default 0 count); simpl.
    + rewrite normalize_offset. split.
      * constructor; [exact Hs|]. eapply Forall_impl; [exact Hall'|]. intros; simpl in *; lia.
      * constructor; [lia|]. eapply Forall_impl; [exact Hall'|]. intros; simpl in *; lia.
    + split; [exact Hs|]. eapply Forall_impl; [exact Hall'|]. intros; simpl in *; lia.
Qed.

Lemma week_rows_sorted (w : Week) :
  StronglySorted Z.lt (ContributionsFetcher.week_rows w).*1
  /\ Forall (fun d => week_start w <= d
                      < week_start w + Z.of_nat (length (default [] (days w))))
            (ContributionsFetcher.week_rows w).*1.
Proof.
  pose proof (bucket_rows_sorted (default 0 (week w)) (default [] (days w)) 0) as H.
  cbv zeta in H. simpl Z.of_nat in H. rewrite !Z.add_0_r in H. exact H.
Qed.

Lemma regular_weeks_sorted (data : list Week) :
  regular_weeks data ->
  StronglySorted Z.lt (flat_map ContributionsFetcher.week_rows data).*1.
Proof.
  intros [Hlen Hs]. induction data as [|w data IH]; simpl; [constructor|].
  apply Forall_cons in Hlen as [Hw Hlen].
  apply StronglySorted_inv in Hs as [Hs Hnext].
  rewrite fmap_app. apply StronglySorted_app.
  destruct (week_rows_sorted w) as [Hsw Hrange].
  split; [|split; [exact Hsw | by apply IH]].
  intros x1 x2 Hx1 Hx2.
  rewrite Forall_forall in Hrange. specialize (Hrange _ Hx1).
  apply list_elem_of_fmap in Hx2 as ([d c] & -> & Hin).
  apply list_elem_of_In, in_flat_map in Hin as (w' & Hw' & Hin).
  apply list_elem_of_In in Hw'. apply list_elem_of_In in Hin.
  rewrite Forall_forall in Hnext. specialize (Hnext _ Hw').
  destruct (week_rows_sorted w') as [_ Hrange'].
  rewrite Forall_forall in Hrange'.
  specialize (Hrange' d (list_elem_of_fmap_2 fst _ _ Hin)). simpl in *. lia.
Qed.

Lemma stats_sorted (script : list (Response (list Week))) attempts :
  StronglySorted Z.le (dates (ContributionsFetcher.stats_attempts script attempts)).
Proof.
  revert attempts. induction script as [|resp script IH]; intros [|attempt later]; simpl;
    try constructor.
  repeat case_match; try constructor; try apply IH.
  unfold dates. simpl rows. apply sort_values_sorted.
Qed.

Lemma stats_regular (script : list (Response (list Week))) attempts :
  Forall (fun resp => regular_weeks (json resp)) script ->
  StronglySorted Z.lt (dates (ContributionsFetcher.stats_attempts script attempts)).
Proof.
  intros Hall. revert attempts.
  induction Hall as [|resp script Hreg _ IH]; intros [|attempt later]; simpl;
    try constructor.
  destruct (status_code resp =? 202); [destruct (attempt <? 2); [apply IH | constructor]|].
  destruct (negb _); [constructor|].
  apply regular_weeks_sorted in Hreg.
  destruct (json resp) as [|w ws]; [constructor|].
  change (flat_map ContributionsFetcher.week_rows (w :: ws))
    with (ContributionsFetcher.week_rows w ++ flat_map ContributionsFetcher.week_rows ws)
    in Hreg.
  destruct (ContributionsFetcher.week_rows w
            ++ flat_map ContributionsFetcher.week_rows ws) as [|r rs];
    [constructor|].
  unfold dates. simpl rows.
  rewrite sort_values_id; [exact Hreg | by apply strictly_sorted_le].
Qed.

Ltac unfold_fetch :=
  cbn [run value_column];
  unfold StarsFetcher.fetch_rest, StarsFetcher.fetch_graphql,
         ForksFetcher.fetch_rest, ForksFetcher.fetch_graphql,
         PRsFetcher.fetch, PRsFetcher.fetch_graphql,
         IssuesFetcher.fetch, IssuesFetcher.fetch_graphql,
         ContributionsFetcher.fetch, ContributionsFetcher._fetch_from_commits_api,
         ContributionsFetcher._fetch_from_stats_api, DownloadsFetcher.fetch.

Ltac daily_or_empty :=
  case_match; [apply empty_frame_shape | apply daily_strictly_sorted].

Lemma forks_graphql_strict (script : GraphQLScript) :
  StronglySorted Z.lt (dates (ForksFetcher.fetch_graphql pd script)).
Proof.
  unfold ForksFetcher.fetch_graphql. case_match; [constructor|].
  unfold dates. simpl rows. rewrite cumsum_dates, sort_values_groupby.
  apply groupby_sum_sorted.
Qed.

Lemma commit_listing_strict (script : RestScript) :
  StronglySorted Z.lt (dates (ContributionsFetcher._fetch_from_commits_api pd self script)).
Proof. unfold ContributionsFetcher._fetch_from_commits_api. daily_or_empty. Qed.

(** The paths that aggregate by day. *)
Lemma run_strict (p : FetchPath) (api : Api) :
  p <> CommitStats -> p <> Contributions ->
  StronglySorted Z.lt (dates (run p pd self api)).
Proof.
  intros Hstats Hcontrib.
  destruct p; try congruence; try apply forks_graphql_strict;
    try apply commit_listing_strict; unfold_fetch; daily_or_empty.
Qed.

Lemma run_regular (p : FetchPath) (api : Api) :
  Forall (fun resp => regular_weeks (json resp)) (commit_activity api) ->
  StronglySorted Z.lt (dates (run p pd self api)).
Proof.
  intros Hreg.
  destruct p; try (apply run_strict; congruence).
  - by apply stats_regular.
  - cbn [run]. unfold ContributionsFetcher.fetch. cbv zeta.
    case_match; [by apply stats_regular | apply commit_listing_strict].
Qed.

Lemma run_sorted (p : FetchPath) (api : Api) :
  StronglySorted Z.le (dates (run p pd self api)).
Proof.
  destruct p; try (apply strictly_sorted_le, run_strict; congruence).
  - apply stats_sorted.
  - cbn [run]. unfold ContributionsFetcher.fetch. cbv zeta.
    case_match; [apply stats_sorted | apply strictly_sorted_le, commit_listing_strict].
Qed.

End Shape.

(** C5, as the code has it. The rows of every fetcher's series are in
    ascending order of date. Their dates are pairwise distinct on every path
    that aggregates by day, which is every path but the commit-activity
    statistics (and the contributions fetch, which may return its result);
    on those two the dates are pairwise distinct when the week buckets are
    regular: at most seven counts each, each starting at least seven days
    after the one before. *)
Theorem C5_series_shape
    (p : FetchPath) (pd : Pandas) (self : BaseFetcher.t) (api : Api) :
  Sorted Z.le (dates (run p pd self api))
  /\ (p <> CommitStats -> p <> Contributions -> distinct_and_sorted (run p pd self api))
  /\ (Forall (fun resp => regular_weeks (json resp)) (commit_activity api) ->
      distinct_and_sorted (run p pd self api)).
Proof.
  split; [apply StronglySorted_Sorted, run_sorted|]. split.
  - intros Hstats Hcontrib. by apply strictly_sorted_shape, run_strict.
  - intros Hreg. by apply strictly_sorted_shape, run_regular.
Qed.

(** The statistics endpoint answering with the same week twice gives two
    rows for one date. *)
Lemma C5_repeated_week_counterexample :
  rows (run CommitStats iso_pandas BaseFetcher.defaults example_repeated_week)
  = [(days_from_civil 2024 1 8, 2); (days_from_civil 2024 1 8, 3)]
  /\ ~ distinct_and_sorted (run CommitStats iso_pandas BaseFetcher.defaults example_repeated_week).
Proof.
  split; [reflexivity|].
  intros [Hnd _]. vm_compute in Hnd.
  apply NoDup_cons in Hnd as [Hnotin _]. apply Hnotin. left.
Qed.

Lemma C5_series_shape_witness :
  (StarsRest <> CommitStats /\ StarsRest <> Contributions
   /\ distinct_and_sorted (run StarsRest iso_pandas BaseFetcher.defaults example_stars_api))
  /\ (Forall (fun resp => regular_weeks (json resp)) (commit_activity example_stars_api)
      /\ distinct_and_sorted (run CommitStats iso_pandas BaseFetcher.defaults example_stars_api)).
Proof.
  assert (StarsRest <> CommitStats) as H1 by discriminate.
  assert (StarsRest <> Contributions) as H2 by discriminate.
  assert (Forall (fun resp => regular_weeks (json resp)) (commit_activity example_stars_api))
    as H3.
  { repeat constructor; simpl; lia. }
  split.
  - split; [exact H1|]. split; [exact H2|].
    exact (proj1 (proj2 (C5_series_shape StarsRest iso_pandas BaseFetcher.defaults
                           example_stars_api)) H1 H2).
  - split; [exact H3|].
    exact (proj2 (proj2 (C5_series_shape CommitStats iso_pandas BaseFetcher.defaults
                           example_stars_api)) H3).
Defined.

(** * The orchestrator: merging and fallbacks *)

Section Merge.

Implicit Types (cached fresh : DataFrame).

Lemma filter_none {A} (P : A -> Prop) `{forall x, Decision (P x)} (l : list A) :
  Forall (fun x => ~ P x) l -> filter P l = [].
Proof.
  induction 1 as [|x l Hx _ IH]; [reflexivity|].
  by rewrite filter_cons, decide_False.
Qed.

(** The merged series has one row per date, in date order. *)
Lemma merge_shape cached fresh : distinct_and_sorted (DataManager.merge cached fresh).
Proof.
  apply strictly_sorted_shape. unfold dates, DataManager.merge. simpl rows.
  apply sorted_NoDup_strictly; [apply sort_values_sorted|].
  rewrite (fmap_Permutation fst _ _ (sort_values_perm _)).
  apply drop_duplicates_from_NoDup.
Qed.

Lemma merge_dates cached fresh d :
  d ∈ dates (DataManager.merge cached fresh) <-> d ∈ dates cached \/ d ∈ dates fresh.
Proof.
  unfold dates, DataManager.merge. simpl rows.
  rewrite (fmap_Permutation fst _ _ (sort_values_perm _)).
  unfold drop_duplicates. rewrite drop_duplicates_from_dates, fmap_app, elem_of_app.
  pose proof (not_elem_of_nil d). tauto.
Qed.

(** On a date both series have, the row of the cache is the one kept. *)
Lemma merge_keeps_cached cached fresh r :
  NoDup (dates cached) -> r ∈ rows cached -> r ∈ rows (DataManager.merge cached fresh).
Proof.
  intros Hnd Hin. unfold DataManager.merge. simpl rows.
  rewrite sort_values_perm. unfold drop_duplicates.
  rewrite drop_duplicates_from_app; [|exact Hnd|intros x _; apply not_elem_of_nil].
  apply elem_of_app. by left.
Qed.

(** Merging a well-formed cache with an empty fetch gives the cache back. *)
Lemma merge_with_nothing cached cols :
  columns cached = cols -> StronglySorted Z.lt (dates cached) ->
  DataManager.merge cached (empty_frame cols) = cached.
Proof.
  intros Hcols Hs. destruct cached as [ccols crows]. simpl in *. subst ccols.
  unfold DataManager.merge, concat. simpl. rewrite app_nil_r. f_equal.
  - rewrite filter_none; [apply app_nil_r|].
    apply Forall_forall. intros x Hx Hnot. contradiction.
  - rewrite drop_duplicates_id by (by apply strictly_sorted_NoDup).
    apply sort_values_id. by apply strictly_sorted_le.
Qed.

End Merge.

Section Fallback.

Variable data_dir : string.
Variable hours : Z.
Variable w : World.
Variables owner repo : string.

Local Abbreviation self := (DataManager.__init__ data_dir hours).

Lemma known_type t :
  t ∈ metric_types ->
  DataManager.expected_cols t = Ok (schema_of t)
  /\ DataManager.call_fetcher w t owner repo = fetch w t owner repo.
Proof.
  intros Hin. unfold metric_types in Hin.
  repeat (apply elem_of_cons in Hin as [->|Hin]; [split; reflexivity|]).
  by apply elem_of_nil in Hin.
Qed.

Lemma fetch_and_save_raises files t e :
  t ∈ metric_types -> fetch w t owner repo = Raise e ->
  DataManager._fetch_and_save_data w files t owner repo
  = (Ok (empty_frame (schema_of t)), files).
Proof.
  intros Hin Hraise. destruct (known_type t Hin) as [Hcols Hcall].
  unfold DataManager._fetch_and_save_data. by rewrite Hcall, Hraise, Hcols.
Qed.

Lemma fetch_and_save_ok files t :
  t ∈ metric_types ->
  exists df files', DataManager._fetch_and_save_data w files t owner repo = (Ok df, files').
Proof.
  intros Hin. destruct (known_type t Hin) as [Hcols Hcall].
  unfold DataManager._fetch_and_save_data. rewrite Hcall, Hcols.
  destruct (fetch w t owner repo) as [df|e]; simpl; [|eauto].
  destruct (negb _); [eauto|]. destruct (to_csv _ _ _ _); eauto.
Qed.

Lemma is_data_stale_ok files path :
  exists b, DataManager._is_data_stale self w files path = Ok b.
Proof.
  rewrite is_data_stale_unfold. destruct (files !! path); eauto.
Qed.

Lemma get_data_ok files t force :
  t ∈ metric_types ->
  exists df files', DataManager.get_data self w files t owner repo force = (Ok df, files').
Proof.
  intros Hin. unfold DataManager.get_data. cbv zeta.
  destruct (is_data_stale_ok files (path_for w t owner repo)) as [b Hb].
  destruct force; [by apply fetch_and_save_ok|].
  rewrite Hb. destruct b; [by apply fetch_and_save_ok | eauto].
Qed.

Lemma range_step_unfold files t start_date end_date force :
  t ∈ metric_types ->
  DataManager.range_step self w owner repo start_date end_date force files t
  = let path := path_for w t owner repo in
    let cached := cached_frame w owner repo files t in
    if must_fetch self w owner repo files t cached start_date end_date force then
      match DataManager._fetch_and_save_data w files t owner repo with
      | (Ok fresh, files1) =>
          let merged := if empty cached then fresh else DataManager.merge cached fresh in
          match to_csv w files1 path merged with
          | Ok files2 => (Ok merged, files2)
          | Raise _ => (Ok merged, files1)
          end
      | (Raise _, files1) =>
          if negb (empty cached) then (Ok cached, files1)
          else (Ok (empty_frame (schema_of t)), files1)
      end
    else (Ok cached, files).
Proof.
  intros Hin. destruct (known_type t Hin) as [Hcols _].
  unfold DataManager.range_step, must_fetch, cached_frame, DataManager._load_data, get_for.
  cbv zeta. rewrite Hcols.
  destruct (files !! path_for w t owner repo) as [f|]; simpl result_map; cbv iota beta.
  - destruct force, (empty (content f)) eqn:Hempty; simpl; try reflexivity.
    destruct (DataManager.range_covered _ _ _ _ _ _ _) as [[|]|]; simpl; reflexivity.
  - destruct force; reflexivity.
Qed.

Lemma range_step_ok files t start_date end_date force :
  t ∈ metric_types ->
  exists df files',
    DataManager.range_step self w owner repo start_date end_date force files t
    = (Ok df, files').
Proof.
  intros Hin. rewrite range_step_unfold by exact Hin. cbv zeta.
  destruct (must_fetch _ _ _ _ _ _ _ _ _ _); [|eauto].
  destruct (fetch_and_save_ok files t Hin) as (df & files' & ->).
  destruct (to_csv _ _ _ _); eauto.
Qed.

Lemma for_each_type_ok step types files result :
  (forall files t, t ∈ types -> exists df files', step files t = (Ok df, files')) ->
  exists result' files', DataManager.for_each_type step types files result = (Ok result', files').
Proof.
  revert files result. induction types as [|t types IH]; intros files result Hstep; simpl;
    [eauto|].
  destruct (Hstep files t) as (df & files' & ->); [left|].
  apply IH. intros files0 t0 Hin. apply Hstep. by right.
Qed.

Lemma get_all_cached_data_for_range_ok files start_date end_date force :
  exists result files',
    DataManager.get_all_cached_data_for_range self w files owner repo
      start_date end_date force = (Ok result, files').
Proof.
  unfold DataManager.get_all_cached_data_for_range. rewrite self_types.
  apply for_each_type_ok. intros files0 t Hin. by apply range_step_ok.
Qed.

Lemma get_all_cached_data_ok files force :
  exists result files',
    DataManager.get_all_cached_data self w files owner repo force = (Ok result, files').
Proof.
  unfold DataManager.get_all_cached_data. rewrite self_types.
  apply for_each_type_ok. intros files0 t Hin. by apply get_data_ok.
Qed.

End Fallback.

(** C2, as the code has it. When the fetcher of a metric raises, no
    retrieval raises. The fetch-and-save step, and with it [get_data] when it
    is forced or the artifact is stale, returns the empty series with the
    metric's two columns, whatever the cache holds; [get_data] returns the
    cached series only when the artifact is not stale. The range-aware
    retrieval returns the empty series with the metric's two columns when the
    cache is empty, and otherwise the cached series, deduplicated by date and
    sorted, which is the cached series itself when that one is well formed. *)
Theorem C2_fetch_failure_fallback
    (data_dir : string) (hours : Z) (w : World) (files : gmap string File)
    (t owner repo : string) (e : Exn) :
  t ∈ metric_types ->
  fetch w t owner repo = Raise e ->
  let self := DataManager.__init__ data_dir hours in
  let cached := cached_frame w owner repo files t in
  let nothing := empty_frame (schema_of t) in
  let stale := DataManager._is_data_stale self w files (path_for w t owner repo) in
  DataManager._fetch_and_save_data w files t owner repo = (Ok nothing, files)
  /\ (forall force, force = true \/ stale = Ok true ->
        DataManager.get_data self w files t owner repo force = (Ok nothing, files))
  /\ (stale = Ok false ->
        DataManager.get_data self w files t owner repo false = (Ok cached, files))
  /\ (forall start_date end_date force,
        exists df,
          fst (DataManager.range_step self w owner repo start_date end_date force files t)
          = Ok df
          /\ (empty cached = true -> df = nothing)
          /\ (empty cached = false -> df = cached \/ df = DataManager.merge cached nothing)
          /\ (empty cached = false -> columns cached = schema_of t ->
              StronglySorted Z.lt (dates cached) -> df = cached))
  /\ (forall start_date end_date force,
        exists result,
          fst (DataManager.get_all_cached_data_for_range self w files owner repo
                 start_date end_date force) = Ok result)
  /\ (forall force,
        exists result,
          fst (DataManager.get_all_cached_data self w files owner repo force) = Ok result).
Proof.
  intros Hin Hraise self cached nothing stale. subst self.
  pose proof (fetch_and_save_raises w owner repo files t e Hin Hraise) as Hsave.
  split; [exact Hsave|]. split; [|split; [|split; [|split]]].
  - intros force Hforce. unfold DataManager.get_data. cbv zeta.
    destruct force; [exact Hsave|].
    destruct Hforce as [Hforce|Hstale]; [discriminate|].
    fold stale. rewrite Hstale. exact Hsave.
  - intros Hfresh. unfold DataManager.get_data. cbv zeta.
    fold stale. rewrite Hfresh. f_equal. f_equal.
    subst stale. rewrite is_data_stale_unfold in Hfresh.
    subst cached. unfold cached_frame, DataManager._load_data, get_for.
    destruct (files !! path_for w t owner repo); [reflexivity | discriminate].
  - intros start_date end_date force.
    rewrite (range_step_unfold data_dir hours w owner repo files t start_date end_date force Hin).
    cbv zeta. fold cached. rewrite Hsave. fold nothing.
    destruct (must_fetch _ _ _ _ _ _ _ _ _ _) eqn:Hmust.
    + destruct (empty cached) eqn:Hempty.
      * exists nothing. split; [by destruct (to_csv _ _ _ _)|].
        split; [reflexivity|]. split; discriminate.
      * exists (DataManager.merge cached nothing).
        split; [by destruct (to_csv _ _ _ _)|].
        split; [discriminate|]. split; [by right|].
        intros _ Hcols Hs. by apply merge_with_nothing.
    + exists cached. split; [reflexivity|].
      unfold must_fetch in Hmust.
      destruct force; [discriminate|]. destruct (empty cached); [discriminate|].
      split; [discriminate|]. split; [by left | reflexivity].
  - intros start_date end_date force.
    destruct (get_all_cached_data_for_range_ok data_dir hours w owner repo files
                start_date end_date force) as (result & files' & Heq).
    exists result. by rewrite Heq.
  - intros force.
    destruct (get_all_cached_data_ok data_dir hours w owner repo files force)
      as (result & files' & Heq).
    exists result. by rewrite Heq.
Qed.

(** With a stale, non-empty cache and a fetcher that raises, [get_data]
    returns the empty series, not the cached one. *)
Lemma C2_get_data_counterexample :
  let self := DataManager.__init__ "data" 24 in
  let w := example_world (Raise FetchError) in
  let files := example_disk 1600000000 example_cached in
  get_for w files "stars" "octocat" "hello" = example_cached
  /\ empty example_cached = false
  /\ fst (DataManager.get_data self w files "stars" "octocat" "hello" false)
     = Ok (empty_frame ["date"; "stars"])
  /\ fst (DataManager.get_data self w files "stars" "octocat" "hello" false)
     <> Ok example_cached.
Proof.
  intros self w files.
  assert (fst (DataManager.get_data self w files "stars" "octocat" "hello" false)
          = Ok (empty_frame ["date"; "stars"])) as Hget by (vm_compute; reflexivity).
  split; [reflexivity|]. split; [reflexivity|]. split; [exact Hget|].
  rewrite Hget. vm_compute. discriminate.
Qed.

Lemma C2_fetch_failure_witness :
  let w := example_world (Raise FetchError) in
  let files := example_disk 1600000000 example_cached in
  "stars" ∈ metric_types
  /\ fetch w "stars" "octocat" "hello" = Raise FetchError
  /\ DataManager._fetch_and_save_data w files "stars" "octocat" "hello"
     = (Ok (empty_frame (schema_of "stars")), files).
Proof.
  intros w files.
  assert ("stars" ∈ metric_types) as Hin by (unfold metric_types; left).
  assert (fetch w "stars" "octocat" "hello" = Raise FetchError) as Hraise by reflexivity.
  split; [exact Hin|]. split; [exact Hraise|].
  exact (proj1 (C2_fetch_failure_fallback "data" 24 w files "stars" "octocat" "hello"
                  FetchError Hin Hraise)).
Defined.

(** C1, on the scenario of the specification: the cache holds (d1, 5) and
    (d2, 3), the fetch brings (d2, 7) and (d3, 1). The series the
    range-aware retrieval returns and persists has the dates d1, d2, d3 once
    each, in order, and for d2 the value 3 of the cache, not the 7 just
    fetched; so it is when the requested range is not covered, and so it is
    under a forced refresh. *)
Theorem C1_merge_keeps_cached_value :
  let self := DataManager.__init__ "data" 24 in
  let w := example_world (Ok example_fresh) in
  let files := example_disk 1700086000 example_cached in
  let retrieve :=
    DataManager.get_all_cached_data_for_range self w files "octocat" "hello"
      (days_from_civil 2024 1 1) (days_from_civil 2024 1 3) in
  let merged :=
    mkDF ["date"; "stars"]
         [ (days_from_civil 2024 1 1, 5);
           (days_from_civil 2024 1 2, 3);
           (days_from_civil 2024 1 3, 1) ] in
  (result_for (fst (retrieve false)) "stars" = Some merged
   /\ content <$> (snd (retrieve false) !! "stars") = Some merged)
  /\ (result_for (fst (retrieve true)) "stars" = Some merged
      /\ content <$> (snd (retrieve true) !! "stars") = Some merged).
Proof. vm_compute. repeat split; reflexivity. Qed.

(** * Further properties of the transport *)

(** A first answer other than 403 is returned at once, whatever its status:
    one request and no sleep. *)
Theorem request_no_retry_unless_403 {B : Type}
    (py : Python) (server : Z -> Response B) (clock : Z -> Z) :
  status_code (server 0) <> 403 ->
  BaseFetcher._request py server clock = mkOutcome (Ok (server 0)) [] 1.
Proof.
  intros Hne. rewrite request_unfold. cbv zeta.
  destruct (Z.eqb_spec (status_code (server 0)) 403); [contradiction | reflexivity].
Qed.

Lemma request_no_retry_witness :
  status_code (example_server_error 0) <> 403
  /\ BaseFetcher._request cpython example_server_error (fun _ => 0)
     = mkOutcome (Ok (example_server_error 0)) [] 1.
Proof.
  assert (status_code (example_server_error 0) <> 403) as Hne by discriminate.
  split; [exact Hne|].
  exact (request_no_retry_unless_403 cpython example_server_error (fun _ => 0) Hne).
Defined.

Lemma sum_of_sleeps (l : list Z) :
  (length l <= 3)%nat -> (forall (i : nat) s, l !! i = Some s -> 0 <= s <= 10) ->
  0 <= App.sum l <= 30.
Proof.
  intros Hlen Hall.
  destruct l as [|a [|b [|c [|d l]]]]; simpl in Hlen; try lia.
  - unfold App.sum. simpl. lia.
  - pose proof (Hall 0%nat a eq_refl). unfold App.sum. simpl. lia.
  - pose proof (Hall 0%nat a eq_refl). pose proof (Hall 1%nat b eq_refl).
    unfold App.sum. simpl. lia.
  - pose proof (Hall 0%nat a eq_refl). pose proof (Hall 1%nat b eq_refl).
    pose proof (Hall 2%nat c eq_refl). unfold App.sum. simpl. lia.
Qed.

(** One call sleeps at most 30 seconds in all, whether it returns or raises.
    When it returns it has slept once for each 403 it received; when no
    response carries a reset time it returns, and the sleeps are the first of
    2, 4 and 5 seconds, one for each 403. *)
Theorem request_total_sleep {B : Type}
    (py : Python) (server : Z -> Response B) (clock : Z -> Z) :
  let out := BaseFetcher._request py server clock in
  0 <= App.sum (slept out) <= 30
  /\ (forall resp, returned out = Ok resp -> length (slept out) = refusals server)
  /\ ((forall n, rate_limit_reset (server n) = None) ->
      slept out = take (refusals server) [2; 4; 5]
      /\ returned out = Ok (server (Z.of_nat (Nat.min 2 (refusals server))))).
Proof.
  intros out. split; [|split].
  - destruct (request_sleeps py server clock) as (_ & Hlen & Hbound).
    apply sum_of_sleeps; [exact Hlen|].
    intros i s Hs. destruct (Hbound i s Hs) as (_ & H0 & Hs').
    destruct (reset_provided (server (Z.of_nat i))); lia.
  - subst out. rewrite request_unfold. cbv zeta. unfold refusals. cbn [leading_403].
    intros resp.
    destruct (status_code (server 0) =? 403); [|done].
    destruct (BaseFetcher.wait_and_backoff py (server 0) (clock 0) 2) as [[w0 b0]|e0];
      [|discriminate].
    cbn [fst snd]. destruct (status_code (server 1) =? 403); [|done].
    destruct (BaseFetcher.wait_and_backoff py (server 1) (clock 1) b0) as [[w1 b1]|e1];
      [|discriminate].
    cbn [fst snd]. destruct (status_code (server 2) =? 403); [|done].
    by destruct (BaseFetcher.wait_and_backoff py (server 2) (clock 2) b1) as [[w2 b2]|e2].
  - intros Hnone. subst out. rewrite request_unfold. cbv zeta.
    unfold BaseFetcher.wait_and_backoff. rewrite !Hnone.
    unfold refusals. cbn [leading_403].
    destruct (status_code (server 0) =? 403); [|done].
    cbn [fst snd]. destruct (status_code (server 1) =? 403); [|done].
    destruct (status_code (server 2) =? 403); done.
Qed.

Lemma request_total_sleep_witness :
  (forall n, rate_limit_reset (example_always_limited n) = None)
  /\ slept (BaseFetcher._request cpython example_always_limited (fun _ => 0)) = [2; 4; 5].
Proof.
  assert (forall n, rate_limit_reset (example_always_limited n) = None) as Hnone
    by reflexivity.
  split; [exact Hnone|].
  exact (proj1 (proj2 (proj2 (request_total_sleep cpython example_always_limited
                                (fun _ => 0))) Hnone)).
Defined.

(** The retry is bounded: a call issues at most 3 requests and, after the
    403 of attempt [i], sleeps at most 10 seconds when the response carries a
    reset time and at most 5 seconds otherwise. When the reset headers of the
    403 answers can be read, some answer is returned: the 200 that follows
    two 403, after two sleeps, and the third 403 after three of them. *)
Theorem request_bounded_retry {B : Type}
    (py : Python) (server : Z -> Response B) (clock : Z -> Z) :
  let out := BaseFetcher._request py server clock in
  (requests_issued out <= 3)%nat
  /\ (forall (i : nat) (s : Z), slept out !! i = Some s ->
        status_code (server (Z.of_nat i)) = 403
        /\ 0 <= s
        /\ (if reset_provided (server (Z.of_nat i)) then s <= 10 else s <= 5))
  /\ ((forall n, status_code (server n) = 403 -> readable_reset py (server n)) ->
      (status_code (server 0) = 403 -> status_code (server 1) = 403 ->
       status_code (server 2) = 200 ->
         returned out = Ok (server 2) /\ length (slept out) = 2%nat)
      /\ (status_code (server 0) = 403 -> status_code (server 1) = 403 ->
          status_code (server 2) = 403 ->
            returned out = Ok (server 2) /\ requests_issued out = 3%nat)
      /\ (exists n, 0 <= n < 3 /\ returned out = Ok (server n))).
Proof.
  intros out.
  destruct (request_sleeps py server clock) as (Hgets & _ & Hbound).
  split; [exact Hgets|]. split; [exact Hbound|].
  intros Hread.
  destruct (request_returns py server clock Hread) as (Hret & Hissued & Hslept).
  fold out in Hret, Hissued, Hslept.
  assert (forall a b c, status_code (server 0) = a -> status_code (server 1) = b ->
            status_code (server 2) = c ->
            refusals server
            = if a =? 403 then if b =? 403 then if c =? 403 then 3%nat else 2%nat
                               else 1%nat else 0%nat) as Hcount.
  { intros a b c <- <- <-. unfold refusals. cbn [leading_403].
    repeat case_match; reflexivity. }
  split; [|split].
  - intros E0 E1 E2. rewrite Hret, Hslept, (Hcount _ _ _ E0 E1 E2). by split.
  - intros E0 E1 E2. rewrite Hret, Hissued, (Hcount _ _ _ E0 E1 E2). by split.
  - exists (Z.of_nat (Nat.min 2 (refusals server))). split; [lia|exact Hret].
Qed.

Lemma request_bounded_retry_witness :
  let out := BaseFetcher._request cpython example_rate_limited (fun _ => 1700000000) in
  (forall n, status_code (example_rate_limited n) = 403 ->
             readable_reset cpython (example_rate_limited n))
  /\ status_code (example_rate_limited 0) = 403
  /\ status_code (example_rate_limited 1) = 403
  /\ status_code (example_rate_limited 2) = 200
  /\ returned out = Ok (example_rate_limited 2)
  /\ slept out = [6; 6].
Proof.
  intros out.
  assert (forall n, status_code (example_rate_limited n) = 403 ->
                    readable_reset cpython (example_rate_limited n)) as Hread.
  { intros n _ reset. unfold example_rate_limited.
    destruct (n <? 2); simpl; [|discriminate].
    intros [= <-] _. split; [reflexivity | right; vm_compute; discriminate]. }
  assert (status_code (example_rate_limited 0) = 403) as E0 by reflexivity.
  assert (status_code (example_rate_limited 1) = 403) as E1 by reflexivity.
  assert (status_code (example_rate_limited 2) = 200) as E2 by reflexivity.
  split; [exact Hread|]. repeat (split; [assumption|]).
  split; [|reflexivity].
  exact (proj1 (proj1 (proj2 (proj2 (request_bounded_retry cpython
                  example_rate_limited (fun _ => 1700000000))) Hread) E0 E1 E2)).
Defined.

(** * Further properties of the fetchers *)

Section Aggregation.

Variable pd : Pandas.
Variable self : BaseFetcher.t.

Lemma sum_app (l1 l2 : list Z) : App.sum (l1 ++ l2) = App.sum l1 + App.sum l2.
Proof. unfold App.sum. induction l1 as [|x l1 IH]; simpl; lia. Qed.

Lemma sum_values (l : list (Date * Z)) :
  App.sum l.*2 = foldr (fun r s => snd r + s) 0 l.
Proof.
  unfold App.sum. induction l as [|[d v] l IH]; [reflexivity|].
  change (((d, v) :: l).*2) with (v :: l.*2). simpl. by rewrite IH.
Qed.

Lemma sum_add_row d v acc : App.sum (add_row d v acc).*2 = App.sum acc.*2 + v.
Proof.
  rewrite !sum_values. induction acc as [|[d' v'] tl IH]; simpl; [lia|].
  destruct (d <? d'); [simpl; lia|]. destruct (d =? d'); simpl; lia.
Qed.

Lemma sum_groupby_from l acc :
  App.sum (fold_left (fun acc r => add_row (fst r) (snd r) acc) l acc).*2
  = App.sum acc.*2 + App.sum l.*2.
Proof.
  revert acc. induction l as [|[d v] l IH]; intros acc.
  - change (App.sum ([] : list (Date * Z)).*2) with 0. simpl. lia.
  - change (App.sum ((d, v) :: l).*2) with (v + App.sum l.*2).
    cbn [fold_left fst snd]. rewrite IH, sum_add_row. lia.
Qed.

Lemma sum_groupby l : App.sum (groupby_sum l).*2 = App.sum l.*2.
Proof.
  unfold groupby_sum. rewrite sum_groupby_from.
  change (App.sum ([] : list (Date * Z)).*2) with 0. lia.
Qed.

Lemma sum_ones (ds : list Date) : App.sum (ones ds).*2 = Z.of_nat (length ds).
Proof.
  rewrite sum_values. induction ds as [|d ds IH]; [reflexivity|].
  change (ones (d :: ds)) with ((d, 1) :: ones ds).
  rewrite length_cons, Nat2Z.inj_succ. simpl. rewrite IH. lia.
Qed.

Lemma groupby_sum_nil l : groupby_sum l = [] -> l = [].
Proof.
  intros Hnil. destruct l as [|[d v] l]; [reflexivity|]. exfalso.
  assert (d ∈ (groupby_sum ((d, v) :: l)).*1) as Hin by (apply groupby_sum_dates; left).
  rewrite Hnil in Hin. by apply elem_of_nil in Hin.
Qed.

(** A fetch that ends with the aggregation by day. *)
Lemma aggregated_rows col col' (l : list (Date * Z)) :
  rows (match l with [] => empty_frame col | r :: rs => daily col' (r :: rs) end)
  = groupby_sum l.
Proof. destruct l; [reflexivity|]. simpl rows. apply sort_values_groupby. Qed.

Lemma aggregated_dates_rows col col' (ds : list Date) :
  rows (match ds with [] => empty_frame col | d :: ds' => daily col' (ones (d :: ds')) end)
  = groupby_sum (ones ds).
Proof. destruct ds; [reflexivity|]. simpl rows. apply sort_values_groupby. Qed.

Lemma run_rows (p : FetchPath) (api : Api) :
  aggregates_by_day p = true ->
  rows (run p pd self api) = groupby_sum (gathered p pd self api).
Proof.
  intros Hagg. destruct p; try discriminate; cbn [run gathered];
    unfold StarsFetcher.fetch_rest, StarsFetcher.fetch_graphql, ForksFetcher.fetch_rest,
           PRsFetcher.fetch, PRsFetcher.fetch_graphql,
           IssuesFetcher.fetch, IssuesFetcher.fetch_graphql,
           ContributionsFetcher._fetch_from_commits_api, ContributionsFetcher.no_commits,
           DownloadsFetcher.fetch;
    first [apply aggregated_rows | apply aggregated_dates_rows].
Qed.

End Aggregation.

(** On every path that aggregates by day, the series holds one row per day
    on which the path gathered something, with the sum of what it gathered
    for that day. *)
Theorem fetch_rows_are_daily_sums
    (p : FetchPath) (pd : Pandas) (self : BaseFetcher.t) (api : Api) (d v : Z) :
  aggregates_by_day p = true ->
  ((d, v) ∈ rows (run p pd self api)
   <-> d ∈ (gathered p pd self api).*1 /\ v = total_on d (gathered p pd self api)).
Proof.
  intros Hagg. rewrite run_rows by exact Hagg.
  rewrite (sorted_rows_total _ (groupby_sum_sorted _)).
  by rewrite groupby_sum_dates, total_on_groupby.
Qed.

Lemma fetch_rows_witness :
  aggregates_by_day PRsRest = true
  /\ ((days_from_civil 2024 1 1, 2)
        ∈ rows (run PRsRest iso_pandas BaseFetcher.defaults example_pulls_api)
      <-> days_from_civil 2024 1 1
            ∈ (gathered PRsRest iso_pandas BaseFetcher.defaults example_pulls_api).*1
          /\ 2 = total_on (days_from_civil 2024 1 1)
                   (gathered PRsRest iso_pandas BaseFetcher.defaults example_pulls_api)).
Proof.
  split; [reflexivity|].
  exact (fetch_rows_are_daily_sums PRsRest iso_pandas BaseFetcher.defaults
           example_pulls_api (days_from_civil 2024 1 1) 2 eq_refl).
Defined.

(** The aggregation by day loses nothing: the total of the value column, as
    the dashboard computes it, is the total of what the path gathered, and
    for the pull-request and issue paths the number of dated items. *)
Theorem fetch_total_is_gathered_total
    (p : FetchPath) (pd : Pandas) (self : BaseFetcher.t) (api : Api) :
  aggregates_by_day p = true ->
  App.get_period_activity (run p pd self api) (value_column p)
  = Ok (App.sum (gathered p pd self api).*2)
  /\ (p = PRsRest ->
      App.get_period_activity (run p pd self api) "pr_count"
      = Ok (Z.of_nat (length (PRsFetcher.rest_pages pd self (rest api) 1 []))))
  /\ (p = IssuesRest ->
      App.get_period_activity (run p pd self api) "issues"
      = Ok (Z.of_nat (length (IssuesFetcher.rest_pages pd self (rest api) 1 [])))).
Proof.
  intros Hagg.
  assert (App.get_period_activity (run p pd self api) (value_column p)
          = Ok (App.sum (gathered p pd self api).*2)) as Htotal.
  { pose proof (run_columns pd self p api) as Hcols.
    pose proof (run_rows pd self p api Hagg) as Hrows.
    destruct (run p pd self api) as [cols rs]. simpl in Hcols, Hrows. subst cols rs.
    unfold App.get_period_activity, empty, App.values_of. simpl columns. simpl rows.
    remember (groupby_sum (gathered p pd self api)) as g eqn:Hg.
    destruct g as [|r rs].
    - symmetry in Hg. apply groupby_sum_nil in Hg. by rewrite Hg.
    - rewrite String.eqb_refl. cbn [result_map]. by rewrite Hg, sum_groupby. }
  split; [exact Htotal|]. split.
  - intros ->. cbn [value_column] in Htotal. rewrite Htotal. cbn [gathered].
    by rewrite sum_ones.
  - intros ->. cbn [value_column] in Htotal. rewrite Htotal. cbn [gathered].
    by rewrite sum_ones.
Qed.

Lemma fetch_total_witness :
  aggregates_by_day PRsRest = true
  /\ App.get_period_activity
       (run PRsRest iso_pandas BaseFetcher.defaults example_pulls_api) "pr_count"
     = Ok 3.
Proof.
  split; [reflexivity|].
  exact (proj1 (proj2 (fetch_total_is_gathered_total PRsRest iso_pandas
                         BaseFetcher.defaults example_pulls_api eq_refl)) eq_refl).
Defined.

(** * Pagination *)

Section Pagination.

Variable pd : Pandas.
Variable self : BaseFetcher.t.

Implicit Types (script before after : RestScript) (bad short : Response (list Item)).

(** A response that is not a 200 ends a page loop. *)
Ltac stop_at_failure before Hbad :=
  induction before as [|resp before IH]; intros page acc; simpl;
  [ rewrite Hbad; reflexivity
  | repeat case_match; try reflexivity; apply IH ].

Lemma stars_stop bad before after :
  negb (status_code bad =? 200) = true -> forall page acc,
  StarsFetcher.rest_pages pd self (before ++ bad :: after) page acc
  = StarsFetcher.rest_pages pd self before page acc.
Proof. intros Hbad. stop_at_failure before Hbad. Qed.

Lemma forks_stop bad before after :
  negb (status_code bad =? 200) = true -> forall page acc,
  ForksFetcher.rest_pages pd self (before ++ bad :: after) page acc
  = ForksFetcher.rest_pages pd self before page acc.
Proof. intros Hbad. stop_at_failure before Hbad. Qed.

Lemma prs_stop bad before after :
  negb (status_code bad =? 200) = true -> forall page acc,
  PRsFetcher.rest_pages pd self (before ++ bad :: after) page acc
  = PRsFetcher.rest_pages pd self before page acc.
Proof. intros Hbad. stop_at_failure before Hbad. Qed.

Lemma issues_stop bad before after :
  negb (status_code bad =? 200) = true -> forall page acc,
  IssuesFetcher.rest_pages pd self (before ++ bad :: after) page acc
  = IssuesFetcher.rest_pages pd self before page acc.
Proof. intros Hbad. stop_at_failure before Hbad. Qed.

Lemma commits_stop bad before after :
  negb (status_code bad =? 200) = true -> forall page acc,
  ContributionsFetcher.commit_pages pd self (before ++ bad :: after) page acc
  = ContributionsFetcher.commit_pages pd self before page acc.
Proof. intros Hbad. stop_at_failure before Hbad. Qed.

Lemma releases_stop bad before after :
  negb (status_code bad =? 200) = true -> forall page acc,
  DownloadsFetcher.release_pages pd self (before ++ bad :: after) page acc
  = DownloadsFetcher.release_pages pd self before page acc.
Proof. intros Hbad. stop_at_failure before Hbad. Qed.

(** No page loop asks for more pages than its limit. *)
Ltac within_limit script :=
  induction script as [|resp script IH]; intros n page acc Hn;
  [ by rewrite take_nil
  | destruct n as [|n]; simpl;
    [ match goal with
      | |- context [?a <=? ?b] => destruct (Z.leb_spec a b); [lia | reflexivity]
      end
    | repeat case_match; try reflexivity; apply IH; lia ] ].

Lemma stars_limit script : forall (n : nat) page acc,
  BaseFetcher.max_pages self - page + 1 <= Z.of_nat n ->
  StarsFetcher.rest_pages pd self (take n script) page acc
  = StarsFetcher.rest_pages pd self script page acc.
Proof. within_limit script. Qed.

Lemma forks_limit script : forall (n : nat) page acc,
  BaseFetcher.max_pages self - page + 1 <= Z.of_nat n ->
  ForksFetcher.rest_pages pd self (take n script) page acc
  = ForksFetcher.rest_pages pd self script page acc.
Proof. within_limit script. Qed.

Lemma prs_limit script : forall (n : nat) page acc,
  BaseFetcher.max_pages self - page + 1 <= Z.of_nat n ->
  PRsFetcher.rest_pages pd self (take n script) page acc
  = PRsFetcher.rest_pages pd self script page acc.
Proof. within_limit script. Qed.

Lemma issues_limit script : forall (n : nat) page acc,
  IssuesFetcher.max_pages - page + 1 <= Z.of_nat n ->
  IssuesFetcher.rest_pages pd self (take n script) page acc
  = IssuesFetcher.rest_pages pd self script page acc.
Proof. within_limit script. Qed.

Lemma commits_limit script : forall (n : nat) page acc,
  Z.min 10 (BaseFetcher.max_pages self) - page + 1 <= Z.of_nat n ->
  ContributionsFetcher.commit_pages pd self (take n script) page acc
  = ContributionsFetcher.commit_pages pd self script page acc.
Proof. within_limit script. Qed.

Lemma releases_limit script : forall (n : nat) page acc,
  BaseFetcher.max_pages self - page + 1 <= Z.of_nat n ->
  DownloadsFetcher.release_pages pd self (take n script) page acc
  = DownloadsFetcher.release_pages pd self script page acc.
Proof. within_limit script. Qed.

(** A page shorter than [per_page] is the last one read, on the paths that
    test the page length. *)
Ltac stop_at_short before short Hshort :=
  induction before as [|resp before IH]; intros page acc; simpl;
  [ destruct (json short) as [|item items] eqn:Hjson;
    [ reflexivity
    | try rewrite Hjson in Hshort; simpl in Hshort; rewrite Hshort; reflexivity ]
  | repeat case_match; try reflexivity; apply IH ].

Lemma prs_short short before after :
  (Z.of_nat (length (json short)) <? BaseFetcher.per_page self) = true -> forall page acc,
  PRsFetcher.rest_pages pd self (before ++ short :: after) page acc
  = PRsFetcher.rest_pages pd self (before ++ [short]) page acc.
Proof. intros Hshort. stop_at_short before short Hshort. Qed.

Lemma issues_short short before after :
  (Z.of_nat (length (json short)) <? BaseFetcher.per_page self) = true -> forall page acc,
  IssuesFetcher.rest_pages pd self (before ++ short :: after) page acc
  = IssuesFetcher.rest_pages pd self (before ++ [short]) page acc.
Proof. intros Hshort. stop_at_short before short Hshort. Qed.

Lemma commits_short short before after :
  (Z.of_nat (length (json short)) <? BaseFetcher.per_page self) = true -> forall page acc,
  ContributionsFetcher.commit_pages pd self (before ++ short :: after) page acc
  = ContributionsFetcher.commit_pages pd self (before ++ [short]) page acc.
Proof. intros Hshort. stop_at_short before short Hshort. Qed.

Lemma releases_short short before after :
  (Z.of_nat (length (json short)) <? BaseFetcher.per_page self) = true -> forall page acc,
  DownloadsFetcher.release_pages pd self (before ++ short :: after) page acc
  = DownloadsFetcher.release_pages pd self (before ++ [short]) page acc.
Proof. intros Hshort. stop_at_short before short Hshort. Qed.

End Pagination.

Ltac unfold_rest_fetch :=
  cbn [run with_rest rest graphql commit_activity];
  unfold StarsFetcher.fetch_rest, ForksFetcher.fetch_rest, PRsFetcher.fetch,
         IssuesFetcher.fetch, ContributionsFetcher.fetch,
         ContributionsFetcher._fetch_from_commits_api, DownloadsFetcher.fetch.

(** Partial success: a response that is not a 200 ends the pagination of
    every fetch path, which returns what the pages before it gave; no
    response after it is read. *)
Theorem fetch_stops_at_failed_page
    (p : FetchPath) (pd : Pandas) (self : BaseFetcher.t) (api : Api)
    (before after : RestScript) (bad : Response (list Item)) :
  status_code bad <> 200 ->
  run p pd self (with_rest api (before ++ bad :: after))
  = run p pd self (with_rest api before).
Proof.
  intros Hne.
  assert (negb (status_code bad =? 200) = true) as Hbad.
  { destruct (Z.eqb_spec (status_code bad) 200); [contradiction | reflexivity]. }
  destruct p; unfold_rest_fetch;
    rewrite ?(stars_stop pd self bad before after Hbad),
            ?(forks_stop pd self bad before after Hbad),
            ?(prs_stop pd self bad before after Hbad),
            ?(issues_stop pd self bad before after Hbad),
            ?(commits_stop pd self bad before after Hbad),
            ?(releases_stop pd self bad before after Hbad);
    reflexivity.
Qed.

Lemma fetch_stops_at_failed_page_witness :
  status_code (mkResponse 502 None ([] : list Item)) <> 200
  /\ run PRsRest iso_pandas BaseFetcher.defaults
       (with_rest example_pulls_api
          (rest example_pulls_api ++ mkResponse 502 None [] :: rest example_stars_api))
     = run PRsRest iso_pandas BaseFetcher.defaults
         (with_rest example_pulls_api (rest example_pulls_api)).
Proof.
  assert (status_code (mkResponse 502 None ([] : list Item)) <> 200) as Hne by discriminate.
  split; [exact Hne|].
  exact (fetch_stops_at_failed_page PRsRest iso_pandas BaseFetcher.defaults
           example_pulls_api (rest example_pulls_api) (rest example_stars_api)
           (mkResponse 502 None []) Hne).
Defined.

(** No fetch path reads more REST pages than its limit: [max_pages] for
    stars, forks, pull requests and downloads, 20 for issues, and the smaller
    of 10 and [max_pages] for the commit listing. *)
Theorem fetch_reads_at_most_page_limit
    (p : FetchPath) (pd : Pandas) (self : BaseFetcher.t) (api : Api) (script : RestScript) :
  run p pd self (with_rest api (take (Z.to_nat (page_limit p self)) script))
  = run p pd self (with_rest api script).
Proof.
  destruct p; unfold_rest_fetch; cbn [page_limit];
    rewrite ?stars_limit, ?forks_limit, ?prs_limit, ?issues_limit, ?commits_limit,
            ?releases_limit by lia;
    reflexivity.
Qed.

(** On the paths that test the page length (pull requests, issues, commit
    listing, downloads), a page with fewer than [per_page] items is the last
    one read. *)
Theorem fetch_stops_at_short_page
    (p : FetchPath) (pd : Pandas) (self : BaseFetcher.t) (api : Api)
    (before after : RestScript) (short : Response (list Item)) :
  stops_at_short_page p = true ->
  Z.of_nat (length (json short)) < BaseFetcher.per_page self ->
  run p pd self (with_rest api (before ++ short :: after))
  = run p pd self (with_rest api (before ++ [short])).
Proof.
  intros Hp Hlt.
  assert ((Z.of_nat (length (json short)) <? BaseFetcher.per_page self) = true) as Hshort
    by (apply Z.ltb_lt, Hlt).
  destruct p; try discriminate; unfold_rest_fetch;
    rewrite ?(prs_short pd self short before after Hshort),
            ?(issues_short pd self short before after Hshort),
            ?(commits_short pd self short before after Hshort),
            ?(releases_short pd self short before after Hshort);
    reflexivity.
Qed.

Lemma fetch_stops_at_short_page_witness :
  stops_at_short_page PRsRest = true
  /\ Z.of_nat (length (json (mkResponse 200 None [fork_created "2024-01-05T10:00:00Z"])))
     < BaseFetcher.per_page BaseFetcher.defaults
  /\ run PRsRest iso_pandas BaseFetcher.defaults
       (with_rest example_pulls_api
          ([] ++ mkResponse 200 None [fork_created "2024-01-05T10:00:00Z"]
              :: rest example_pulls_api))
     = run PRsRest iso_pandas BaseFetcher.defaults
         (with_rest example_pulls_api
            ([] ++ [mkResponse 200 None [fork_created "2024-01-05T10:00:00Z"]])).
Proof.
  assert (Z.of_nat (length (json (mkResponse 200 None [fork_created "2024-01-05T10:00:00Z"])))
          < BaseFetcher.per_page BaseFetcher.defaults) as Hlt by (simpl; lia).
  split; [reflexivity|]. split; [exact Hlt|].
  exact (fetch_stops_at_short_page PRsRest iso_pandas BaseFetcher.defaults
           example_pulls_api [] (rest example_pulls_api)
           (mkResponse 200 None [fork_created "2024-01-05T10:00:00Z"]) eq_refl Hlt).
Defined.

(** * Positive counts *)

Section Positive.

Variable pd : Pandas.
Variable self : BaseFetcher.t.

Lemma ones_positive (ds : list Date) : positive_rows (ones ds).
Proof. apply Forall_fmap, Forall_forall. intros; simpl; lia. Qed.

Lemma add_row_positive d v acc :
  0 < v -> positive_rows acc -> positive_rows (add_row d v acc).
Proof.
  intros Hv. unfold positive_rows.
  induction acc as [|[d' v'] tl IH]; simpl; intros Hacc.
  - by repeat constructor.
  - apply Forall_cons in Hacc as [Hv' Htl]. simpl in Hv'.
    destruct (d <? d'); [|destruct (d =? d')]; repeat constructor; simpl; auto; lia.
Qed.

Lemma groupby_sum_positive l : positive_rows l -> positive_rows (groupby_sum l).
Proof.
  unfold groupby_sum. assert (positive_rows []) as Hnil by constructor.
  revert Hnil. generalize (@nil (Date * Z)).
  induction l as [|[d v] l IH]; intros acc Hacc Hl; simpl; [exact Hacc|].
  apply Forall_cons in Hl as [Hv Hl]. apply IH; [|exact Hl].
  by apply add_row_positive.
Qed.

Lemma cumsum_from_positive total l :
  0 <= total -> positive_rows l -> positive_rows (cumsum_from total l).
Proof.
  unfold positive_rows. revert total.
  induction l as [|[d v] l IH]; intros total Htotal Hl; simpl; [constructor|].
  apply Forall_cons in Hl as [Hv Hl]. simpl in Hv.
  constructor; [simpl; lia | apply IH; [lia | exact Hl]].
Qed.

Lemma sort_values_positive l : positive_rows l -> positive_rows (sort_values l).
Proof. unfold positive_rows. by rewrite sort_values_perm. Qed.

Lemma week_rows_positive (w : Week) : positive_rows (ContributionsFetcher.week_rows w).
Proof.
  apply Forall_forall. intros [d c] Hin.
  apply week_rows_spec in Hin as (i & count & _ & _ & _ & Hpos). exact Hpos.
Qed.

Lemma release_rows_positive (release : Item) :
  positive_rows (DownloadsFetcher.release_rows pd release).
Proof.
  unfold DownloadsFetcher.release_rows. repeat case_match; try constructor.
  apply Forall_forall. intros [d c] Hin.
  apply list_elem_of_omap in Hin as (asset & _ & Hrow).
  cbv zeta in Hrow. repeat case_match; try discriminate.
  inversion Hrow; subst. simpl. lia.
Qed.

Lemma positive_app l1 l2 : positive_rows l1 -> positive_rows l2 -> positive_rows (l1 ++ l2).
Proof. intros H1 H2. apply Forall_app. by split. Qed.

Ltac loop_positive script :=
  induction script as [|resp script IH]; intros page acc Hacc; simpl;
  [ by case_match
  | repeat case_match; try assumption;
    try (apply IH; apply positive_app; [assumption|]);
    try (apply positive_app; [assumption|]);
    try apply ones_positive ].

Lemma stars_rest_positive (script : RestScript) : forall page acc,
  positive_rows acc -> positive_rows (StarsFetcher.rest_pages pd self script page acc).
Proof. loop_positive script. Qed.

Lemma forks_rest_positive (script : RestScript) : forall page acc,
  positive_rows acc -> positive_rows (ForksFetcher.rest_pages pd self script page acc).
Proof. loop_positive script. Qed.

Lemma commits_rest_positive (script : RestScript) : forall page acc,
  positive_rows acc -> positive_rows (ContributionsFetcher.commit_pages pd self script page acc).
Proof. loop_positive script. Qed.

Lemma flat_map_positive {A} (f : A -> list (Date * Z)) (l : list A) :
  (forall x, positive_rows (f x)) -> positive_rows (flat_map f l).
Proof.
  intros Hf. induction l as [|x l IH]; simpl; [constructor|].
  apply positive_app; auto.
Qed.

Lemma releases_rest_positive (script : RestScript) : forall page acc,
  positive_rows acc -> positive_rows (DownloadsFetcher.release_pages pd self script page acc).
Proof.
  loop_positive script;
    (apply positive_app;
     [ apply release_rows_positive
     | apply (flat_map_positive (DownloadsFetcher.release_rows pd)), release_rows_positive ]).
Qed.

Lemma stars_graphql_positive (script : GraphQLScript) : forall acc,
  positive_rows acc -> positive_rows (StarsFetcher.graphql_pages pd script acc).
Proof.
  induction script as [|resp script IH]; intros acc Hacc; simpl; [assumption|].
  repeat case_match; try assumption;
    try (apply IH); apply positive_app; try assumption; apply ones_positive.
Qed.

Lemma gathered_positive (p : FetchPath) (api : Api) :
  positive_rows (gathered p pd self api).
Proof.
  destruct p; cbn [gathered]; try apply ones_positive; try constructor.
  - apply stars_rest_positive. constructor.
  - apply stars_graphql_positive. constructor.
  - apply forks_rest_positive. constructor.
  - apply commits_rest_positive. constructor.
  - apply releases_rest_positive. constructor.
Qed.

Lemma stats_positive (script : list (Response (list Week))) attempts :
  positive_rows (rows (ContributionsFetcher.stats_attempts script attempts)).
Proof.
  revert attempts. induction script as [|resp script IH]; intros [|attempt later]; simpl;
    try constructor.
  destruct (status_code resp =? 202); [destruct (attempt <? 2); [apply IH | constructor]|].
  destruct (negb _); [constructor|].
  destruct (json resp) as [|w ws]; [constructor|].
  pose proof (flat_map_positive ContributionsFetcher.week_rows (w :: ws) week_rows_positive)
    as Hpos.
  change (flat_map ContributionsFetcher.week_rows (w :: ws))
    with (ContributionsFetcher.week_rows w ++ flat_map ContributionsFetcher.week_rows ws)
    in Hpos.
  destruct (ContributionsFetcher.week_rows w
            ++ flat_map ContributionsFetcher.week_rows ws); [constructor|].
  simpl rows. by apply sort_values_positive.
Qed.

End Positive.

(** Whatever the API answers, on every fetch path each row of the series
    holds a positive value: a day without activity has no row, and no row
    holds zero or less. *)
Theorem fetch_rows_are_positive
    (p : FetchPath) (pd : Pandas) (self : BaseFetcher.t) (api : Api) :
  positive_rows (rows (run p pd self api)).
Proof.
  destruct (aggregates_by_day p) eqn:Hagg.
  - rewrite run_rows by exact Hagg. apply groupby_sum_positive, gathered_positive.
  - destruct p; try discriminate; cbn [run].
    + rewrite forks_fetch_graphql_rows.
      apply cumsum_from_positive; [lia|].
      apply groupby_sum_positive, ones_positive.
    + apply stats_positive.
    + unfold ContributionsFetcher.fetch. cbv zeta. case_match; [apply stats_positive|].
      change (ContributionsFetcher._fetch_from_commits_api pd self (rest api))
        with (run CommitListing pd self api).
      rewrite run_rows by reflexivity. apply groupby_sum_positive, gathered_positive.
Qed.

(** * Issues, commit statistics and cursors *)

Lemma issues_skip_pulls (pd : Pandas) (self : BaseFetcher.t) (script : RestScript) :
  Forall (fun resp => Forall (fun it => pull_request it = true) (json resp)) script ->
  forall page acc, IssuesFetcher.rest_pages pd self script page acc = acc.
Proof.
  induction 1 as [|resp script Hpulls _ IH]; intros page acc;
    cbn [IssuesFetcher.rest_pages]; [by case_match|].
  assert (IssuesFetcher.item_dates pd (json resp) = []) as Hnone.
  { unfold IssuesFetcher.item_dates.
    induction Hpulls as [|it items Hit _ IHitems]; [reflexivity|].
    simpl. by rewrite Hit. }
  destruct (json resp) as [|it items]; [by repeat case_match|].
  cbv zeta. rewrite Hnone, app_nil_r. repeat case_match; try reflexivity. apply IH.
Qed.



Lemma stats_attempts_ok header data later attempt attempts :
  ContributionsFetcher.stats_attempts (mkResponse 200 header data :: later) (attempt :: attempts)
  = mkDF ["date"; "commits"] (sort_values (flat_map ContributionsFetcher.week_rows data)).
Proof.
  simpl. destruct data as [|w ws]; [reflexivity|].
  change (flat_map ContributionsFetcher.week_rows (w :: ws))
    with (ContributionsFetcher.week_rows w ++ flat_map ContributionsFetcher.week_rows ws).
  destruct (ContributionsFetcher.week_rows w
            ++ flat_map ContributionsFetcher.week_rows ws); reflexivity.
Qed.

(** The commit statistics are asked for at most three times: one or two
    answers with status 202 are passed over and the 200 answer after them is
    used; after three of them the statistics give nothing and the
    contributions fetch turns to the commit listing. *)
Theorem commit_stats_retry
    (pd : Pandas) (self : BaseFetcher.t) (r1 r2 r3 : Response (list Week))
    (header : option string) (data : list Week)
    (later : list (Response (list Week))) (commits : RestScript) :
  status_code r1 = 202 ->
  let answer :=
    mkDF ["date"; "commits"] (sort_values (flat_map ContributionsFetcher.week_rows data)) in
  (ContributionsFetcher._fetch_from_stats_api (r1 :: mkResponse 200 header data :: later)
   = answer)
  /\ (status_code r2 = 202 ->
      ContributionsFetcher._fetch_from_stats_api
        (r1 :: r2 :: mkResponse 200 header data :: later)
      = answer)
  /\ (status_code r2 = 202 -> status_code r3 = 202 ->
      ContributionsFetcher._fetch_from_stats_api (r1 :: r2 :: r3 :: later)
      = ContributionsFetcher.no_commits
      /\ ContributionsFetcher.fetch pd self (r1 :: r2 :: r3 :: later) commits
         = ContributionsFetcher._fetch_from_commits_api pd self commits).
Proof.
  intros H1 answer. subst answer.
  unfold ContributionsFetcher.fetch, ContributionsFetcher._fetch_from_stats_api.
  change (seqZ 0 3) with [0; 1; 2].
  split; [|split].
  - rewrite <- (stats_attempts_ok header data later 1 [2]).
    simpl. by rewrite H1.
  - intros H2. rewrite <- (stats_attempts_ok header data later 2 []).
    simpl. by rewrite H1, H2.
  - intros H2 H3. simpl. by rewrite H1, H2, H3.
Qed.

Lemma commit_stats_retry_witness :
  status_code still_computing = 202
  /\ ContributionsFetcher._fetch_from_stats_api
       (still_computing :: still_computing :: example_commit_activity)
     = mkDF ["date"; "commits"]
            [(days_from_civil 2024 1 8, 2); (days_from_civil 2024 1 11, 1)]
  /\ ContributionsFetcher._fetch_from_stats_api
       (still_computing :: still_computing :: still_computing :: example_commit_activity)
     = ContributionsFetcher.no_commits.
Proof.
  assert (status_code still_computing = 202) as H202 by reflexivity.
  split; [exact H202|]. split.
  - unfold example_commit_activity.
    rewrite (proj1 (proj2 (commit_stats_retry iso_pandas BaseFetcher.defaults
               still_computing still_computing still_computing None _ [] [] H202)) H202).
    reflexivity.
  - exact (proj1 (proj2 (proj2 (commit_stats_retry iso_pandas BaseFetcher.defaults
               still_computing still_computing still_computing None []
               example_commit_activity [] H202)) H202 H202)).
Defined.

Section Cursors.

Variable pd : Pandas.

Lemma graphql_dates_last field items cap (last : Response Data) (after : GraphQLScript) :
  next_page field last = false ->
  forall budget (before : GraphQLScript) dates,
    graphql_dates pd field items cap budget (before ++ last :: after) dates
    = graphql_dates pd field items cap budget (before ++ [last]) dates.
Proof.
  intros Hlast. unfold next_page in Hlast.
  induction budget as [|budget IH]; intros before dates; [reflexivity|].
  destruct before as [|resp before]; simpl.
  - by rewrite Hlast.
  - repeat case_match; try reflexivity; apply IH.
Qed.

Lemma graphql_dates_budget field items cap (budget : nat) :
  forall (script : GraphQLScript) dates,
    graphql_dates pd field items cap budget (take budget script) dates
    = graphql_dates pd field items cap budget script dates.
Proof.
  induction budget as [|budget IH]; intros script dates; [reflexivity|].
  destruct script as [|resp script]; [reflexivity|]. simpl.
  repeat case_match; try reflexivity; apply IH.
Qed.

End Cursors.

(** The cursor loops of the forks and pull-request GraphQL fetches read at
    most 200 pages, and stop at the first page that announces no next page:
    no answer after it is read. *)
Theorem graphql_fetch_stops
    (pd : Pandas) (before after : GraphQLScript) (last : Response Data) :
  (forall script,
      ForksFetcher.fetch_graphql pd (take 200 script) = ForksFetcher.fetch_graphql pd script
      /\ PRsFetcher.fetch_graphql pd (take 200 script) = PRsFetcher.fetch_graphql pd script)
  /\ (next_page forks last = false ->
      ForksFetcher.fetch_graphql pd (before ++ last :: after)
      = ForksFetcher.fetch_graphql pd (before ++ [last]))
  /\ (next_page pullRequests last = false ->
      PRsFetcher.fetch_graphql pd (before ++ last :: after)
      = PRsFetcher.fetch_graphql pd (before ++ [last])).
Proof.
  unfold ForksFetcher.fetch_graphql, ForksFetcher.graphql_events, PRsFetcher.fetch_graphql.
  split; [|split].
  - intros script. by rewrite !graphql_dates_budget.
  - intros Hlast. by rewrite (graphql_dates_last pd forks nodes None last after Hlast).
  - intros Hlast. by rewrite (graphql_dates_last pd pullRequests nodes None last after Hlast).
Qed.

Lemma graphql_fetch_stops_witness :
  let last := respond ForksFetcher.query
                (last_page [node_created "2024-01-01T10:00:00Z"]) in
  next_page forks last = false
  /\ ForksFetcher.fetch_graphql iso_pandas ([] ++ last :: example_forks_graphql)
     = ForksFetcher.fetch_graphql iso_pandas ([] ++ [last]).
Proof.
  intros last.
  assert (next_page forks last = false) as Hlast by reflexivity.
  split; [exact Hlast|].
  exact (proj1 (proj2 (graphql_fetch_stops iso_pandas [] example_forks_graphql last)) Hlast).
Defined.

(** * Further properties of the orchestrator *)

Section Store.

Variable data_dir : string.
Variable hours : Z.
Variable w : World.
Variables owner repo : string.

Local Abbreviation self := (DataManager.__init__ data_dir hours).

Lemma unknown_type t :
  t ∉ metric_types ->
  DataManager.expected_cols t = Raise KeyError
  /\ DataManager.call_fetcher w t owner repo = Raise ValueError.
Proof.
  intros Hnot. split.
  - unfold DataManager.expected_cols.
    rewrite (not_elem_of_list_to_map_1 (M:=gmap string)); [reflexivity | exact Hnot].
  - unfold DataManager.call_fetcher, metric_types in *.
    repeat match goal with
           | |- context [String.eqb t ?s] =>
               destruct (String.eqb_spec t s) as [Heq|_];
               [exfalso; apply Hnot; rewrite Heq; repeat constructor|]
           end.
    reflexivity.
Qed.

Lemma filter_all {A} (P : A -> Prop) `{forall x, Decision (P x)} (l : list A) :
  Forall P l -> filter P l = l.
Proof.
  induction 1 as [|x l Hx _ IH]; [reflexivity|].
  by rewrite filter_cons, decide_True, IH.
Qed.

Lemma filter_shorter {A} (P : A -> Prop) `{forall x, Decision (P x)} (l : list A) (x : A) :
  x ∈ l -> ~ P x -> (length (filter P l) < length l)%nat.
Proof.
  induction 1 as [x l|x y l Hin IH]; intros Hx; rewrite filter_cons.
  - rewrite decide_False by exact Hx. pose proof (length_filter P l). simpl. lia.
  - destruct (decide (P y)); simpl; [specialize (IH Hx); lia|].
    pose proof (length_filter P l). lia.
Qed.

Lemma is_fresh_after_write files path df :
  0 <= hours ->
  DataManager._is_data_stale self w (<[path := mkFile (now w) df]> files) path = Ok false.
Proof.
  intros Hhours. rewrite is_data_stale_unfold, lookup_insert_eq. cbn [mtime].
  f_equal. apply bool_decide_eq_false.
  replace ((now w - now w) / Qc_of_Z 3600)%Qc with (Qc_of_Z 0).
  - rewrite <- Z2Qc_inj_lt. lia.
  - rewrite Z2Qc_inj_0. field. apply seconds_per_hour_nonzero.
Qed.

Lemma for_each_type_dom step types files (result : gmap string DataFrame) result' files' :
  DataManager.for_each_type step types files result = (Ok result', files') ->
  dom result' = list_to_set types ∪ dom result.
Proof.
  revert files result. induction types as [|t types IH]; intros files result Heq; simpl in *.
  - inversion Heq; subst. set_solver.
  - destruct (step files t) as [[df|e] files1]; [|discriminate].
    apply IH in Heq. rewrite Heq, dom_insert_L. set_solver.
Qed.

End Store.

(** A metric type outside the six makes the fetch-and-save step raise a key
    error: the handler that should return the empty series looks the type up
    in the table of expected columns. A forced [get_data] lets it through;
    the disk is left as it was. *)
Theorem fetch_and_save_unknown_type
    (data_dir : string) (hours : Z) (w : World) (files : gmap string File)
    (t owner repo : string) :
  t ∉ metric_types ->
  DataManager._fetch_and_save_data w files t owner repo = (Raise KeyError, files)
  /\ DataManager.get_data (DataManager.__init__ data_dir hours) w files t owner repo true
     = (Raise KeyError, files).
Proof.
  intros Hnot. destruct (unknown_type w owner repo t Hnot) as [Hcols Hcall].
  assert (DataManager._fetch_and_save_data w files t owner repo = (Raise KeyError, files))
    as Hsave.
  { unfold DataManager._fetch_and_save_data. by rewrite Hcall, Hcols. }
  split; [exact Hsave|]. unfold DataManager.get_data. exact Hsave.
Qed.

Lemma fetch_and_save_unknown_type_witness :
  ("watchers" ∉ metric_types)
  /\ DataManager._fetch_and_save_data (example_world (Ok example_fresh))
       (example_disk 1700000000 example_cached) "watchers" "octocat" "hello"
     = (Raise KeyError, example_disk 1700000000 example_cached).
Proof.
  assert ("watchers" ∉ metric_types) as Hnot.
  { unfold metric_types. intros Hin.
    repeat (apply elem_of_cons in Hin as [Heq|Hin]; [discriminate|]).
    by apply elem_of_nil in Hin. }
  split; [exact Hnot|].
  exact (proj1 (fetch_and_save_unknown_type "data" 24 (example_world (Ok example_fresh))
                  (example_disk 1700000000 example_cached) "watchers" "octocat" "hello"
                  Hnot)).
Defined.

(** What the fetch-and-save step does with a frame of the right schema: it
    returns it, and replaces the artifact by it, dated now; when the write
    fails the frame is returned all the same and the disk is left as it
    was. *)
Theorem fetch_and_save_persists
    (w : World) (files : gmap string File) (t owner repo : string) (df : DataFrame) :
  t ∈ metric_types ->
  fetch w t owner repo = Ok df ->
  columns df = schema_of t ->
  let path := path_for w t owner repo in
  DataManager._fetch_and_save_data w files t owner repo
  = (Ok df, if writable w path then <[path := mkFile (now w) df]> files else files).
Proof.
  intros Hin Hfetch Hcols path. subst path.
  destruct (known_type w owner repo t Hin) as [Hexp Hcall].
  unfold DataManager._fetch_and_save_data. rewrite Hcall, Hfetch, Hexp. cbn [bind].
  rewrite filter_all by (rewrite Hcols; apply Forall_forall; auto).
  rewrite Nat.eqb_refl. cbn [negb]. rewrite <- Hcols.
  destruct df as [cols rs]. cbn [columns rows]. unfold to_csv.
  destruct (writable w (path_for w t owner repo)); reflexivity.
Qed.

Lemma fetch_and_save_persists_witness :
  let w := example_world (Ok example_fresh) in
  "stars" ∈ metric_types
  /\ fetch w "stars" "octocat" "hello" = Ok example_fresh
  /\ columns example_fresh = schema_of "stars"
  /\ DataManager._fetch_and_save_data w ∅ "stars" "octocat" "hello"
     = (Ok example_fresh, {[ "stars" := mkFile example_clock example_fresh ]}).
Proof.
  intros w.
  assert ("stars" ∈ metric_types) as Hin by (unfold metric_types; left).
  assert (fetch w "stars" "octocat" "hello" = Ok example_fresh) as Hfetch by reflexivity.
  assert (columns example_fresh = schema_of "stars") as Hcols by reflexivity.
  split; [exact Hin|]. split; [exact Hfetch|]. split; [exact Hcols|].
  exact (fetch_and_save_persists w ∅ "stars" "octocat" "hello" example_fresh
           Hin Hfetch Hcols).
Defined.

(** A fetched frame that lacks one of the two expected columns is not
    returned and not written: the step gives the empty series with the
    expected columns and leaves the disk as it was. *)
Theorem fetch_and_save_rejects_schema
    (w : World) (files : gmap string File) (t owner repo : string) (df : DataFrame)
    (missing : string) :
  t ∈ metric_types ->
  fetch w t owner repo = Ok df ->
  missing ∈ schema_of t -> missing ∉ columns df ->
  DataManager._fetch_and_save_data w files t owner repo
  = (Ok (empty_frame (schema_of t)), files).
Proof.
  intros Hin Hfetch Hmissing Hnot.
  destruct (known_type w owner repo t Hin) as [Hexp Hcall].
  unfold DataManager._fetch_and_save_data. rewrite Hcall, Hfetch, Hexp. cbn [bind].
  pose proof (filter_shorter (fun c => c ∈ columns df) (schema_of t) missing Hmissing Hnot)
    as Hshort.
  destruct (Nat.eqb_spec (length (filter (fun c => c ∈ columns df) (schema_of t)))
                         (length (schema_of t))) as [Heq|_]; [lia | reflexivity].
Qed.

Lemma fetch_and_save_rejects_schema_witness :
  let w := example_world (Ok example_fresh) in
  "forks" ∈ metric_types
  /\ fetch w "forks" "octocat" "hello" = Ok example_fresh
  /\ "forks" ∈ schema_of "forks" /\ ("forks" ∉ columns example_fresh)
  /\ DataManager._fetch_and_save_data w ∅ "forks" "octocat" "hello"
     = (Ok (empty_frame (schema_of "forks")), ∅).
Proof.
  intros w.
  assert ("forks" ∈ metric_types) as Hin by (unfold metric_types; repeat constructor).
  assert (fetch w "forks" "octocat" "hello" = Ok example_fresh) as Hfetch by reflexivity.
  assert ("forks" ∈ schema_of "forks") as Hmissing.
  { change (schema_of "forks") with ["date"; "forks"]. repeat constructor. }
  assert ("forks" ∉ columns example_fresh) as Hnot.
  { simpl. intros Hc. repeat (apply elem_of_cons in Hc as [Hc|Hc]; [discriminate|]).
    by apply elem_of_nil in Hc. }
  split; [exact Hin|]. split; [exact Hfetch|]. split; [exact Hmissing|].
  split; [exact Hnot|].
  exact (fetch_and_save_rejects_schema w ∅ "forks" "octocat" "hello" example_fresh "forks"
           Hin Hfetch Hmissing Hnot).
Defined.

(** Write then read: after a forced [get_data] that fetched a frame of the
    right schema onto a writable disk, an unforced [get_data] at the same
    time gives the same frame back from the artifact and leaves the disk
    alone, provided the threshold is not negative. *)
Theorem get_data_round_trip
    (data_dir : string) (hours : Z) (w : World) (files : gmap string File)
    (t owner repo : string) (df : DataFrame) :
  t ∈ metric_types ->
  fetch w t owner repo = Ok df ->
  columns df = schema_of t ->
  writable w (path_for w t owner repo) = true ->
  0 <= hours ->
  let self := DataManager.__init__ data_dir hours in
  let files' := <[path_for w t owner repo := mkFile (now w) df]> files in
  DataManager.get_data self w files t owner repo true = (Ok df, files')
  /\ DataManager.get_data self w files' t owner repo false = (Ok df, files').
Proof.
  intros Hin Hfetch Hcols Hwrite Hhours self files'. subst self files'. split.
  - unfold DataManager.get_data. cbv zeta.
    rewrite (fetch_and_save_persists w files t owner repo df Hin Hfetch Hcols).
    cbv zeta. by rewrite Hwrite.
  - unfold DataManager.get_data. cbv zeta.
    rewrite is_fresh_after_write by exact Hhours.
    unfold DataManager._load_data, get_for. by rewrite lookup_insert_eq.
Qed.

Lemma get_data_round_trip_witness :
  let w := example_world (Ok example_fresh) in
  let self := DataManager.__init__ "data" 24 in
  "stars" ∈ metric_types
  /\ fetch w "stars" "octocat" "hello" = Ok example_fresh
  /\ columns example_fresh = schema_of "stars"
  /\ writable w (path_for w "stars" "octocat" "hello") = true
  /\ 0 <= 24
  /\ DataManager.get_data self w
       (<[path_for w "stars" "octocat" "hello" := mkFile (now w) example_fresh]> ∅)
       "stars" "octocat" "hello" false
     = (Ok example_fresh,
        <[path_for w "stars" "octocat" "hello" := mkFile (now w) example_fresh]> ∅).
Proof.
  intros w self.
  assert ("stars" ∈ metric_types) as Hin by (unfold metric_types; left).
  assert (fetch w "stars" "octocat" "hello" = Ok example_fresh) as Hfetch by reflexivity.
  assert (columns example_fresh = schema_of "stars") as Hcols by reflexivity.
  assert (writable w (path_for w "stars" "octocat" "hello") = true) as Hwrite by reflexivity.
  assert (0 <= 24) as Hhours by lia.
  repeat (split; [assumption|]).
  exact (proj2 (get_data_round_trip "data" 24 w ∅ "stars" "octocat" "hello" example_fresh
                  Hin Hfetch Hcols Hwrite Hhours)).
Defined.

(** A fresh artifact is served as it is. When the artifact is not stale, an
    unforced [get_data] returns its table, and so does the range-aware step
    when the table is not empty and its dates reach from the start to the
    end of the requested range; the fetcher has no part in the result and
    the disk is left as it was. *)
Theorem fresh_cache_is_served
    (data_dir : string) (hours : Z) (w : World) (files : gmap string File)
    (t owner repo : string) (f : File) (start_date end_date lo hi : Date) :
  t ∈ metric_types ->
  let self := DataManager.__init__ data_dir hours in
  let path := path_for w t owner repo in
  files !! path = Some f ->
  DataManager._is_data_stale self w files path = Ok false ->
  DataManager.get_data self w files t owner repo false = (Ok (content f), files)
  /\ (empty (content f) = false -> "date" ∈ columns (content f) ->
      DataManager.date_min (dates (content f)) = Some lo ->
      DataManager.date_max (dates (content f)) = Some hi ->
      lo <= start_date -> end_date <= hi ->
      DataManager.range_step self w owner repo start_date end_date false files t
      = (Ok (content f), files)).
Proof.
  intros Hin self path Hfile Hfresh. subst self path. split.
  - unfold DataManager.get_data. cbv zeta. rewrite Hfresh.
    unfold DataManager._load_data, get_for. by rewrite Hfile.
  - intros Hrows Hdate Hlo Hhi Hstart Hend.
    rewrite range_step_unfold by exact Hin. cbv zeta.
    unfold cached_frame. rewrite Hfile.
    unfold must_fetch, DataManager.range_covered. rewrite Hrows.
    rewrite bool_decide_eq_true_2 by exact Hdate.
    fold (dates (content f)). rewrite Hlo, Hhi.
    destruct (Z.leb_spec lo start_date); [|lia].
    destruct (Z.leb_spec end_date hi); [|lia].
    cbn [andb]. rewrite Hfresh. reflexivity.
Qed.

Lemma fresh_cache_is_served_witness :
  let w := example_world (Raise FetchError) in
  let self := DataManager.__init__ "data" 24 in
  let files := example_disk 1700086000 example_cached in
  "stars" ∈ metric_types
  /\ DataManager.range_step self w "octocat" "hello"
       (days_from_civil 2024 1 1) (days_from_civil 2024 1 2) false files "stars"
     = (Ok example_cached, files).
Proof.
  intros w self files.
  assert ("stars" ∈ metric_types) as Hin by (unfold metric_types; left).
  split; [exact Hin|].
  refine (proj2 (fresh_cache_is_served "data" 24 w files "stars" "octocat" "hello"
                   (mkFile (Qc_of_Z 1700086000) example_cached)
                   (days_from_civil 2024 1 1) (days_from_civil 2024 1 2)
                   (days_from_civil 2024 1 1) (days_from_civil 2024 1 2)
                   Hin _ _) _ _ _ _ _ _).
  - reflexivity.
  - vm_compute. reflexivity.
  - reflexivity.
  - simpl. repeat constructor.
  - reflexivity.
  - reflexivity.
  - lia.
  - lia.
Defined.

(** Both retrievals of all metrics return a dictionary with exactly the six
    metric types as keys, whatever the fetchers do. *)
Theorem retrievals_return_six_metrics
    (data_dir : string) (hours : Z) (w : World) (files : gmap string File)
    (owner repo : string) (start_date end_date : Date) (force : bool) :
  let self := DataManager.__init__ data_dir hours in
  (exists result files',
      DataManager.get_all_cached_data self w files owner repo force = (Ok result, files')
      /\ dom result = list_to_set metric_types)
  /\ (exists result files',
      DataManager.get_all_cached_data_for_range self w files owner repo
        start_date end_date force = (Ok result, files')
      /\ dom result = list_to_set metric_types).
Proof.
  intros self. subst self. split.
  - destruct (get_all_cached_data_ok data_dir hours w owner repo files force)
      as (result & files' & Heq).
    exists result, files'. split; [exact Heq|].
    unfold DataManager.get_all_cached_data in Heq. rewrite self_types in Heq.
    apply for_each_type_dom in Heq. rewrite Heq, dom_empty_L. set_solver.
  - destruct (get_all_cached_data_for_range_ok data_dir hours w owner repo files
                start_date end_date force) as (result & files' & Heq).
    exists result, files'. split; [exact Heq|].
    unfold DataManager.get_all_cached_data_for_range in Heq. rewrite self_types in Heq.
    apply for_each_type_dom in Heq. rewrite Heq, dom_empty_L. set_solver.
Qed.

(** A failed refresh renews the artifact. When the fetcher raises during a
    forced range-aware step over a non-empty cache, the cached rows,
    deduplicated and sorted, are written back dated now; with a threshold
    that is not negative the artifact is then no longer stale, however old
    it was. *)
Theorem failed_refresh_renews_artifact
    (data_dir : string) (hours : Z) (w : World) (files : gmap string File)
    (t owner repo : string) (e : Exn) (f : File) (start_date end_date : Date) :
  t ∈ metric_types ->
  fetch w t owner repo = Raise e ->
  let self := DataManager.__init__ data_dir hours in
  let path := path_for w t owner repo in
  files !! path = Some f ->
  empty (content f) = false ->
  writable w path = true ->
  0 <= hours ->
  let kept := DataManager.merge (content f) (empty_frame (schema_of t)) in
  let out := DataManager.range_step self w owner repo start_date end_date true files t in
  out = (Ok kept, <[path := mkFile (now w) kept]> files)
  /\ DataManager._is_data_stale self w (snd out) path = Ok false.
Proof.
  intros Hin Hraise self path Hfile Hrows Hwrite Hhours kept out.
  assert (out = (Ok kept, <[path := mkFile (now w) kept]> files)) as Hout.
  { subst out kept self path.
    rewrite range_step_unfold by exact Hin. cbv zeta.
    rewrite (fetch_and_save_raises w owner repo files t e Hin Hraise).
    unfold cached_frame, must_fetch. rewrite Hfile, Hrows. cbn [orb].
    unfold to_csv. by rewrite Hwrite. }
  split; [exact Hout|].
  rewrite Hout. cbn [snd]. subst self. by apply is_fresh_after_write.
Qed.

Lemma failed_refresh_renews_artifact_witness :
  let w := example_world (Raise FetchError) in
  let self := DataManager.__init__ "data" 24 in
  let files := example_disk 1600000000 example_cached in
  DataManager._is_data_stale self w files "stars" = Ok true
  /\ DataManager._is_data_stale self w
       (snd (DataManager.range_step self w "octocat" "hello"
               (days_from_civil 2024 1 1) (days_from_civil 2024 1 2) true files "stars"))
       "stars" = Ok false.
Proof.
  intros w self files.
  split; [vm_compute; reflexivity|].
  refine (proj2 (failed_refresh_renews_artifact "data" 24 w files "stars" "octocat" "hello"
                   FetchError (mkFile (Qc_of_Z 1600000000) example_cached)
                   (days_from_civil 2024 1 1) (days_from_civil 2024 1 2)
                   _ _ _ _ _ _)).
  - unfold metric_types. left.
  - reflexivity.
  - reflexivity.
  - reflexivity.
  - reflexivity.
  - lia.
Defined.

(** The merge of a cached and a fetched series holds every date of either
    exactly once, in ascending order, and no other date. *)
Theorem merge_is_sorted_union (cached fresh : DataFrame) :
  distinct_and_sorted (DataManager.merge cached fresh)
  /\ (forall d, d ∈ dates (DataManager.merge cached fresh)
                <-> d ∈ dates cached \/ d ∈ dates fresh).
Proof. split; [apply merge_shape | apply merge_dates]. Qed.

Lemma force_fetch_each_ok (w : World) (owner repo : string) (data_types : list string) :
  forall files (result : gmap string DataFrame),
  exists result' files',
    DataManager.force_fetch_each metric_types w owner repo data_types files result
    = (Ok result', files')
    /\ dom result' = list_to_set (filter (fun t => t ∈ metric_types) data_types) ∪ dom result.
Proof.
  induction data_types as [|t data_types IH]; intros files result; simpl.
  - exists result, files. split; [reflexivity|]. set_solver.
  - rewrite filter_cons. destruct (decide (t ∈ metric_types)) as [Hin|Hnot].
    + rewrite bool_decide_eq_true_2 by exact Hin.
      destruct (fetch_and_save_ok w owner repo files t Hin) as (df & files1 & ->).
      destruct (IH files1 (<[t := df]> result)) as (result' & files' & Heq & Hdom).
      exists result', files'. split; [exact Heq|].
      rewrite Hdom, dom_insert_L. set_solver.
    + rewrite bool_decide_eq_false_2 by exact Hnot. apply IH.
Qed.

(** The forced fetch never raises. Its dictionary holds the requested types
    that are among the six, and no other key: an unknown type is passed
    over; without a request they are downloads and contributions. *)
Theorem force_fetch_keeps_known_types
    (data_dir : string) (hours : Z) (w : World) (files : gmap string File)
    (owner repo : string) (data_types : option (list string)) :
  exists result files',
    DataManager.force_fetch_real_data (DataManager.__init__ data_dir hours) w files
      owner repo data_types = (Ok result, files')
    /\ dom result
       = list_to_set (filter (fun t => t ∈ metric_types)
                             (default ["downloads"; "contributions"] data_types)).
Proof.
  unfold DataManager.force_fetch_real_data. cbv zeta. rewrite self_types.
  destruct (force_fetch_each_ok w owner repo
              (default ["downloads"; "contributions"] data_types) files ∅)
    as (result & files' & Heq & Hdom).
  exists result, files'. split; [exact Heq|]. rewrite Hdom, dom_empty_L. set_solver.
Qed.

(** * The dashboard helpers *)

Section Dashboard.

Implicit Types (df : DataFrame) (l : list (Date * Z)).

Lemma filter_sorted (P : Date * Z -> Prop) `{forall r, Decision (P r)} l :
  StronglySorted Z.lt l.*1 -> StronglySorted Z.lt (filter P l).*1.
Proof.
  induction l as [|r l IH]; intros Hs; [constructor|].
  apply StronglySorted_inv in Hs as [Hs Hall]. rewrite filter_cons.
  destruct (decide (P r)); [|by apply IH].
  constructor; [by apply IH|].
  apply Forall_forall. intros d Hd. rewrite Forall_forall in Hall. apply Hall.
  apply list_elem_of_fmap in Hd as (r' & -> & Hr').
  apply list_elem_of_filter in Hr' as [_ Hr']. by apply list_elem_of_fmap_2.
Qed.

Lemma filter_by_date_rows df start_d end_d :
  "date" ∈ columns df ->
  App.filter_by_date df start_d end_d
  = Ok (mkDF (columns df) (filter (fun r => start_d <= r.1 /\ r.1 <= end_d) (rows df))).
Proof.
  intros Hdate. unfold App.filter_by_date, empty.
  destruct df as [cols rs]. cbn [columns rows] in *.
  destruct rs as [|r rs]; [reflexivity|].
  destruct cols as [|c cols]; [by apply elem_of_nil in Hdate|].
  by rewrite bool_decide_eq_true_2.
Qed.

Lemma period_activity_sum df y_col :
  columns df = ["date"; y_col] ->
  App.get_period_activity df y_col = Ok (App.sum (rows df).*2).
Proof.
  intros Hcols. unfold App.get_period_activity, empty, App.values_of. rewrite Hcols.
  destruct (rows df); [reflexivity|]. by rewrite String.eqb_refl.
Qed.

Lemma sum_split l (a b c : Date) :
  a <= b + 1 -> b <= c ->
  App.sum (filter (fun r => a <= r.1 /\ r.1 <= c) l).*2
  = App.sum (filter (fun r => a <= r.1 /\ r.1 <= b) l).*2
    + App.sum (filter (fun r => b + 1 <= r.1 /\ r.1 <= c) l).*2.
Proof.
  intros Hab Hbc. rewrite !sum_values.
  induction l as [|[d v] l IH]; [reflexivity|].
  rewrite !filter_cons. cbn [fst].
  destruct (decide (a <= d /\ d <= c)), (decide (a <= d /\ d <= b)),
           (decide (b + 1 <= d /\ d <= c)); simpl; lia.
Qed.

End Dashboard.

(** Filtering a frame to a period keeps its columns and exactly the rows
    whose date lies in the period, both ends included; it keeps a series
    with ascending distinct dates so, and filtering twice changes nothing
    more. *)
Theorem filter_by_date_keeps_period (df : DataFrame) (start_d end_d : Date) :
  "date" ∈ columns df ->
  exists out,
    App.filter_by_date df start_d end_d = Ok out
    /\ columns out = columns df
    /\ (forall r, r ∈ rows out <-> r ∈ rows df /\ start_d <= r.1 <= end_d)
    /\ (StronglySorted Z.lt (dates df) -> StronglySorted Z.lt (dates out))
    /\ App.filter_by_date out start_d end_d = Ok out.
Proof.
  intros Hdate. rewrite filter_by_date_rows by exact Hdate.
  eexists. split; [reflexivity|]. split; [reflexivity|]. split; [|split].
  - intros r. cbn [rows]. rewrite list_elem_of_filter. tauto.
  - intros Hs. unfold dates. cbn [rows]. by apply filter_sorted.
  - rewrite filter_by_date_rows by exact Hdate. cbn [columns rows]. do 2 f_equal.
    apply filter_all, Forall_forall. intros r Hr.
    by apply list_elem_of_filter in Hr as [Hr _].
Qed.

Lemma filter_by_date_witness :
  "date" ∈ columns example_cached
  /\ App.filter_by_date example_cached (days_from_civil 2024 1 2) (days_from_civil 2024 1 31)
     = Ok (mkDF ["date"; "stars"] [(days_from_civil 2024 1 2, 3)]).
Proof.
  assert ("date" ∈ columns example_cached) as Hdate by (simpl; left).
  split; [exact Hdate|].
  destruct (filter_by_date_keeps_period example_cached (days_from_civil 2024 1 2)
              (days_from_civil 2024 1 31) Hdate) as (out & Hout & _).
  rewrite Hout. vm_compute in Hout. injection Hout as <-. reflexivity.
Defined.

(** The activity the dashboard shows for a period is additive: over two
    adjoining periods it is the sum of the activities over each. *)
Theorem activity_in_period_is_additive
    (df : DataFrame) (y_col : string) (a b c : Date) :
  columns df = ["date"; y_col] ->
  a <= b + 1 -> b <= c ->
  exists left_ right_,
    activity_in_period df y_col a b = Ok left_
    /\ activity_in_period df y_col (b + 1) c = Ok right_
    /\ activity_in_period df y_col a c = Ok (left_ + right_).
Proof.
  intros Hcols Hab Hbc.
  assert ("date" ∈ columns df) as Hdate by (rewrite Hcols; left).
  unfold activity_in_period.
  rewrite !filter_by_date_rows by exact Hdate. cbn [bind].
  rewrite !period_activity_sum by exact Hcols. cbn [rows].
  do 2 eexists. split; [reflexivity|]. split; [reflexivity|].
  f_equal. by apply sum_split.
Qed.

Lemma activity_in_period_witness :
  columns example_cached = ["date"; "stars"]
  /\ exists left_ right_,
       activity_in_period example_cached "stars"
         (days_from_civil 2024 1 1) (days_from_civil 2024 1 1) = Ok left_
       /\ activity_in_period example_cached "stars"
            (days_from_civil 2024 1 1 + 1) (days_from_civil 2024 1 31) = Ok right_
       /\ activity_in_period example_cached "stars"
            (days_from_civil 2024 1 1) (days_from_civil 2024 1 31) = Ok (left_ + right_).
Proof.
  assert (columns example_cached = ["date"; "stars"]) as Hcols by reflexivity.
  split; [exact Hcols|].
  apply (activity_in_period_is_additive example_cached "stars"
           (days_from_civil 2024 1 1) (days_from_civil 2024 1 1) (days_from_civil 2024 1 31)
           Hcols); vm_compute; discriminate.
Defined.

(** * Downloads *)


